(** * EdgeAI backend (Fractionate Edge): a shallow embedding of
      [server/models.py], [server/database.py] and [server/main.py].

    Conventions of the embedding.

    - Python exceptions are values of [exn]; a call that may raise returns a
      [result].  State mutated before an exception is raised is kept, as in
      Python: the state monad [M] of [Module Main] returns the world next to
      the result, also when the result is [Raise].
    - Text is [string], a character standing for a code point in U+0000 to
      U+00FF; Python's [str] methods used by the source are written out in
      [Module Py] as they act on these code points.
    - A Python [float] is an IEEE 754 binary64 value ([spec_float], with
      precision 53 and maximal exponent 1024); division, subtraction and
      [round] are the correctly rounded operations.  The true wall-clock
      readings are rationals ([Q]); [time.time()] returns the nearest double,
      so that every finite double is a possible reading.  Database
      timestamps and the supervisor's deadlines stay rationals.
    - What the operating system, the network, the model files and the
      third-party libraries (httpx, PyMuPDF, PIL, python-docx, transformers,
      json, hashlib) answer is an input: a record of observations or of
      functions, passed explicitly. *)

From Stdlib Require Import List String Ascii ZArith QArith Qround Qabs Lia Lqa Bool
  Arith DecimalString DecimalZ Permutation Sorted SpecFloat.
Import ListNotations.

Close Scope Q_scope.
Local Open Scope nat_scope.
Local Open Scope string_scope.
Local Open Scope list_scope.

(* ===================================================================== *)
(** * Python values and [str] methods                                      *)
(* ===================================================================== *)

Module Py.

(** The exception classes the three source files raise or catch. *)
Inductive exn : Type :=
| FileNotFoundError (msg : string)
| RuntimeError (msg : string)
| TimeoutError (msg : string)            (* the builtin *)
| TimeoutExpired (cmd : list string) (timeout : Z)   (* subprocess.TimeoutExpired *)
| ConnectError (msg : string)            (* httpx.ConnectError *)
| TimeoutException (msg : string)        (* httpx.TimeoutException and subclasses *)
| HTTPException (status_code : Z) (detail : string)
| Exception (cls msg : string).          (* any other subclass of Exception *)

Inductive result (A : Type) : Type :=
| Ok (a : A)
| Raise (e : exn).
Arguments Ok {A} a.
Arguments Raise {A} e.

(** [str(n)] for an [int]. *)
Definition str_Z (z : Z) : string := NilZero.string_of_int (Z.to_int z).
Definition str_nat (n : nat) : string := str_Z (Z.of_nat n).

(** [sep.join(l)] *)
Definition join (sep : string) (l : list string) : string := String.concat sep l.

(** [c.isprintable()] for a code point below 256: the controls U+0000 to
    U+001F and U+007F to U+009F, the no-break space U+00A0 and the soft
    hyphen U+00AD are not printable. *)
Definition isprintable (c : ascii) : bool :=
  let n := nat_of_ascii c in
  (((32 <=? n) && (n <=? 126)) || ((161 <=? n) && negb (n =? 173)))%nat.

Definition hex_digit (n : nat) : ascii :=
  if (n <? 10)%nat then ascii_of_nat (48 + n) else ascii_of_nat (87 + n).

(** One character of [repr(s)] inside the quotes [quote]. *)
Definition repr_char (quote c : ascii) : list ascii :=
  let n := nat_of_ascii c in
  if Ascii.eqb c quote || Ascii.eqb c (ascii_of_nat 92) then [ascii_of_nat 92; c]
  else if (n =? 9)%nat then [ascii_of_nat 92; "t"%char]
  else if (n =? 10)%nat then [ascii_of_nat 92; "n"%char]
  else if (n =? 13)%nat then [ascii_of_nat 92; "r"%char]
  else if isprintable c then [c]
  else [ascii_of_nat 92; "x"%char; hex_digit (n / 16); hex_digit (n mod 16)].

(** [repr(s)] for a [str]: single quotes, unless the text has a single quote
    and no double quote. *)
Definition py_repr (s : string) : string :=
  let l := list_ascii_of_string s in
  let squote := ascii_of_nat 39 in
  let dquote := ascii_of_nat 34 in
  let quote := if existsb (Ascii.eqb squote) l && negb (existsb (Ascii.eqb dquote) l)
               then dquote else squote in
  string_of_list_ascii (quote :: flat_map (repr_char quote) l ++ [quote]).

(** [str(l)] for a list of [str]. *)
Definition py_repr_list (l : list string) : string :=
  "[" ++ join ", " (map py_repr l) ++ "]".

(** [str(e)].  [subprocess.TimeoutExpired] prints the command and the
    timeout it was raised with; Starlette's [HTTPException] prints the status
    code and the detail.  The text of the other classes is their one
    argument. *)
Definition str_exn (e : exn) : string :=
  match e with
  | FileNotFoundError m | RuntimeError m | TimeoutError m
  | ConnectError m | TimeoutException m => m
  | TimeoutExpired cmd timeout =>
      "Command '" ++ py_repr_list cmd ++ "' timed out after "
        ++ str_Z timeout ++ " seconds"
  | HTTPException c d => str_Z c ++ ": " ++ d
  | Exception _ m => m
  end.

(** [c.isspace()] for a code point below 256: TAB to CR, FS to US, the
    space, NEL (U+0085) and the no-break space (U+00A0). *)
Definition isspace (c : ascii) : bool :=
  let n := nat_of_ascii c in
  (((9 <=? n) && (n <=? 13)) || ((28 <=? n) && (n <=? 32))
   || (n =? 133) || (n =? 160))%nat.

Fixpoint lstrip_chars (l : list ascii) : list ascii :=
  match l with
  | c :: r => if isspace c then lstrip_chars r else l
  | [] => []
  end.

Definition strip_chars (l : list ascii) : list ascii :=
  rev (lstrip_chars (rev (lstrip_chars l))).

(** [s.strip()] *)
Definition strip (s : string) : string :=
  string_of_list_ascii (strip_chars (list_ascii_of_string s)).

(** [s.startswith(p)] *)
Definition startswith (p s : string) : bool := String.prefix p s.

(** [s[n:]] *)
Definition slice_from (n : nat) (s : string) : string :=
  substring n (String.length s - n) s.

(** [s[:n]] *)
Definition slice_to (n : nat) (s : string) : string := substring 0 n s.

(** [c.lower()] for a code point below 256: A to Z, and the capital
    letters U+00C0 to U+00DE but for the multiplication sign U+00D7. *)
Definition lower_char (c : ascii) : ascii :=
  let n := nat_of_ascii c in
  if (((65 <=? n) && (n <=? 90))
      || ((192 <=? n) && (n <=? 222) && negb (n =? 215)))%nat
  then ascii_of_nat (n + 32) else c.

Definition lower (s : string) : string :=
  string_of_list_ascii (map lower_char (list_ascii_of_string s)).

(** [c in s] for a one-character [c]. *)
Definition contains_char (c : ascii) (s : string) : bool :=
  existsb (Ascii.eqb c) (list_ascii_of_string s).

(** The characters after the last [c] of [l]; all of [l] when it has none:
    [s.rsplit(c, 1)[-1]]. *)
Fixpoint after_last (c : ascii) (l : list ascii) : list ascii :=
  match l with
  | [] => []
  | x :: r =>
      if Ascii.eqb x c
      then (if existsb (Ascii.eqb c) r then after_last c r else r)
      else (if existsb (Ascii.eqb c) r then after_last c r else l)
  end.

Definition rsplit1_last (c : ascii) (s : string) : string :=
  string_of_list_ascii (after_last c (list_ascii_of_string s)).

(** [s.split()]: the maximal runs of non-space characters. *)
Fixpoint split_ws_aux (cur : list ascii) (l : list ascii) : list string :=
  match l with
  | [] => match cur with [] => [] | _ => [string_of_list_ascii (rev cur)] end
  | c :: r =>
      if isspace c
      then match cur with
           | [] => split_ws_aux [] r
           | _ => string_of_list_ascii (rev cur) :: split_ws_aux [] r
           end
      else split_ws_aux (c :: cur) r
  end.

Definition split_ws (s : string) : list string :=
  split_ws_aux [] (list_ascii_of_string s).

(** Truthiness of a [str]. *)
Definition nonempty (s : string) : bool := negb (String.eqb s "").

(** The values the vision engine and the JSON decoder hand back: strings,
    mappings, sequences, and atoms (numbers, booleans, [None]) of which only
    the truth value and the printed form matter here. *)
#[local] Unset Elimination Schemes.
Inductive pyval : Type :=
| PStr (s : string)
| PDict (d : list (string * pyval))
| PList (l : list pyval)
| PAtom (truthy : bool) (type_name repr : string).
#[local] Set Elimination Schemes.

Definition truthy (v : pyval) : bool :=
  match v with
  | PStr s => nonempty s
  | PDict d => match d with [] => false | _ => true end
  | PList l => match l with [] => false | _ => true end
  | PAtom b _ _ => b
  end.

Definition type_name (v : pyval) : string :=
  match v with
  | PStr _ => "str"
  | PDict _ => "dict"
  | PList _ => "list"
  | PAtom _ t _ => t
  end.

(** [d.get(k, default)] on a mapping. *)
Fixpoint dict_get (k : string) (d : list (string * pyval)) : option pyval :=
  match d with
  | [] => None
  | (k', v) :: r => if String.eqb k k' then Some v else dict_get k r
  end.

(** ** Floats *)

(** A Python [float]. *)
Definition float : Type := spec_float.

Definition fdiv : float -> float -> float := SFdiv 53 1024.
Definition fsub : float -> float -> float := SFsub 53 1024.

(** [float(n)] for an [int], rounded to nearest, ties to even.  (Python
    raises [OverflowError] beyond the range of a double; the integers
    converted here are counts of tokens.) *)
Definition float_of_Z (z : Z) : float := binary_normalize 53 1024 z 0 false.

(** The double nearest to a rational, ties to even: the correctly rounded
    quotient of the numerator by the denominator. *)
Definition float_of_Q (q : Q) : float :=
  match Qnum q with
  | Z0 => S754_zero false
  | Zpos p => fdiv (S754_finite false p 0) (S754_finite false (Qden q) 0)
  | Zneg p => fdiv (S754_finite true p 0) (S754_finite false (Qden q) 0)
  end.

(** [x > 0] *)
Definition float_gt0 (x : float) : bool := SFltb (S754_zero false) x.

(** The rational a finite double stands for. *)
Definition float_value (s : bool) (m : positive) (e : Z) : Q :=
  let a := match e with
           | Z0 => inject_Z (Zpos m)
           | Zpos k => inject_Z (Zpos m * 2 ^ Zpos k)
           | Zneg k => Qmake (Zpos m) (2 ^ k)
           end in
  if s then (- a)%Q else a.

(** The integer nearest to a rational, ties to the even one. *)
Definition round_half_even (q : Q) : Z :=
  let f := Qfloor q in
  match Qcompare (q - inject_Z f)%Q (1 # 2)%Q with
  | Lt => f
  | Gt => (f + 1)%Z
  | Eq => if Z.even f then f else (f + 1)%Z
  end.

(** [round(x, d)] for a float [x] and [d >= 0]: the exact value of [x] is
    rounded to [d] decimals, ties to even, and the double nearest to that
    decimal is returned; zeros, infinities and NaN round to themselves. *)
Definition py_round (d : nat) (x : float) : float :=
  match x with
  | S754_finite s m e =>
      let k := round_half_even (float_value s m e * inject_Z (10 ^ Z.of_nat d)) in
      match k with
      | Z0 => S754_zero s
      | _ => float_of_Q (Qmake k (Z.to_pos (10 ^ Z.of_nat d)))
      end
  | _ => x
  end.

End Py.
Export Py.

(* ===================================================================== *)
(** * server/models.py                                                     *)
(* ===================================================================== *)

Module Models.

(** ** LlamaServerManager *)

(** A [subprocess.Popen] handle.  [returncode] is what [poll()] answers:
    [None] while the child is alive. [stderr] is the decoded content of the
    captured pipe, [None] when there is no pipe.  [args] is the command the
    handle was made with. *)
Record Popen : Type := mkPopen {
  pid : Z;
  returncode : option Z;
  stderr : option string;
  args : list string
}.

Record LlamaServerManager : Type := mkLlama {
  binary_path : string;
  model_path : string;
  port : Z;
  process : option Popen;
  _start_time : option Q
}.

(** [__init__] *)
Definition LlamaServerManager_init (binary model : string) : LlamaServerManager :=
  mkLlama binary model 8082 None None.

Definition set_process (m : LlamaServerManager) (p : option Popen)
  : LlamaServerManager :=
  mkLlama (binary_path m) (model_path m) (port m) p (_start_time m).

Definition set_start_time (m : LlamaServerManager) (t : option Q)
  : LlamaServerManager :=
  mkLlama (binary_path m) (model_path m) (port m) (process m) t.

(** [is_running]: [self.process is not None and self.process.poll() is None] *)
Definition is_running (m : LlamaServerManager) : bool :=
  match process m with
  | Some p => match returncode p with None => true | Some _ => false end
  | None => false
  end.

(** [pid] property *)
Definition pid_of (m : LlamaServerManager) : option Z :=
  if is_running m then option_map pid (process m) else None.

(** [uptime_seconds] at wall-clock time [now]; a start time of [0.0] is
    falsy in Python. *)
Definition uptime_seconds (m : LlamaServerManager) (now : Q) : option Q :=
  if is_running m then
    match _start_time m with
    | Some t => if Qeq_bool t 0 then None else Some (now - t)%Q
    | None => None
    end
  else None.

(** The signals [stop] delivers to the child. *)
Inductive signal : Type := SIGTERM | SIGKILL.

(** What the child does when [stop] signals it: whether it has exited (and
    with which code) by the end of the 10 s wait after [terminate()], and by
    the end of the 5 s wait after [kill()]. *)
Record StopEnv : Type := mkStopEnv {
  exits_after_terminate : option Z;
  exits_after_kill : option Z
}.

(** [stop]: result, manager afterwards, signals delivered.
    [Popen.terminate()] and [Popen.kill()] deliver nothing to a child that
    has already been reaped, and [wait] then returns at once. *)
Definition stop (m : LlamaServerManager) (env : StopEnv)
  : result unit * LlamaServerManager * list signal :=
  match process m with
  | None => (Ok tt, m, [])
  | Some p =>
      let cleared := set_start_time (set_process m None) None in
      match returncode p with
      | Some _ => (Ok tt, cleared, [])
      | None =>
          match exits_after_terminate env with
          | Some _ => (Ok tt, cleared, [SIGTERM])
          | None =>
              (* subprocess.TimeoutExpired: kill and wait 5 s more *)
              match exits_after_kill env with
              | Some _ => (Ok tt, cleared, [SIGTERM; SIGKILL])
              | None => (Raise (TimeoutExpired (args p) 5), m, [SIGTERM; SIGKILL])
              end
          end
      end
  end.

(** The lifecycle fields go together: no start time without a process
    handle.  It holds of a new manager and is kept by [stop]. *)
Definition lifecycle_wf (m : LlamaServerManager) : Prop :=
  process m = None -> _start_time m = None.

(** The outcome of one HTTP request made with httpx. *)
Inductive http_outcome : Type :=
| Response (status_code : Z)
| HttpRaises (e : exn).

(** The exceptions [health_check] catches. *)
Definition connect_or_timeout (e : exn) : bool :=
  match e with
  | ConnectError _ | TimeoutException _ => true
  | _ => false
  end.

(** [health_check] *)
Definition health_check (m : LlamaServerManager) (net : http_outcome)
  : result bool :=
  if negb (is_running m) then Ok false
  else match net with
       | Response sc => Ok (sc =? 200)%Z
       | HttpRaises (ConnectError _) => Ok false
       | HttpRaises (TimeoutException _) => Ok false
       | HttpRaises e => Raise e
       end.

(** [_optimal_threads]: [max(1, (os.cpu_count() or 4) // 2)] *)
Definition _optimal_threads (cpu_count : option nat) : nat :=
  let n := match cpu_count with
           | Some 0%nat | None => 4%nat
           | Some k => k
           end in
  Nat.max 1 (n / 2).

(** What one iteration of the readiness loop observes: the clock at the
    loop test, [process.poll()], and the answer to the health request. *)
Record poll_obs : Type := mkObs {
  obs_time : Q;
  obs_poll : option Z;
  obs_health : http_outcome
}.

Definition Qlt_bool (a b : Q) : bool := negb (Qle_bool b a).

(** The text [_wait_for_ready] reads from the child's stderr pipe. *)
Definition captured_stderr (p : Popen) : string :=
  match stderr p with Some s => s | None => "" end.

Definition exited_message (code : Z) (err : string) : string :=
  "llama-server exited with code " ++ str_Z code ++ ": " ++ slice_to 500 err.

Definition timeout_message (timeout : Z) : string :=
  "llama-server failed to start within " ++ str_Z timeout ++ "s".

(** The [while time.time() < deadline] loop of [_wait_for_ready], one
    observation per iteration.  [None]: the observations ran out while the
    loop was still polling. *)
Fixpoint poll_until_ready (timeout : Z) (deadline : Q) (p : Popen)
    (obs : list poll_obs) : option (result unit * Popen) :=
  match obs with
  | [] => None
  | o :: rest =>
      if Qlt_bool (obs_time o) deadline then
        match (match returncode p with Some c => Some c | None => obs_poll o end) with
        | Some code =>
            let p' := mkPopen (pid p) (Some code) (stderr p) (args p) in
            Some (Raise (RuntimeError (exited_message code (captured_stderr p))), p')
        | None =>
            match obs_health o with
            | Response sc =>
                if (sc =? 200)%Z then Some (Ok tt, p)
                else poll_until_ready timeout deadline p rest
            | HttpRaises (ConnectError _) =>
                poll_until_ready timeout deadline p rest
            | HttpRaises e => Some (Raise e, p)
            end
        end
      else Some (Raise (TimeoutError (timeout_message timeout)), p)
  end.

(** [_wait_for_ready(timeout=120)]; [t0] is the clock when the deadline is
    computed. *)
Definition _wait_for_ready (timeout : Z) (t0 : Q) (p : Popen)
    (obs : list poll_obs) : option (result unit * Popen) :=
  poll_until_ready timeout (t0 + inject_Z timeout)%Q p obs.

(** Everything [start] reads from outside the manager. *)
Record StartEnv : Type := mkStartEnv {
  binary_is_file : bool;
  model_is_file : bool;
  cpu_count : option nat;
  spawn : list string -> result Popen;   (* subprocess.Popen(cmd, ...) *)
  spawn_time : Q;                        (* time.time() after the spawn *)
  ready_t0 : Q;
  ready_obs : list poll_obs;
  stop_env : StopEnv
}.

Definition build_cmd (m : LlamaServerManager) (thread_count : nat)
    (context_size : Z) : list string :=
  [ binary_path m; "-m"; model_path m; "--host"; "127.0.0.1";
    "--port"; str_Z (port m); "-t"; str_nat thread_count;
    "-c"; str_Z context_size; "--log-disable" ].

(** [thread_count = threads or self._optimal_threads()] *)
Definition thread_count_of (threads : option nat) (cpus : option nat) : nat :=
  match threads with
  | Some 0%nat | None => _optimal_threads cpus
  | Some t => t
  end.

(** The deadline of [start]'s readiness wait. *)
Definition ready_deadline (env : StartEnv) : Q :=
  (ready_t0 env + inject_Z 120)%Q.

(** An iteration of the readiness loop that goes on to the next one: before
    the deadline, child alive, health request refused or not yet 200. *)
Definition still_polling (deadline : Q) (o : poll_obs) : bool :=
  Qlt_bool (obs_time o) deadline
  && match obs_poll o with None => true | Some _ => false end
  && match obs_health o with
     | Response sc => negb (sc =? 200)%Z
     | HttpRaises (ConnectError _) => true
     | HttpRaises _ => false
     end.

(** [start(threads, context_size)] *)
Definition start (m : LlamaServerManager) (threads : option nat)
    (context_size : Z) (env : StartEnv)
  : option (result unit * LlamaServerManager) :=
  if is_running m then Some (Ok tt, m)
  else if negb (binary_is_file env) then
    Some (Raise (FileNotFoundError
                   ("llama-server binary not found: " ++ binary_path m)), m)
  else if negb (model_is_file env) then
    Some (Raise (FileNotFoundError ("Model file not found: " ++ model_path m)), m)
  else
    match spawn env (build_cmd m (thread_count_of threads (cpu_count env))
                                 context_size) with
    | Raise e => Some (Raise e, m)
    | Ok p =>
        let m1 := set_start_time (set_process m (Some p)) (Some (spawn_time env)) in
        match _wait_for_ready 120 (ready_t0 env) p (ready_obs env) with
        | None => None
        | Some (Ok _, p') => Some (Ok tt, set_process m1 (Some p'))
        | Some (Raise (TimeoutError msg), p') =>
            let '(r, m2, _) := stop (set_process m1 (Some p')) (stop_env env) in
            match r with
            | Ok _ => Some (Raise (TimeoutError msg), m2)
            | Raise e => Some (Raise e, m2)
            end
        | Some (Raise e, p') => Some (Raise e, set_process m1 (Some p'))
        end
    end.

(** [get_status] at wall-clock time [now]. *)
Record LlamaStatus : Type := mkLlamaStatus {
  st_installed : bool;
  st_running : bool;
  st_model_path : string;
  st_pid : option Z;
  st_uptime_seconds : option Q
}.

Definition get_status (m : LlamaServerManager) (installed : bool) (now : Q)
  : LlamaStatus :=
  mkLlamaStatus installed (is_running m) (model_path m) (pid_of m)
                (uptime_seconds m now).

(** ** Florence2Manager *)

Record Florence2Manager : Type := mkFlorence {
  fl_model_path : string;
  model : option nat;          (* opaque handle to the loaded weights *)
  processor : option nat;
  is_loaded : bool;
  _load_time : option Q
}.

Definition Florence2Manager_init (path : string) : Florence2Manager :=
  mkFlorence path None None false None.

(** What [load] and [process_image] get from transformers/torch. *)
Record VisionEnv (image : Type) : Type := mkVisionEnv {
  model_from_pretrained : result nat;
  processor_from_pretrained : result nat;
  load_clock : Q;
  (* the two generate/decode/post-process passes: caption, then OCR *)
  run_caption : image -> result pyval;
  run_ocr : image -> result pyval
}.
Arguments model_from_pretrained {image}.
Arguments processor_from_pretrained {image}.
Arguments load_clock {image}.
Arguments run_caption {image}.
Arguments run_ocr {image}.

(** [load] *)
Definition load {image} (f : Florence2Manager) (env : VisionEnv image)
  : result unit * Florence2Manager :=
  if is_loaded f then (Ok tt, f)
  else
    match model_from_pretrained env with
    | Raise e => (Raise e, f)
    | Ok mh =>
        let f1 := mkFlorence (fl_model_path f) (Some mh) (processor f)
                             (is_loaded f) (_load_time f) in
        match processor_from_pretrained env with
        | Raise e => (Raise e, f1)
        | Ok ph =>
            (Ok tt, mkFlorence (fl_model_path f) (Some mh) (Some ph) true
                               (Some (load_clock env)))
        end
    end.

(** [unload] *)
Definition unload (f : Florence2Manager) : Florence2Manager :=
  if negb (is_loaded f) then f
  else mkFlorence (fl_model_path f) None None false None.

(** [process_image]: the [results] dict, keys [caption] and [ocr]. *)
Definition process_image {image} (f : Florence2Manager) (env : VisionEnv image)
    (img : image) : result (pyval * pyval) * Florence2Manager :=
  let '(r, f1) := if is_loaded f then (Ok tt, f) else load f env in
  match r with
  | Raise e => (Raise e, f1)
  | Ok _ =>
      match run_caption env img with
      | Raise e => (Raise e, f1)
      | Ok cap =>
          match run_ocr env img with
          | Raise e => (Raise e, f1)
          | Ok ocr => (Ok (cap, ocr), f1)
          end
      end
  end.

End Models.

(* ===================================================================== *)
(** * server/database.py                                                   *)
(* ===================================================================== *)

Module Database.

(** Timestamps are wall-clock readings; [ORDER BY created_at] compares
    them. *)
Definition timestamp := Q.

(** A row of [conversations]. *)
Record ConversationRow : Type := mkConvRow {
  row_id : string;
  row_title : string;
  row_created_at : timestamp;
  row_updated_at : timestamp
}.

(** The [Conversation] dataclass. *)
Record Conversation : Type := mkConversation {
  conv_id : string;
  conv_title : string;
  conv_created_at : timestamp;
  conv_updated_at : timestamp;
  message_count : nat;
  has_documents : bool
}.

(** The [Message] dataclass, also the shape of a row of [messages]. *)
Record Message : Type := mkMessage {
  msg_id : string;
  conversation_id : string;
  role : string;
  content : string;
  has_document : bool;
  document_name : option string;
  document_type : option string;
  msg_created_at : timestamp
}.

(** Values of the [metadata] dict of a document. *)
Inductive meta_val : Type := MInt (n : Z) | MStr (s : string).
Definition metadata_t := list (string * meta_val).

(** A row of [document_cache]; the [metadata] column is JSON text or NULL. *)
Record CachedDocumentRow : Type := mkDocRow {
  drow_id : string;
  drow_file_hash : string;
  drow_original_name : string;
  drow_extracted_text : string;
  drow_extraction_method : string;
  drow_metadata : option metadata_t;
  drow_created_at : timestamp
}.

(** The [CachedDocument] dataclass. *)
Record CachedDocument : Type := mkCachedDocument {
  doc_id : string;
  file_hash : string;
  original_name : string;
  extracted_text : string;
  extraction_method : string;
  metadata : metadata_t;
  doc_created_at : timestamp
}.

Record LogRow : Type := mkLogRow {
  log_id : nat;
  log_model_name : string;
  log_event : string;
  log_details : option string
}.

(** The tables, rows in insertion order.  The connection is taken to be
    open, as it is between [lifespan]'s [connect] and [close]. *)
Record Database : Type := mkDb {
  conversations : list ConversationRow;
  messages : list Message;
  document_cache : list CachedDocumentRow;
  model_log : list LogRow
}.

Definition empty_db : Database := mkDb [] [] [] [].

Definition IntegrityError (what : string) : exn :=
  Exception "sqlite3.IntegrityError" what.

(** ** Helpers *)

Definition _count_messages (d : Database) (cid : string) : nat :=
  List.length (filter (fun m => String.eqb (conversation_id m) cid) (messages d)).

Definition _has_documents (d : Database) (cid : string) : bool :=
  (0 <? List.length (filter (fun m => String.eqb (conversation_id m) cid
                                     && has_document m) (messages d)))%nat.

(** ** Conversations *)

Definition find_conversation (d : Database) (cid : string)
  : option ConversationRow :=
  find (fun r => String.eqb (row_id r) cid) (conversations d).

Definition get_conversation (d : Database) (cid : string) : option Conversation :=
  match find_conversation d cid with
  | None => None
  | Some r =>
      Some (mkConversation (row_id r) (row_title r) (row_created_at r)
              (row_updated_at r) (_count_messages d cid) (_has_documents d cid))
  end.

Definition create_conversation (d : Database) (uuid : string) (now : timestamp)
    (title : string) : result Conversation * Database :=
  match find_conversation d uuid with
  | Some _ => (Raise (IntegrityError "UNIQUE constraint failed: conversations.id"), d)
  | None =>
      (Ok (mkConversation uuid title now now 0 false),
       mkDb (conversations d ++ [mkConvRow uuid title now now])
            (messages d) (document_cache d) (model_log d))
  end.

Definition update_rows (f : ConversationRow -> ConversationRow) (cid : string)
    (rows : list ConversationRow) : list ConversationRow :=
  map (fun r => if String.eqb (row_id r) cid then f r else r) rows.

Definition update_conversation (d : Database) (now : timestamp)
    (cid title : string) : option Conversation * Database :=
  let d' := mkDb (update_rows (fun r => mkConvRow (row_id r) title
                                          (row_created_at r) now)
                              cid (conversations d))
                 (messages d) (document_cache d) (model_log d) in
  match find_conversation d cid with
  | None => (None, d')
  | Some _ => (get_conversation d' cid, d')
  end.

(** [ON DELETE CASCADE] removes the conversation's messages with it. *)
Definition delete_conversation (d : Database) (cid : string) : bool * Database :=
  match find_conversation d cid with
  | None => (false, d)
  | Some _ =>
      (true,
       mkDb (filter (fun r => negb (String.eqb (row_id r) cid)) (conversations d))
            (filter (fun m => negb (String.eqb (conversation_id m) cid)) (messages d))
            (document_cache d) (model_log d))
  end.

Definition touch_conversation (d : Database) (now : timestamp) (cid : string)
  : Database :=
  mkDb (update_rows (fun r => mkConvRow (row_id r) (row_title r)
                                (row_created_at r) now)
                    cid (conversations d))
       (messages d) (document_cache d) (model_log d).

(** ** Messages *)

(** [save_message]: the INSERT fails on a duplicate primary key and, with
    [PRAGMA foreign_keys=ON], on a conversation id that does not exist.
    [now] is read once; [touch_conversation] reads the clock again. *)
Definition save_message (d : Database) (uuid : string) (now now' : timestamp)
    (cid role_ content_ : string) (has_doc : bool)
    (doc_name doc_type : option string) : result Message * Database :=
  if existsb (fun m => String.eqb (msg_id m) uuid) (messages d) then
    (Raise (IntegrityError "UNIQUE constraint failed: messages.id"), d)
  else match find_conversation d cid with
       | None => (Raise (IntegrityError "FOREIGN KEY constraint failed"), d)
       | Some _ =>
           let m := mkMessage uuid cid role_ content_ has_doc doc_name doc_type now in
           let d1 := mkDb (conversations d) (messages d ++ [m])
                          (document_cache d) (model_log d) in
           (Ok m, touch_conversation d1 now' cid)
       end.

(** [ORDER BY created_at ASC], as a stable insertion sort. *)
Fixpoint insert_by_created_at (m : Message) (l : list Message) : list Message :=
  match l with
  | [] => [m]
  | y :: r =>
      if Qle_bool (msg_created_at m) (msg_created_at y) then m :: y :: r
      else y :: insert_by_created_at m r
  end.

Fixpoint order_by_created_at (l : list Message) : list Message :=
  match l with
  | [] => []
  | m :: r => insert_by_created_at m (order_by_created_at r)
  end.

(** [get_messages]:
    [SELECT * FROM messages WHERE conversation_id = ?
     ORDER BY created_at ASC LIMIT ?] *)
Definition get_messages (d : Database) (cid : string) (limit : nat)
  : list Message :=
  firstn limit
    (order_by_created_at
       (filter (fun m => String.eqb (conversation_id m) cid) (messages d))).

(** ** Document cache *)

Definition get_cached_document (d : Database) (h : string)
  : option CachedDocument :=
  match find (fun r => String.eqb (drow_file_hash r) h) (document_cache d) with
  | None => None
  | Some r =>
      Some (mkCachedDocument (drow_id r) (drow_file_hash r) (drow_original_name r)
              (drow_extracted_text r) (drow_extraction_method r)
              (match drow_metadata r with Some md => md | None => [] end)
              (drow_created_at r))
  end.

(** [cache_document]: [id] is the primary key and [file_hash] is UNIQUE.
    SQLite tests the index declared last first, so a row that clashes on
    both is reported for [file_hash]. *)
Definition cache_document (d : Database) (uuid : string) (now : timestamp)
    (h name text method : string) (md : metadata_t)
  : result CachedDocument * Database :=
  if existsb (fun r => String.eqb (drow_file_hash r) h) (document_cache d) then
    (Raise (IntegrityError "UNIQUE constraint failed: document_cache.file_hash"), d)
  else if existsb (fun r => String.eqb (drow_id r) uuid) (document_cache d) then
    (Raise (IntegrityError "UNIQUE constraint failed: document_cache.id"), d)
  else
    let meta_json := match md with [] => None | _ => Some md end in
    (Ok (mkCachedDocument uuid h name text method md now),
     mkDb (conversations d) (messages d)
          (document_cache d ++ [mkDocRow uuid h name text method meta_json now])
          (model_log d)).


Definition get_conversations_count (d : Database) : nat :=
  List.length (conversations d).

(** ** Model log *)

Definition log_model_event (d : Database) (model_name event : string)
    (details : option string) : Database :=
  mkDb (conversations d) (messages d) (document_cache d)
       (model_log d ++ [mkLogRow (S (List.length (model_log d))) model_name event details]).

(** [ORDER BY updated_at DESC], as a stable insertion sort. *)
Fixpoint insert_by_updated_at (r : ConversationRow) (l : list ConversationRow)
  : list ConversationRow :=
  match l with
  | [] => [r]
  | y :: t =>
      if Qle_bool (row_updated_at y) (row_updated_at r) then r :: y :: t
      else y :: insert_by_updated_at r t
  end.

Fixpoint order_by_updated_at (l : list ConversationRow) : list ConversationRow :=
  match l with
  | [] => []
  | r :: t => insert_by_updated_at r (order_by_updated_at t)
  end.

(** [list_conversations]:
    [SELECT * FROM conversations ORDER BY updated_at DESC], each row with its
    message count and document flag. *)
Definition list_conversations (d : Database) : list Conversation :=
  map (fun r => mkConversation (row_id r) (row_title r) (row_created_at r)
                  (row_updated_at r) (_count_messages d (row_id r))
                  (_has_documents d (row_id r)))
      (order_by_updated_at (conversations d)).

(** ** Config *)

(** A row of [config]: [key] is the primary key.  No other method of the
    class reads or writes this table, so it is kept apart from [Database]. *)
Record ConfigRow : Type := mkConfigRow {
  cfg_key : string;
  cfg_value : string;
  cfg_updated_at : timestamp
}.

(** [get_config] *)
Definition get_config (c : list ConfigRow) (key : string) : option string :=
  option_map cfg_value (find (fun r => String.eqb (cfg_key r) key) c).

(** [set_config]:
    [INSERT ... ON CONFLICT(key) DO UPDATE SET value = ?, updated_at = ?] *)
Definition set_config (c : list ConfigRow) (now : timestamp) (key value : string)
  : list ConfigRow :=
  if existsb (fun r => String.eqb (cfg_key r) key) c
  then map (fun r => if String.eqb (cfg_key r) key
                     then mkConfigRow key value now else r) c
  else c ++ [mkConfigRow key value now].

(** ** What the schema's constraints keep true *)

(** [FOREIGN KEY (conversation_id) REFERENCES conversations(id)]: every
    message belongs to a conversation that is there. *)
Definition foreign_keys_ok (d : Database) : Prop :=
  forall m, In m (messages d) ->
            find_conversation d (conversation_id m) <> None.


(** [id TEXT PRIMARY KEY] of [messages]. *)
Definition message_ids_unique (d : Database) : Prop :=
  NoDup (map msg_id (messages d)).

(** The orders of the two listings. *)
Definition created_le (a b : Message) : Prop :=
  (msg_created_at a <= msg_created_at b)%Q.

Definition row_updated_ge (a b : ConversationRow) : Prop :=
  (row_updated_at b <= row_updated_at a)%Q.

Definition updated_ge (a b : Conversation) : Prop :=
  (conv_updated_at b <= conv_updated_at a)%Q.

End Database.

(* ===================================================================== *)
(** * server/main.py                                                       *)
(* ===================================================================== *)

Module Main.
Import Models Database.

(** Raw file content. *)
Definition bytes := string.

(** A decoded RGB image. *)
Record Image : Type := mkImage {
  width : Z;
  height : Z;
  pixels : bytes
}.

(** The third-party libraries and the machine, as functions of what they
    are given.  [wall_clock n] is the n-th reading of the clock
    ([time.time()], [datetime.now()]), [uuid4 n] the n-th [uuid.uuid4()]. *)
Record Libs : Type := mkLibs {
  sha256_hexdigest : bytes -> string;
  (* fitz.open(stream=...) and page.get_text() of every page *)
  fitz_page_texts : bytes -> result (list string);
  (* fitz.open, get_pixmap(dpi=150) and PIL decoding of every page *)
  fitz_page_images : bytes -> result (list Image);
  (* Image.open(io.BytesIO(...)).convert("RGB") *)
  pil_open_rgb : bytes -> result Image;
  (* docx.Document(...).paragraphs, the text of each *)
  docx_paragraph_texts : bytes -> result (list string);
  (* bytes.decode("utf-8"); None is UnicodeDecodeError *)
  decode_utf8 : bytes -> option string;
  vision : VisionEnv Image;
  (* str(v) of a value that is not a str *)
  py_str_of : pyval -> string;
  (* json.loads; None is json.JSONDecodeError *)
  json_loads : string -> option pyval;
  wall_clock : nat -> Q;
  uuid4 : nat -> string
}.

(** Calls into an extraction library, recorded in the order they are made:
    a ghost log, by which "no extraction work" can be said. *)
Inductive lib_call : Type :=
| FitzOpen | FitzRender | PilOpen | DocxOpen | Utf8Decode | VisionProcess.

(** The module-level globals [db], [llama], [florence], with the positions
    in the clock and uuid streams and the ghost log. *)
Record World : Type := mkWorld {
  db : Database;
  llama : LlamaServerManager;
  florence : Florence2Manager;
  clock_reads : nat;
  uuid_reads : nat;
  work : list lib_call
}.

(** ** The state-and-exception monad of the request handlers *)

Definition M (A : Type) : Type := World -> result A * World.

Definition ret {A} (a : A) : M A := fun w => (Ok a, w).

Definition bind {A B} (c : M A) (k : A -> M B) : M B :=
  fun w => match c w with
           | (Ok a, w') => k a w'
           | (Raise e, w') => (Raise e, w')
           end.

Definition raise {A} (e : exn) : M A := fun w => (Raise e, w).

Definition lift {A} (r : result A) : M A := fun w => (r, w).

Declare Scope m_scope.
Delimit Scope m_scope with M.
Notation "x <- c ;; k" := (bind c (fun x => k))
  (at level 61, c at next level, right associativity) : m_scope.
Notation "c ;;; k" := (bind c (fun _ => k))
  (at level 61, right associativity) : m_scope.
Local Open Scope m_scope.

(** [try: body finally: fin] *)
Definition try_finally {A} (body : M A) (fin : M unit) : M A :=
  fun w => let '(r, w1) := body w in
           match fin w1 with
           | (Ok _, w2) => (r, w2)
           | (Raise e, w2) => (Raise e, w2)
           end.

Definition get_db : M Database := fun w => (Ok (db w), w).

Definition put_db (d : Database) : M unit :=
  fun w => (Ok tt, mkWorld d (llama w) (florence w) (clock_reads w)
                           (uuid_reads w) (work w)).

Definition get_florence : M Florence2Manager := fun w => (Ok (florence w), w).

Definition put_florence (f : Florence2Manager) : M unit :=
  fun w => (Ok tt, mkWorld (db w) (llama w) f (clock_reads w)
                           (uuid_reads w) (work w)).

Definition get_llama : M LlamaServerManager := fun w => (Ok (llama w), w).

Definition put_llama (m : LlamaServerManager) : M unit :=
  fun w => (Ok tt, mkWorld (db w) m (florence w) (clock_reads w)
                           (uuid_reads w) (work w)).

(** [time.time()] / [datetime.now(timezone.utc)] *)
Definition tick (w : World) : World :=
  mkWorld (db w) (llama w) (florence w) (S (clock_reads w))
          (uuid_reads w) (work w).

Definition time_time (L : Libs) : M Q :=
  fun w => (Ok (wall_clock L (clock_reads w)), tick w).

(** [time.time()] at the [n]-th reading of the clock: the double nearest to
    the true reading. *)
Definition time_float (L : Libs) (n : nat) : float := float_of_Q (wall_clock L n).

(** [time.time()] *)
Definition time_time_float (L : Libs) : M float :=
  fun w => (Ok (time_float L (clock_reads w)), tick w).

(** [str(uuid.uuid4())] *)
Definition new_uuid (L : Libs) : M string :=
  fun w => (Ok (uuid4 L (uuid_reads w)),
            mkWorld (db w) (llama w) (florence w) (clock_reads w)
                    (S (uuid_reads w)) (work w)).

Definition log_work (c : lib_call) : M unit :=
  fun w => (Ok tt, mkWorld (db w) (llama w) (florence w) (clock_reads w)
                           (uuid_reads w) (work w ++ [c])).

(** The methods of [db], each reading the uuid and the clock as the source
    does. *)
Definition db_save_message (L : Libs) (cid role_ content_ : string) : M Message :=
  uuid <- new_uuid L ;;
  now <- time_time L ;;
  now' <- time_time L ;;
  d <- get_db ;;
  let '(r, d') := save_message d uuid now now' cid role_ content_ false None None in
  put_db d' ;;; lift r.

Definition db_update_conversation (L : Libs) (cid title : string)
  : M (option Conversation) :=
  now <- time_time L ;;
  d <- get_db ;;
  let '(r, d') := update_conversation d now cid title in
  put_db d' ;;; ret r.

Definition db_cache_document (L : Libs) (h name text method : string)
    (md : metadata_t) : M CachedDocument :=
  uuid <- new_uuid L ;;
  now <- time_time L ;;
  d <- get_db ;;
  let '(r, d') := cache_document d uuid now h name text method md in
  put_db d' ;;; lift r.

Definition db_log_model_event (model_name event : string)
    (details : option string) : M unit :=
  d <- get_db ;;
  put_db (log_model_event d model_name event details).

Definition nl : string := String (ascii_of_nat 10) EmptyString.

(** The double-quote character, as a string. *)
Definition dq : string := String (ascii_of_nat 34) EmptyString.


(** ** Document processing *)

(** [_compute_file_hash] *)
Definition _compute_file_hash (L : Libs) (data : bytes) : string :=
  sha256_hexdigest L data.

Definition page_separator : string := nl ++ nl ++ "---" ++ nl ++ nl.

(** [_extract_text_pdf] *)
Definition _extract_text_pdf (L : Libs) (file_data : bytes)
  : M (string * metadata_t) :=
  log_work FitzOpen ;;;
  pages <- lift (fitz_page_texts L file_data) ;;
  let pages_text := filter (fun t => nonempty (strip t)) pages in
  ret (join page_separator pages_text,
       [("pages", MInt (Z.of_nat (List.length pages_text)));
        ("method", MStr "text_pdf")]).

(** [_pdf_to_images] *)
Definition _pdf_to_images (L : Libs) (file_data : bytes) : M (list Image) :=
  log_work FitzRender ;;;
  lift (fitz_page_images L file_data).

(** [total_chars] of [_is_scanned_pdf]: the stripped length of every
    page's text, summed. *)
Definition total_chars (pages : list string) : nat :=
  fold_left (fun acc t => acc + String.length (strip t)) pages 0.

(** [chars_per_page = total_chars / max(len(doc), 1)], were a page count
    to come back. *)
Definition chars_per_page (total page_count : nat) : Q :=
  (inject_Z (Z.of_nat total)
   / inject_Z (Z.of_nat (Nat.max page_count 1)))%Q.

Definition scanned_threshold : Q := 50 # 1.

(** [len(doc)] on a document that has been closed: PyMuPDF raises
    [ValueError]. *)
Definition len_of_closed_document : result nat :=
  Raise (Exception "ValueError" "document closed").

(** [_is_scanned_pdf].  The pages are read and the document is closed; the
    page count is then asked of the closed document. *)
Definition _is_scanned_pdf (L : Libs) (file_data : bytes) : M bool :=
  log_work FitzOpen ;;;
  pages <- lift (fitz_page_texts L file_data) ;;
  let total := total_chars pages in
  page_count <- lift len_of_closed_document ;;
  ret (Qlt_bool (chars_per_page total page_count) scanned_threshold).

(** [str(v)] / the formatting of [v] in an f-string. *)
Definition py_str (L : Libs) (v : pyval) : string :=
  match v with
  | PStr s => s
  | _ => py_str_of L v
  end.

(** [_extract_caption_text] *)
Definition _extract_caption_text (L : Libs) (caption_result : pyval) : pyval :=
  match caption_result with
  | PStr s => PStr s
  | PDict d =>
      match dict_get "<MORE_DETAILED_CAPTION>" d with
      | Some v => v
      | None => PStr (py_str_of L caption_result)
      end
  | _ => PStr (py_str_of L caption_result)
  end.

Fixpoint all_strs (l : list pyval) : option (list string) :=
  match l with
  | [] => Some []
  | PStr s :: r => option_map (cons s) (all_strs r)
  | _ :: _ => None
  end.

(** [" ".join(v)] *)
Definition join_space (v : pyval) : result string :=
  match v with
  | PList l =>
      match all_strs l with
      | Some ss => Ok (join " " ss)
      | None => Raise (Exception "TypeError" "sequence item: expected str instance")
      end
  | PStr s =>
      Ok (join " " (map (fun c => String c EmptyString) (list_ascii_of_string s)))
  | PDict d => Ok (join " " (map fst d))
  | PAtom _ _ _ => Raise (Exception "TypeError" "can only join an iterable")
  end.

(** [_extract_ocr_text] *)
Definition _extract_ocr_text (L : Libs) (ocr_result : pyval) : result pyval :=
  match ocr_result with
  | PStr s => Ok (PStr s)
  | PDict d =>
      let region_data := match dict_get "<OCR_WITH_REGION>" d with
                         | Some v => v
                         | None => PDict []
                         end in
      match region_data with
      | PDict rd =>
          match dict_get "labels" rd with
          | Some labels =>
              match join_space labels with
              | Ok s => Ok (PStr s)
              | Raise e => Raise e
              end
          | None => Ok (PStr (py_str_of L ocr_result))
          end
      | _ => Ok (PStr (py_str_of L ocr_result))
      end
  | _ => Ok (PStr (py_str_of L ocr_result))
  end.

(** [florence.process_image(img)] on the global [florence]. *)
Definition florence_process_image (L : Libs) (img : Image) : M (pyval * pyval) :=
  log_work VisionProcess ;;;
  f <- get_florence ;;
  let '(r, f') := process_image f (vision L) img in
  put_florence f' ;;; lift r.

(** The body of the page loop of the scanned-PDF branch; [i] is the
    [enumerate] index. *)
Definition scanned_page_text (L : Libs) (i : nat) (img : Image) : M string :=
  result_ <- florence_process_image L img ;;
  let caption := _extract_caption_text L (fst result_) in
  ocr <- lift (_extract_ocr_text L (snd result_)) ;;
  let page_text := ("[Page " ++ str_nat (i + 1) ++ "]" ++ nl)%string in
  let page_text := if truthy caption
                   then (page_text ++ "Description: " ++ py_str L caption ++ nl)%string
                   else page_text in
  let page_text := if truthy ocr
                   then (page_text ++ "Text: " ++ py_str L ocr ++ nl)%string
                   else page_text in
  ret page_text.

Fixpoint scanned_pages (L : Libs) (i : nat) (images : list Image)
  : M (list string) :=
  match images with
  | [] => ret []
  | img :: rest =>
      t <- scanned_page_text L i img ;;
      ts <- scanned_pages L (S i) rest ;;
      ret (t :: ts)
  end.

Definition image_extensions : list string :=
  ["jpg"; "jpeg"; "png"; "tiff"; "tif"; "bmp"; "webp"].

Definition no_text_message : string :=
  "No text could be extracted from this image.".

(** The [try] block of [upload_document]:
    [(extracted_text, extraction_method, metadata)]. *)
Definition extract (L : Libs) (file_ext : string) (file_data : bytes)
  : M (string * string * metadata_t) :=
  if String.eqb file_ext "pdf" then
    scanned <- _is_scanned_pdf L file_data ;;
    if (scanned : bool) then
      images <- _pdf_to_images L file_data ;;
      page_texts <- scanned_pages L 0 images ;;
      ret (join (nl ++ nl)%string page_texts, "florence2",
           [("pages", MInt (Z.of_nat (List.length images)))])
    else
      tm <- _extract_text_pdf L file_data ;;
      ret (fst tm, "text_pdf", snd tm)
  else if existsb (String.eqb file_ext) image_extensions then
    log_work PilOpen ;;;
    img <- lift (pil_open_rgb L file_data) ;;
    result_ <- florence_process_image L img ;;
    let caption := _extract_caption_text L (fst result_) in
    ocr <- lift (_extract_ocr_text L (snd result_)) ;;
    let parts := (if truthy caption
                  then [("Description: " ++ py_str L caption)%string] else [])
                 ++ (if truthy ocr then [("Text: " ++ py_str L ocr)%string] else []) in
    ret (match parts with [] => no_text_message | _ => join nl parts end,
         "florence2",
         [("width", MInt (width img)); ("height", MInt (height img))])
  else if String.eqb file_ext "docx" then
    log_work DocxOpen ;;;
    paras <- lift (docx_paragraph_texts L file_data) ;;
    let paragraphs := filter (fun t => nonempty (strip t)) paras in
    ret (join (nl ++ nl)%string paragraphs, "docx",
         [("paragraphs", MInt (Z.of_nat (List.length paragraphs)))])
  else
    log_work Utf8Decode ;;;
    match decode_utf8 L file_data with
    | Some text => ret (text, "plaintext", [])
    | None => raise (HTTPException 400 ("Unsupported file type: ." ++ file_ext))
    end.

(** The [except] clauses of [upload_document]: an [HTTPException] is
    re-raised, anything else becomes a 500. *)
Definition translate_errors {A} (body : M A) : M A :=
  fun w => match body w with
           | (Raise (HTTPException c d), w') => (Raise (HTTPException c d), w')
           | (Raise e, w') =>
               (Raise (HTTPException 500
                         ("Failed to process document: " ++ str_exn e)), w')
           | (Ok a, w') => (Ok a, w')
           end.

(** The [finally] clause: unload Florence-2 after processing. *)
Definition unload_after_processing : M unit :=
  f <- get_florence ;;
  if is_loaded f then
    put_florence (unload f) ;;;
    db_log_model_event "florence2" "unloaded"
      (Some "Auto-unload after document processing")
  else ret tt.

(** The JSON body [upload_document] returns; [pages] is only in the body of
    a cache miss. *)
Record DocumentResult : Type := mkDocumentResult {
  document_id : string;
  res_original_name : string;
  pages : option meta_val;
  res_extracted_text : string;
  res_extraction_method : string;
  res_metadata : metadata_t;
  cached : bool;
  processing_time_seconds : float
}.

Fixpoint meta_get (k : string) (md : metadata_t) : option meta_val :=
  match md with
  | [] => None
  | (k', v) :: r => if String.eqb k k' then Some v else meta_get k r
  end.

Definition file_ext_of (filename : string) : string :=
  if contains_char "."%char filename
  then lower (rsplit1_last "."%char filename)
  else "".

(** [file.filename or "unknown"] *)
Definition filename_of (file_name : option string) : string :=
  match file_name with
  | Some s => if nonempty s then s else "unknown"
  | None => "unknown"
  end.

(** [c] leaves the database, the supervisor and the clock and uuid streams
    alone: it can only touch the vision gate and the ghost log. *)
Definition keeps {A} (c : M A) : Prop :=
  forall w, db (snd (c w)) = db w
            /\ llama (snd (c w)) = llama w
            /\ clock_reads (snd (c w)) = clock_reads w
            /\ uuid_reads (snd (c w)) = uuid_reads w.

(** [upload_document]; [file_name] is [file.filename]. *)
Definition upload_document (L : Libs) (file_data : bytes)
    (file_name : option string) : M DocumentResult :=
  start_time <- time_time_float L ;;
  let file_hash_ := _compute_file_hash L file_data in
  let filename := filename_of file_name in
  let file_ext := file_ext_of filename in
  d <- get_db ;;
  match get_cached_document d file_hash_ with
  | Some c =>
      t <- time_time_float L ;;
      ret (mkDocumentResult (doc_id c) (original_name c) None (extracted_text c)
             (extraction_method c) (metadata c) true
             (py_round 2 (fsub t start_time)))
  | None =>
      tmm <- try_finally (translate_errors (extract L file_ext file_data))
                         unload_after_processing ;;
      let '(text, method, md) := tmm in
      doc_record <- db_cache_document L file_hash_ filename text method md ;;
      t <- time_time_float L ;;
      ret (mkDocumentResult (doc_id doc_record) filename
             (Some (match meta_get "pages" md with
                    | Some v => v
                    | None => MInt 1
                    end))
             text method md false (py_round 2 (fsub t start_time)))
  end.


(** The body of a cache hit, and of a miss, as [upload_document] builds
    them. *)
Definition hit_result (c : CachedDocument) (elapsed : float) : DocumentResult :=
  mkDocumentResult (doc_id c) (original_name c) None (extracted_text c)
    (extraction_method c) (metadata c) true (py_round 2 elapsed).

Definition miss_result (doc : CachedDocument) (filename text method : string)
    (md : metadata_t) (elapsed : float) : DocumentResult :=
  mkDocumentResult (doc_id doc) filename
    (Some (match meta_get "pages" md with Some v => v | None => MInt 1 end))
    text method md false (py_round 2 elapsed).

(** The [CachedDocument] that [get_cached_document] makes of a row. *)
Definition doc_of_row (r : CachedDocumentRow) : CachedDocument :=
  mkCachedDocument (drow_id r) (drow_file_hash r) (drow_original_name r)
    (drow_extracted_text r) (drow_extraction_method r)
    (match drow_metadata r with Some md => md | None => [] end)
    (drow_created_at r).

(** ** Chat (streaming SSE) *)

Record ChatRequest : Type := mkChatRequest {
  req_conversation_id : string;
  req_message : string;
  system_prompt : option string
}.

(** An entry [{"role": ..., "content": ...}] of the completion request. *)
Record ChatMessage : Type := mkChatMessage {
  cm_role : string;
  cm_content : string
}.

(** The payload of one server-sent event, before [json.dumps]. *)
Inductive StreamEvent : Type :=
| Start (message_id : string)
| Token (content : string)
| Done (message_id : string) (total_tokens : nat) (tokens_per_second : float)
| Error (content : string).

Definition default_system_prompt : string :=
  "You are a helpful, concise AI assistant running locally on the user's machine via Fractionate Edge. You help with questions, document analysis, and general tasks.".

Definition lost_connection_message : string :=
  "Lost connection to Falcon3-7B. The model may have crashed.".

(** What the non-streaming title request meets: the status and what
    [data["choices"][0]["message"]["content"]] evaluates to, or the
    exception of the request. *)
Inductive title_outcome : Type :=
| TitleReply (status_code : Z) (content : result string)
| TitleRaises (e : exn).

(** What the engine's HTTP endpoint does during one chat invocation: the
    lines [response.aiter_lines()] yields, the exception that ends the
    iteration (or that the connection attempt raised, with no lines) if any,
    the exception raised when the two [async with] blocks are left after the
    loop if any, and the answer to the title request. *)
Record ChatNet : Type := mkChatNet {
  stream_lines : list string;
  stream_error : option exn;
  close_error : option exn;
  title_reply : title_outcome
}.

(** [v.get(k, default)] on a decoded JSON value. *)
Definition py_get (v : pyval) (k : string) (default : pyval) : result pyval :=
  match v with
  | PDict d => Ok (match dict_get k d with Some x => x | None => default end)
  | _ => Raise (Exception "AttributeError"
                  ("'" ++ type_name v ++ "' object has no attribute 'get'"))
  end.

(** [v[0]] *)
Definition py_index0 (v : pyval) : result pyval :=
  match v with
  | PList (x :: _) => Ok x
  | PList [] => Raise (Exception "IndexError" "list index out of range")
  | PStr (String c _) => Ok (PStr (String c EmptyString))
  | PStr EmptyString => Raise (Exception "IndexError" "string index out of range")
  | PDict _ => Raise (Exception "KeyError" "0")
  | PAtom _ t _ => Raise (Exception "TypeError"
                            ("'" ++ t ++ "' object is not subscriptable"))
  end.

(** [chunk.get("choices", [{}])[0].get("delta", {}).get("content", "")] *)
Definition delta_content (chunk : pyval) : result pyval :=
  match py_get chunk "choices" (PList [PDict []]) with
  | Raise e => Raise e
  | Ok choices =>
      match py_index0 choices with
      | Raise e => Raise e
      | Ok choice =>
          match py_get choice "delta" (PDict []) with
          | Raise e => Raise e
          | Ok delta => py_get delta "content" (PStr "")
          end
      end
  end.

(** What one line of the response does to the loop. *)
Inductive line_step : Type :=
| Continue                 (* nothing emitted, next line *)
| Break                    (* the [DONE] marker *)
| Yield (token : string)   (* a Token event *)
| Fails (e : exn).         (* an exception leaves the loop *)

Definition line_action (L : Libs) (line : string) : line_step :=
  if startswith "data: " line then
    let data := slice_from 6 line in
    if String.eqb (strip data) "[DONE]" then Break
    else match json_loads L data with
         | None => Continue
         | Some chunk =>
             match delta_content chunk with
             | Raise e => Fails e
             | Ok token =>
                 if truthy token then
                   match token with
                   | PStr s => Yield s
                   | _ => Fails (Exception "TypeError"
                                   ("can only concatenate str (not "
                                    ++ dq ++ type_name token ++ dq
                                    ++ ") to str"))
                   end
                 else Continue
             end
         end
  else Continue.

(** The [async for line in response.aiter_lines()] loop: the Token events
    it yields, in order, and how the [try] block ends: with the accumulated
    [(full_response, token_count)], or with an exception. *)
Fixpoint relay (L : Libs) (lines : list string) (ending : option exn)
    (full_response : string) (token_count : nat)
  : list StreamEvent * result (string * nat) :=
  match lines with
  | [] =>
      match ending with
      | None => ([], Ok (full_response, token_count))
      | Some e => ([], Raise e)
      end
  | line :: rest =>
      match line_action L line with
      | Continue => relay L rest ending full_response token_count
      | Break => ([], Ok (full_response, token_count))
      | Yield token =>
          let '(evs, r) := relay L rest ending (full_response ++ token)%string
                                 (S token_count) in
          (Token token :: evs, r)
      | Fails e => ([], Raise e)
      end
  end.

(** Leaving the [async with] blocks once the loop is over. *)
Definition leave_stream (net : ChatNet) (loop : result (string * nat))
  : result (string * nat) :=
  match loop with
  | Ok acc => match close_error net with
              | None => Ok acc
              | Some e => Raise e
              end
  | Raise e => Raise e
  end.

(** [s.strip(chars)] *)
Fixpoint lstrip_set (p : ascii -> bool) (l : list ascii) : list ascii :=
  match l with
  | c :: r => if p c then lstrip_set p r else l
  | [] => []
  end.

Definition strip_set (p : ascii -> bool) (s : string) : string :=
  string_of_list_ascii
    (rev (lstrip_set p (rev (lstrip_set p (list_ascii_of_string s))))).

(** The characters the title is stripped of: the double and the single
    quote. *)
Definition is_quote (c : ascii) : bool :=
  Ascii.eqb c (ascii_of_nat 34) || Ascii.eqb c (ascii_of_nat 39).

(** [_auto_title]: yields nothing; failures are logged and dropped. *)
Definition _auto_title (L : Libs) (net : ChatNet) (cid first_message : string)
  : M unit :=
  m <- get_llama ;;
  if negb (is_running m) then
    let words := firstn 5 (split_ws first_message) in
    let title := join " " words in
    let title := if (List.length words =? 5)%nat then (title ++ "...")%string
                 else title in
    db_update_conversation L cid title ;;; ret tt
  else
    match title_reply net with
    | TitleRaises _ => ret tt
    | TitleReply sc body =>
        if (sc =? 200)%Z then
          match body with
          | Raise _ => ret tt
          | Ok text =>
              let title := strip_set is_quote (strip text) in
              if nonempty title
              then db_update_conversation L cid (slice_to 100 title) ;;; ret tt
              else ret tt
          end
        else ret tt
    end.

(** The [system] entry [chat] puts first. *)
Definition system_entry (request : ChatRequest) : ChatMessage :=
  match system_prompt request with
  | Some p => if nonempty p then mkChatMessage "system" p
              else mkChatMessage "system" default_system_prompt
  | None => mkChatMessage "system" default_system_prompt
  end.

(** What [chat] fixes before the generator runs. *)
Record ChatPlan : Type := mkChatPlan {
  request_messages : list ChatMessage;
  is_first : bool;
  plan_msg_id : string
}.

(** [chat] up to [return EventSourceResponse(stream_response())]. *)
Definition chat_prepare (L : Libs) (request : ChatRequest) : M ChatPlan :=
  d <- get_db ;;
  match get_conversation d (req_conversation_id request) with
  | None => raise (HTTPException 404 "Conversation not found")
  | Some conv =>
      m <- get_llama ;;
      if negb (is_running m) then
        raise (HTTPException 503 "Falcon3-7B is not running. Start it first.")
      else
        user_msg <- db_save_message L (req_conversation_id request) "user"
                                    (req_message request) ;;
        d' <- get_db ;;
        let history := get_messages d' (req_conversation_id request) 20 in
        let messages_ :=
          system_entry request
          :: map (fun h => mkChatMessage (role h) (content h)) history in
        uuid <- new_uuid L ;;
        ret (mkChatPlan messages_ (message_count conv <=? 1)%nat uuid)
  end.

(** [tps = token_count / elapsed if elapsed > 0 else 0]; the [0] of the
    other branch is an [int], which [round] and [json.dumps] leave a zero. *)
Definition tokens_per_second_of (token_count : nat) (elapsed : float) : float :=
  if float_gt0 elapsed
  then fdiv (float_of_Z (Z.of_nat token_count)) elapsed
  else S754_zero false.

(** The content of the Error event of the two [except] clauses:
    [httpx.ConnectError] first, then any other [Exception]. *)
Definition error_content (e : exn) : string :=
  match e with
  | ConnectError _ => lost_connection_message
  | _ => "Error during generation: " ++ str_exn e
  end.

(** [stream_response], run to exhaustion: the events it yields in order,
    and whether the generator returned or an exception left it. *)
Definition stream_response (L : Libs) (request : ChatRequest) (plan : ChatPlan)
    (net : ChatNet) : World -> (list StreamEvent * result unit) * World :=
  fun w0 =>
    let start_time := time_float L (clock_reads w0) in
    let w1 := tick w0 in
    let '(tokens, loop) :=
      relay L (stream_lines net) (stream_error net) "" 0 in
    let evs := Start (plan_msg_id plan) :: tokens in
    match leave_stream net loop with
    | Raise e => ((evs ++ [Error (error_content e)], Ok tt), w1)
    | Ok (full_response, token_count) =>
        let elapsed := fsub (time_float L (clock_reads w1)) start_time in
        let w2 := tick w1 in
        let tps := tokens_per_second_of token_count elapsed in
        let '(saved, w3) :=
          if nonempty full_response
          then (db_save_message L (req_conversation_id request) "assistant"
                                full_response ;;; ret tt) w2
          else (Ok tt, w2) in
        match saved with
        | Raise e => ((evs, Raise e), w3)
        | Ok _ =>
            let evs' := evs ++ [Done (plan_msg_id plan) token_count
                                     (py_round 1 tps)] in
            if is_first plan && nonempty full_response then
              let '(r, w4) := _auto_title L net (req_conversation_id request)
                                          (req_message request) w3 in
              ((evs', r), w4)
            else ((evs', Ok tt), w3)
        end
    end.

(** One chat invocation: the handler, then the generator consumed to its
    end. *)
Definition chat (L : Libs) (request : ChatRequest) (net : ChatNet)
  : World -> result (ChatPlan * list StreamEvent * result unit) * World :=
  fun w =>
    match chat_prepare L request w with
    | (Raise e, w') => (Raise e, w')
    | (Ok plan, w') =>
        let '((evs, r), w'') := stream_response L request plan net w' in
        (Ok (plan, evs, r), w'')
    end.

(** How the [try] block of [stream_response] ends for a given network. *)
Definition stream_outcome (L : Libs) (net : ChatNet) : result (string * nat) :=
  leave_stream net (snd (relay L (stream_lines net) (stream_error net) "" 0)).

Definition is_start (e : StreamEvent) : bool :=
  match e with Start _ => true | _ => false end.

Definition is_token (e : StreamEvent) : bool :=
  match e with Token _ => true | _ => false end.

Definition is_terminal (e : StreamEvent) : bool :=
  match e with Done _ _ _ | Error _ => true | _ => false end.

Definition count_events (p : StreamEvent -> bool) (evs : list StreamEvent) : nat :=
  List.length (filter p evs).


(** The window the claim describes: the last [n] of the conversation's
    messages in chronological order. *)
Definition most_recent (n : nat) (d : Database) (cid : string) : list Message :=
  let all := order_by_created_at
               (filter (fun m => String.eqb (conversation_id m) cid) (messages d)) in
  skipn (List.length all - n) all.

(** ** Model management endpoints *)

(** [start_model("florence2")] *)
Definition start_model_florence2 (L : Libs) : M string :=
  f <- get_florence ;;
  if is_loaded f then ret "already_loaded"
  else
    let '(r, f') := load f (vision L) in
    put_florence f' ;;;
    match r with
    | Ok _ => db_log_model_event "florence2" "loaded" None ;;; ret "loaded"
    | Raise e =>
        db_log_model_event "florence2" "error" (Some (str_exn e)) ;;;
        raise (HTTPException 500 (str_exn e))
    end.

(** [stop_model("florence2")] *)
Definition stop_model_florence2 : M string :=
  f <- get_florence ;;
  if negb (is_loaded f) then ret "not_loaded"
  else
    put_florence (unload f) ;;;
    db_log_model_event "florence2" "unloaded" None ;;; ret "unloaded".

(** [stop_model]: the [status] of the body it returns. *)
Definition stop_model (model_name : string) (env : StopEnv) : M string :=
  if String.eqb model_name "falcon3-7b" then
    m <- get_llama ;;
    if negb (is_running m) then ret "not_running"
    else
      let '(r, m', _) := stop m env in
      put_llama m' ;;;
      lift r ;;;
      db_log_model_event "falcon3-7b" "stop" None ;;;
      ret "stopped"
  else if String.eqb model_name "florence2" then stop_model_florence2
  else raise (HTTPException 404 ("Unknown model: " ++ model_name)).

(** [start_model("falcon3-7b")]: the [status] and the [pid] of the body.
    [None]: the readiness observations ran out (see [poll_until_ready]). *)
Definition start_model_falcon3_7b (threads : option nat) (context_size : Z)
    (env : StartEnv) : World -> option (result (string * option Z) * World) :=
  fun w =>
    let m := llama w in
    if is_running m then Some (Ok ("already_running", pid_of m), w)
    else
      match start m threads context_size env with
      | None => None
      | Some (Ok _, m') =>
          let '(_, w1) := put_llama m' w in
          let '(_, w2) :=
            db_log_model_event "falcon3-7b" "start"
              (Some ("pid=" ++ match pid_of m' with
                               | Some p => str_Z p
                               | None => "None"
                               end)%string) w1 in
          Some (Ok ("started", pid_of m'), w2)
      | Some (Raise e, m') =>
          let '(_, w1) := put_llama m' w in
          let '(_, w2) :=
            db_log_model_event "falcon3-7b" "error" (Some (str_exn e)) w1 in
          Some (Raise (HTTPException 500 (str_exn e)), w2)
      end.

(** The part of [lifespan] after the [yield]: the shutdown. *)
Definition lifespan_shutdown (env : StopEnv) : M unit :=
  m <- get_llama ;;
  (if is_running m then
     let '(r, m', _) := stop m env in
     put_llama m' ;;;
     lift r ;;;
     db_log_model_event "falcon3-7b" "stop" (Some "Backend shutdown")
   else ret tt) ;;;
  f <- get_florence ;;
  if is_loaded f then
    put_florence (unload f) ;;;
    db_log_model_event "florence2" "unloaded" (Some "Backend shutdown")
  else ret tt.

(** The text of the Token events of a sequence, in order. *)
Fixpoint token_text (evs : list StreamEvent) : string :=
  match evs with
  | [] => ""
  | Token t :: rest => (t ++ token_text rest)%string
  | _ :: rest => token_text rest
  end.

(** The fallback title of [_auto_title]: the first five words, and the
    ellipsis when five were kept. *)
Definition fallback_title (first_message : string) : string :=
  let words := firstn 5 (split_ws first_message) in
  if (List.length words =? 5)%nat then (join " " words ++ "...")%string
  else join " " words.

End Main.

(* ===================================================================== *)
(** * Concrete managers and environments                                   *)
(* ===================================================================== *)

Module Fixtures.
Import Models.

Definition stopped_llama : LlamaServerManager :=
  LlamaServerManager_init "/opt/bitnet/llama-server" "/opt/models/model.gguf".

(** The command [start] builds for this manager on a machine with eight
    logical cores. *)
Definition llama_cmd : list string := build_cmd stopped_llama 4 4096.

(** A child made with the command [cmd], alive, that has written [err] to
    its stderr. *)
Definition child (err : string) (cmd : list string) : Popen :=
  mkPopen 4242 None (Some err) cmd.

Definition alive_child : Popen := child "" llama_cmd.

Definition running_llama : LlamaServerManager :=
  set_start_time (set_process stopped_llama (Some alive_child)) (Some (1000 # 1)%Q).

(** The child has died since it was started; nobody has called [stop]. *)
Definition crashed_llama : LlamaServerManager :=
  set_process running_llama (Some (mkPopen 4242 (Some 1%Z) (Some "") llama_cmd)).

Definition graceful : StopEnv := mkStopEnv (Some 0%Z) (Some (-9)%Z).
Definition stubborn : StopEnv := mkStopEnv None (Some (-9)%Z).
Definition unkillable : StopEnv := mkStopEnv None None.

(** An httpx transport error that is neither a [ConnectError] nor a
    [TimeoutException]: the peer reset the connection while the response
    was being read. *)
Definition read_error : exn :=
  Exception "httpx.ReadError" "[Errno 104] Connection reset by peer".

Definition refused : http_outcome :=
  HttpRaises (ConnectError "All connection attempts failed").

(** A start whose engine answers 200 on the third health request. *)
Definition ready_env : StartEnv :=
  mkStartEnv true true (Some 8)
    (fun cmd => Ok (child "" cmd))
    (1000 # 1)%Q (1000 # 1)%Q
    [ mkObs (1000 # 1)%Q None refused;
      mkObs (2001 # 2)%Q None (Response 503);
      mkObs (1001 # 1)%Q None (Response 200) ]
    graceful.

(** A start whose engine never gets ready: the deadline passes. *)
Definition timeout_env (s : StopEnv) : StartEnv :=
  mkStartEnv true true (Some 8)
    (fun cmd => Ok (child "" cmd))
    (1000 # 1)%Q (1000 # 1)%Q
    [ mkObs (1000 # 1)%Q None refused;
      mkObs (1060 # 1)%Q None (Response 503);
      mkObs (1120 # 1)%Q None refused ]
    s.

(** A start whose first health request times out inside httpx. *)
Definition hung_env : StartEnv :=
  mkStartEnv true true (Some 8)
    (fun cmd => Ok (child "" cmd))
    (1000 # 1)%Q (1000 # 1)%Q
    [ mkObs (1000 # 1)%Q None (HttpRaises (TimeoutException "timed out")) ]
    graceful.

(** A start whose child dies half a second in, after one refused health
    request; [err] is what the child wrote to stderr. *)
Definition crash_env (err : string) : StartEnv :=
  mkStartEnv true true (Some 8)
    (fun cmd => Ok (child err cmd))
    (1000 # 1)%Q (1000 # 1)%Q
    [ mkObs (1000 # 1)%Q None refused;
      mkObs (2001 # 2)%Q (Some 1%Z) refused;
      mkObs (1001 # 1)%Q (Some 1%Z) refused ]
    graceful.

Import Database Main.

(** Stand-ins for the libraries, each a finite table of true answers. *)

Definition ascii_only (b : bytes) : bool :=
  forallb (fun c => (nat_of_ascii c <? 128)%nat) (list_ascii_of_string b).

Definition text_page : string :=
  "Hello, this page holds well over fifty characters of plain text.".

Definition text_pdf_bytes : bytes := "%PDF-1.7 two pages of text".
Definition scan_pdf_bytes : bytes := "%PDF-1.7 two scanned pages".

Definition demo_page_texts (b : bytes) : result (list string) :=
  if String.eqb b text_pdf_bytes then Ok [text_page; text_page]
  else if String.eqb b scan_pdf_bytes then Ok [" "; ""]
  else Raise (Exception "fitz.FileDataError" "Failed to open stream").

Definition demo_page_images (b : bytes) : result (list Image) :=
  if String.eqb b text_pdf_bytes || String.eqb b scan_pdf_bytes
  then Ok [mkImage 1240 1754 "page 1"; mkImage 1240 1754 "page 2"]
  else Raise (Exception "fitz.FileDataError" "Failed to open stream").

Definition demo_vision : VisionEnv Image :=
  mkVisionEnv Image (Ok 1) (Ok 2) (7 # 1)%Q
    (fun _ => Ok (PDict [("<MORE_DETAILED_CAPTION>", PStr "A scanned letter")]))
    (fun _ => Ok (PDict [("<OCR_WITH_REGION>",
                          PDict [("quad_boxes", PList []);
                                 ("labels", PList [PStr "Hello"; PStr "World"])])])).

(** The weights load, the processor files are missing. *)
Definition broken_vision : VisionEnv Image :=
  mkVisionEnv Image (Ok 1)
    (Raise (Exception "OSError" "preprocessor_config.json not found")) (7 # 1)%Q
    (fun _ => Raise (Exception "RuntimeError" "no processor"))
    (fun _ => Raise (Exception "RuntimeError" "no processor")).

Definition fresh_florence : Florence2Manager :=
  Florence2Manager_init "/opt/models/florence-2-base".

(** The line the engine streams for one content fragment. *)
Definition chunk_json (tok : string) : string :=
  "{" ++ dq ++ "choices" ++ dq ++ ":[{" ++ dq ++ "delta" ++ dq ++ ":{"
      ++ dq ++ "content" ++ dq ++ ":" ++ dq ++ tok ++ dq ++ "}}]}".

Definition chunk_val (tok : string) : pyval :=
  PDict [("choices", PList [PDict [("delta", PDict [("content", PStr tok)])]])].

Definition demo_json_loads (s : string) : option pyval :=
  if String.eqb s (chunk_json "Hello") then Some (chunk_val "Hello")
  else if String.eqb s (chunk_json " world") then Some (chunk_val " world")
  else if String.eqb s "[]" then Some (PList [])
  else None.

Definition demo_libs : Libs :=
  mkLibs (fun b => ("sha256:" ++ b)%string)
         demo_page_texts
         demo_page_images
         (fun b => if startswith "PNG" b then Ok (mkImage 640 480 b)
                   else Raise (Exception "PIL.UnidentifiedImageError"
                                         "cannot identify image file"))
         (fun b => Raise (Exception "zipfile.BadZipFile" "File is not a zip file"))
         (fun b => if ascii_only b then Some b else None)
         demo_vision
         (fun _ => "<object>")
         demo_json_loads
         (fun n => inject_Z (3 * Z.of_nat n))
         (fun n => ("uuid-" ++ str_nat n)%string).

(** A conversation [c1] holding [n] earlier messages [m1] .. [mn], written
    at times 1 .. n, with the engine running; the clock stands past them. *)
Definition prior_message (k : nat) : Message :=
  mkMessage ("msg-" ++ str_nat k) "c1"
            (if Nat.even k then "assistant" else "user")
            ("m" ++ str_nat k) false None None (inject_Z (Z.of_nat k)).

Definition chat_world (n : nat) : World :=
  mkWorld (mkDb [mkConvRow "c1" "New Conversation" 0%Q (inject_Z (Z.of_nat n))]
                (map prior_message (seq 1 n)) [] [])
          running_llama
          (Florence2Manager_init "/opt/models/florence-2-base")
          (S n) 0 [].

Definition ask (text : string) : ChatRequest := mkChatRequest "c1" text None.

(** The engine streams two fragments and the end marker. *)
Definition two_tokens : ChatNet :=
  mkChatNet [ ("data: " ++ chunk_json "Hello")%string; "";
              ("data: " ++ chunk_json " world")%string; "data: [DONE]" ]
            None None (TitleReply 200 (Ok "Greeting")).

(** The engine streams one fragment and closes the stream. *)
Definition one_token : ChatNet :=
  mkChatNet [ ("data: " ++ chunk_json "Hello")%string ] None None
            (TitleReply 200 (Ok "Greeting")).

(** The engine dies after the first fragment. *)
Definition dies_midway : ChatNet :=
  mkChatNet [ ("data: " ++ chunk_json "Hello")%string ]
            (Some (ConnectError "All connection attempts failed")) None
            (TitleRaises (ConnectError "All connection attempts failed")).

(** A chunk that carries no choice, as engines send with usage figures. *)
Definition usage_chunk_json : string :=
  "{" ++ dq ++ "choices" ++ dq ++ ":[]}".

Definition usage_libs : Libs :=
  mkLibs (sha256_hexdigest demo_libs) (fitz_page_texts demo_libs)
         (fitz_page_images demo_libs) (pil_open_rgb demo_libs)
         (docx_paragraph_texts demo_libs) (decode_utf8 demo_libs)
         (vision demo_libs) (py_str_of demo_libs)
         (fun s => if String.eqb s usage_chunk_json
                   then Some (PDict [("choices", PList [])])
                   else demo_json_loads s)
         (wall_clock demo_libs) (uuid4 demo_libs).

(** The globals as they are when the application has just started. *)
Definition fresh_world : World :=
  mkWorld empty_db stopped_llama
          (Florence2Manager_init "/opt/models/florence-2-base") 0 0 [].

End Fixtures.

(* ===================================================================== *)
(** * Properties of the process supervisor                                 *)
(* ===================================================================== *)

Section Supervisor.
Import Models.

Lemma lifecycle_wf_init binary model_ :
  lifecycle_wf (LlamaServerManager_init binary model_).
Proof. intros _. reflexivity. Qed.

Lemma stop_keeps_wf m env :
  lifecycle_wf m -> lifecycle_wf (snd (fst (stop m env))).
Proof.
  unfold lifecycle_wf, stop. intros Hwf.
  destruct (process m) as [p|] eqn:Hp; simpl.
  - destruct (returncode p); simpl; auto.
    destruct (exits_after_terminate env); simpl; auto.
    destruct (exits_after_kill env); simpl; auto.
    rewrite Hp. discriminate.
  - intros _. apply Hwf. reflexivity.
Qed.

Lemma stop_stopped m env :
  process m = None -> stop m env = (Ok tt, m, []).
Proof. unfold stop. intros ->. reflexivity. Qed.

Lemma stop_not_running m env :
  is_running m = false ->
  exists m', stop m env = (Ok tt, m', []) /\ process m' = None
             /\ is_running m' = false.
Proof.
  unfold is_running, stop. intros H.
  destruct (process m) as [p|] eqn:Hp.
  - destruct (returncode p) eqn:Hr; [|discriminate].
    eexists. split; [reflexivity|]. split; reflexivity.
  - exists m. rewrite Hp. auto.
Qed.

Lemma status_of_not_running m installed now :
  is_running m = false ->
  get_status m installed now
  = mkLlamaStatus installed false (model_path m) None None.
Proof.
  intros H. unfold get_status, pid_of, uptime_seconds. rewrite H. reflexivity.
Qed.

Lemma stop_clears m env m' sigs :
  lifecycle_wf m ->
  stop m env = (Ok tt, m', sigs) ->
  process m' = None /\ _start_time m' = None.
Proof.
  unfold stop. intros Hwf.
  destruct (process m) as [p|] eqn:Hp.
  - destruct (returncode p).
    + intros [= <- _]. auto.
    + destruct (exits_after_terminate env).
      * intros [= <- _]. auto.
      * destruct (exits_after_kill env); [|discriminate].
        intros [= <- _]. auto.
  - intros [= <- _]. auto.
Qed.

(** C7.  [stop] when the engine is not running delivers no signal, returns
    normally and leaves the status snapshot as it was (when there is no
    process handle the manager is untouched); calling it again changes
    nothing.  Whenever [stop] returns normally, after a graceful
    termination or after the force-kill, the process handle and the start
    timestamp are both cleared. *)
Theorem stop_idempotent_and_clears (m : LlamaServerManager) (env : StopEnv) :
  lifecycle_wf m ->
  (process m = None -> stop m env = (Ok tt, m, []))
  /\ (is_running m = false ->
      exists m', stop m env = (Ok tt, m', [])
                 /\ (forall installed now,
                        get_status m' installed now = get_status m installed now)
                 /\ forall env', stop m' env' = (Ok tt, m', []))
  /\ (forall m' sigs,
        stop m env = (Ok tt, m', sigs) ->
        process m' = None /\ _start_time m' = None
        /\ forall env', stop m' env' = (Ok tt, m', []))
  /\ (is_running m = true ->
      (forall c, exits_after_terminate env = Some c ->
                 exists m', stop m env = (Ok tt, m', [SIGTERM]))
      /\ (forall c, exits_after_terminate env = None ->
                    exits_after_kill env = Some c ->
                    exists m', stop m env = (Ok tt, m', [SIGTERM; SIGKILL]))).
Proof.
  intros Hwf. repeat split.
  - apply stop_stopped.
  - intros Hnr. destruct (stop_not_running m env Hnr) as (m' & Hs & Hp & Hr).
    exists m'. split; [exact Hs|]. split.
    + intros installed now. rewrite !status_of_not_running by assumption.
      f_equal. unfold stop in Hs.
      destruct (process m) as [p|]; [destruct (returncode p)|].
      * injection Hs as <-. reflexivity.
      * unfold is_running in Hnr. destruct (exits_after_terminate env);
          [discriminate|destruct (exits_after_kill env); discriminate].
      * injection Hs as <-. reflexivity.
    + intros env'. apply stop_stopped. exact Hp.
  - eapply stop_clears; eauto.
  - eapply stop_clears; eauto.
  - intros env'. apply stop_stopped. eapply stop_clears; eauto.
  - intros c Hc. unfold is_running in H. unfold stop.
    destruct (process m) as [p|]; [|discriminate].
    destruct (returncode p); [discriminate|]. rewrite Hc. eauto.
  - intros c Ht Hk. unfold is_running in H. unfold stop.
    destruct (process m) as [p|]; [|discriminate].
    destruct (returncode p); [discriminate|]. rewrite Ht, Hk. eauto.
Qed.

Lemma stop_idempotent_and_clears_witness :
  lifecycle_wf Fixtures.running_llama
  /\ stop Fixtures.running_llama Fixtures.stubborn
     = (Ok tt, Fixtures.stopped_llama, [SIGTERM; SIGKILL])
  /\ process Fixtures.stopped_llama = None
  /\ _start_time Fixtures.stopped_llama = None.
Proof.
  assert (Hwf : lifecycle_wf Fixtures.running_llama) by (intros H; discriminate H).
  split; [exact Hwf|]. split; [reflexivity|].
  destruct (stop_idempotent_and_clears Fixtures.running_llama Fixtures.stubborn Hwf)
    as (_ & _ & Hclr & _).
  destruct (Hclr Fixtures.stopped_llama [SIGTERM; SIGKILL] eq_refl) as (Hp & Ht & _).
  split; assumption.
Defined.


(** ** [health_check] *)

(** C9 as stated fails: with the engine running, a transport error that is
    neither a connection failure nor a timeout leaves [health_check] as an
    exception, so not every transport outcome resolves to a boolean. *)
Lemma health_check_can_raise :
  health_check Fixtures.running_llama (HttpRaises Fixtures.read_error)
  = Raise Fixtures.read_error
  /\ ~ (forall m net, exists b : bool, health_check m net = Ok b).
Proof.
  split; [reflexivity|].
  intros H.
  destruct (H Fixtures.running_llama (HttpRaises Fixtures.read_error)) as [b Hb].
  discriminate Hb.
Qed.

(** C9, amended.  [health_check] answers [false] whenever the process is
    not running, [false] on a connection failure and on a timeout, and
    whether the status is 200 on a response.  With the engine running, any
    other exception of the health request is passed on to the caller as it
    is, and that is the only way [health_check] raises. *)
Theorem health_check_boolean_unless_other_error
    (m : LlamaServerManager) (net : http_outcome) :
  (is_running m = false -> health_check m net = Ok false)
  /\ (forall msg, health_check m (HttpRaises (ConnectError msg)) = Ok false)
  /\ (forall msg, health_check m (HttpRaises (TimeoutException msg)) = Ok false)
  /\ (forall sc, health_check m (Response sc)
                 = Ok (is_running m && (sc =? 200)%Z))
  /\ (forall e, health_check m net = Raise e ->
                is_running m = true /\ net = HttpRaises e
                /\ connect_or_timeout e = false)
  /\ ((forall e, net = HttpRaises e -> connect_or_timeout e = true) ->
      exists b : bool, health_check m net = Ok b)
  /\ (forall e, is_running m = true -> connect_or_timeout e = false ->
                health_check m (HttpRaises e) = Raise e)
  /\ (forall e, is_running m = true ->
                (forall msg, e <> ConnectError msg) ->
                (forall msg, e <> TimeoutException msg) ->
                health_check m (HttpRaises e) = Raise e).
Proof.
  assert (Hpass : forall e, is_running m = true -> connect_or_timeout e = false ->
                            health_check m (HttpRaises e) = Raise e).
  { intros e Hr He. unfold health_check. rewrite Hr. simpl.
    destruct e; try reflexivity; discriminate He. }
  split; [|split; [|split; [|split; [|split; [|split; [|split]]]]]];
    [| | | | | |exact Hpass|];
    [| | | | | |intros e Hr Hc Ht; apply Hpass; [exact Hr|];
                destruct e; try reflexivity;
                [exfalso; apply (Hc msg); reflexivity
                |exfalso; apply (Ht msg); reflexivity]];
    unfold health_check; repeat split.
  - intros ->. reflexivity.
  - intros msg. destruct (is_running m); reflexivity.
  - intros msg. destruct (is_running m); reflexivity.
  - intros sc. destruct (is_running m); reflexivity.
  - destruct (is_running m); [reflexivity|discriminate].
  - destruct (is_running m); simpl in H; [|discriminate].
    destruct net as [sc|e']; [discriminate|].
    destruct e'; try discriminate; injection H as <-; reflexivity.
  - destruct (is_running m); simpl in H; [|discriminate].
    destruct net as [sc|e']; [discriminate|].
    destruct e'; try discriminate; injection H as <-; reflexivity.
  - intros Hnet. destruct (is_running m); simpl; [|eauto].
    destruct net as [sc|e']; [eauto|].
    specialize (Hnet e' eq_refl). destruct e'; try discriminate; eauto.
Qed.

(** ** The readiness wait of [start] *)

Lemma slice_to_length n s : String.length (slice_to n s) <= n.
Proof.
  unfold slice_to. revert s. induction n as [|n IH]; intros [|c s]; simpl; try lia.
  specialize (IH s). lia.
Qed.

Lemma slice_to_prefix n s : String.prefix (slice_to n s) s = true.
Proof.
  unfold slice_to. revert s. induction n as [|n IH]; intros [|c s]; simpl; auto.
  rewrite IH. destruct (ascii_dec c c); congruence.
Qed.

Lemma slice_to_empty_iff n s : slice_to (S n) s = "" <-> s = "".
Proof.
  unfold slice_to. destruct s; simpl; split; intros H; try reflexivity;
    discriminate H.
Qed.

Lemma poll_until_ready_skips timeout deadline p pre rest :
  returncode p = None ->
  forallb (still_polling deadline) pre = true ->
  poll_until_ready timeout deadline p (pre ++ rest)
  = poll_until_ready timeout deadline p rest.
Proof.
  intros Hp. induction pre as [|o pre IH]; simpl; [reflexivity|].
  intros H. apply andb_prop in H. destruct H as [Ho Hpre].
  unfold still_polling in Ho.
  apply andb_prop in Ho. destruct Ho as [Ho Hh].
  apply andb_prop in Ho. destruct Ho as [Ht Hpoll].
  rewrite Ht, Hp. destruct (obs_poll o); [discriminate|].
  destruct (obs_health o) as [sc|e].
  - apply negb_true_iff in Hh. rewrite Hh. auto.
  - destruct e; try discriminate. auto.
Qed.

(** C4 as stated fails on the excerpt: a child that dies without writing to
    stderr makes [start] fail at once, but the excerpt of stderr in the
    error is empty. *)
Lemma start_crash_excerpt_can_be_empty :
  exists m',
    start Fixtures.stopped_llama None 4096 (Fixtures.crash_env "")
    = Some (Raise (RuntimeError "llama-server exited with code 1: "), m')
    /\ slice_to 500 (captured_stderr (Fixtures.child "" Fixtures.llama_cmd)) = ""
    /\ is_running m' = false.
Proof. eexists. split; [vm_compute; reflexivity|]. split; reflexivity. Qed.

(** C4, amended.  If, while [start] polls for readiness, the child is seen
    to have exited before the deadline, [start] fails at that iteration,
    whatever is left of the 120 s, with a [RuntimeError] that names the exit
    code and carries the first 500 characters of the captured stderr (an
    excerpt that is empty exactly when the child wrote nothing); afterwards
    the manager is not running and [get_status] says so. *)
Theorem start_fails_fast_when_child_exits
    (m : LlamaServerManager) (threads : option nat) (context_size : Z)
    (env : StartEnv) (p : Popen) (pre post : list poll_obs) (o : poll_obs)
    (code : Z) :
  is_running m = false ->
  binary_is_file env = true ->
  model_is_file env = true ->
  spawn env (build_cmd m (thread_count_of threads (cpu_count env)) context_size)
  = Ok p ->
  returncode p = None ->
  ready_obs env = pre ++ o :: post ->
  forallb (still_polling (ready_deadline env)) pre = true ->
  Qlt_bool (obs_time o) (ready_deadline env) = true ->
  obs_poll o = Some code ->
  let excerpt := slice_to 500 (captured_stderr p) in
  exists m',
    start m threads context_size env
    = Some (Raise (RuntimeError ("llama-server exited with code "
                                 ++ str_Z code ++ ": " ++ excerpt)), m')
    /\ String.length excerpt <= 500
    /\ String.prefix excerpt (captured_stderr p) = true
    /\ (excerpt = "" <-> captured_stderr p = "")
    /\ is_running m' = false
    /\ forall installed now, st_running (get_status m' installed now) = false.
Proof.
  intros Hnr Hbin Hmod Hspawn Hrc Hobs Hpre Ht Hpoll excerpt.
  unfold start. rewrite Hnr, Hbin, Hmod, Hspawn. simpl.
  unfold _wait_for_ready. rewrite Hobs.
  fold (ready_deadline env).
  rewrite (poll_until_ready_skips _ _ _ _ _ Hrc Hpre).
  simpl. rewrite Ht, Hrc, Hpoll.
  eexists. split; [reflexivity|].
  split; [apply slice_to_length|].
  split; [apply slice_to_prefix|].
  split; [apply slice_to_empty_iff|].
  split; [reflexivity|].
  intros installed now. reflexivity.
Qed.

Lemma start_fails_fast_when_child_exits_witness :
  exists m',
    start Fixtures.stopped_llama None 4096
          (Fixtures.crash_env "error: failed to load model")
    = Some (Raise (RuntimeError
                     "llama-server exited with code 1: error: failed to load model"),
            m')
    /\ is_running m' = false.
Proof.
  destruct (start_fails_fast_when_child_exits
              Fixtures.stopped_llama None 4096
              (Fixtures.crash_env "error: failed to load model")
              (Fixtures.child "error: failed to load model" Fixtures.llama_cmd)
              [mkObs (1000 # 1)%Q None Fixtures.refused]
              [mkObs (1001 # 1)%Q (Some 1%Z) Fixtures.refused]
              (mkObs (2001 # 2)%Q (Some 1%Z) Fixtures.refused) 1%Z
              eq_refl eq_refl eq_refl eq_refl eq_refl eq_refl eq_refl eq_refl
              eq_refl)
    as (m' & Hs & _ & _ & _ & Hr & _).
  exists m'. split; [exact Hs | exact Hr].
Defined.

End Supervisor.

(* ===================================================================== *)
(** * Properties of the document ingestion pipeline                        *)
(* ===================================================================== *)

Section Ingestion.
Import Models Database Main.
Local Open Scope m_scope.

Variable L : Libs.

(** ** What the pieces of the handler leave alone *)

Lemma keeps_ret A (a : A) : keeps (ret a).
Proof. intros w. simpl. auto. Qed.

Lemma keeps_raise A e : keeps (@raise A e).
Proof. intros w. simpl. auto. Qed.

Lemma keeps_lift A (r : result A) : keeps (lift r).
Proof. intros w. simpl. auto. Qed.

Lemma keeps_log_work c : keeps (log_work c).
Proof. intros w. simpl. auto. Qed.

Lemma keeps_bind A B (c : M A) (k : A -> M B) :
  keeps c -> (forall a, keeps (k a)) -> keeps (bind c k).
Proof.
  intros Hc Hk w. unfold bind. specialize (Hc w).
  destruct (c w) as [[a|e] w1]; simpl in *.
  - specialize (Hk a w1). destruct Hc as (<- & <- & <- & <-). exact Hk.
  - exact Hc.
Qed.

Lemma keeps_florence_process_image img : keeps (florence_process_image L img).
Proof.
  intros w. unfold florence_process_image, bind, log_work, get_florence. simpl.
  destruct (process_image _ _ _) as [r f']. simpl. auto.
Qed.

Ltac keeps_prim :=
  first [ apply keeps_ret | apply keeps_raise | apply keeps_lift
        | apply keeps_log_work | apply keeps_florence_process_image ].

Ltac keeps_step :=
  first [ keeps_prim
        | apply keeps_bind; [|intros ?]
        | match goal with
          | |- keeps (if ?b then _ else _) => destruct b
          | |- keeps (match ?x with _ => _ end) => destruct x
          end ].

Lemma keeps_scanned_pages i images : keeps (scanned_pages L i images).
Proof.
  revert i. induction images as [|img rest IH]; intros i; cbn [scanned_pages].
  - keeps_prim.
  - apply keeps_bind; [unfold scanned_page_text; repeat keeps_step|].
    intros t. apply keeps_bind; [apply IH|]. intros ts. keeps_prim.
Qed.

Lemma keeps_extract ext data : keeps (extract L ext data).
Proof.
  unfold extract, _is_scanned_pdf, _pdf_to_images, _extract_text_pdf.
  destruct (String.eqb ext "pdf").
  - apply keeps_bind; [repeat keeps_step|]. intros [|].
    + apply keeps_bind; [repeat keeps_step|]. intros images.
      apply keeps_bind; [apply keeps_scanned_pages|]. intros ?.
      keeps_prim.
    + repeat keeps_step.
  - repeat keeps_step.
Qed.

Lemma keeps_translate_errors A (c : M A) : keeps c -> keeps (translate_errors c).
Proof.
  intros Hc w. unfold translate_errors. specialize (Hc w).
  destruct (c w) as [[a|e] w1]; simpl in *; [exact Hc|].
  destruct e; exact Hc.
Qed.


(** ** The cleanup of the [finally] clause *)

Lemma finally_unloads A (body : M A) w :
  is_loaded (florence (snd (try_finally body unload_after_processing w))) = false.
Proof.
  unfold try_finally. destruct (body w) as [r w1].
  unfold unload_after_processing, bind, get_florence, put_florence,
    db_log_model_event, get_db, put_db, ret.
  destruct (is_loaded (florence w1)) eqn:Hl; simpl.
  - unfold unload. rewrite Hl. reflexivity.
  - exact Hl.
Qed.

Lemma finally_keeps A (body : M A) w :
  keeps body ->
  let w' := snd (try_finally body unload_after_processing w) in
  document_cache (db w') = document_cache (db w)
  /\ clock_reads w' = clock_reads w
  /\ uuid_reads w' = uuid_reads w.
Proof.
  intros Hb. specialize (Hb w). unfold try_finally.
  destruct (body w) as [r w1]. simpl in Hb.
  destruct Hb as (Hd & _ & Hc & Hu).
  unfold unload_after_processing, bind, get_florence, put_florence,
    db_log_model_event, get_db, put_db, ret.
  destruct (is_loaded (florence w1)); simpl; rewrite ?Hd, ?Hc, ?Hu; auto.
Qed.

(** ** [upload_document], case by case *)

Lemma upload_document_hit data name w c :
  get_cached_document (db w) (_compute_file_hash L data) = Some c ->
  upload_document L data name w
  = (Ok (hit_result c (fsub (time_float L (S (clock_reads w)))
                             (time_float L (clock_reads w)))),
     tick (tick w)).
Proof.
  intros H. unfold upload_document, bind, time_time_float, get_db. simpl.
  rewrite H. reflexivity.
Qed.

Lemma upload_document_miss data name w :
  get_cached_document (db w) (_compute_file_hash L data) = None ->
  let rw := try_finally
              (translate_errors
                 (extract L (file_ext_of (filename_of name)) data))
              unload_after_processing (tick w) in
  upload_document L data name w
  = match fst rw with
    | Raise e => (Raise e, snd rw)
    | Ok (text, method, md) =>
        match db_cache_document L (_compute_file_hash L data) (filename_of name)
                                text method md (snd rw) with
        | (Raise e, w3) => (Raise e, w3)
        | (Ok doc, w3) =>
            (Ok (miss_result doc (filename_of name) text method md
                   (fsub (time_float L (clock_reads w3))
                         (time_float L (clock_reads w)))),
             tick w3)
        end
    end.
Proof.
  intros H rw. unfold upload_document, bind at 1 2, time_time_float at 1,
    get_db at 1.
  simpl. rewrite H. unfold bind at 1. fold rw.
  destruct rw as [[[[text method] md]|e] w2]; simpl; [|reflexivity].
  unfold bind at 1.
  destruct (db_cache_document _ _ _ _ _ _ w2) as [[doc|e] w3]; reflexivity.
Qed.


(** ** The cache table *)

Lemma find_app_none A (p : A -> bool) l x :
  find p l = None -> find p (l ++ [x]) = if p x then Some x else None.
Proof.
  induction l as [|y l IH]; simpl; [reflexivity|].
  destruct (p y); [discriminate|]. exact IH.
Qed.

Lemma find_app_some A (p : A -> bool) l l' y :
  find p l = Some y -> find p (l ++ l') = Some y.
Proof.
  induction l as [|z l IH]; simpl; [discriminate|].
  destruct (p z); auto.
Qed.

Lemma get_cached_new d d' h row :
  get_cached_document d h = None ->
  document_cache d' = document_cache d ++ [row] ->
  drow_file_hash row = h ->
  get_cached_document d' h = Some (doc_of_row row).
Proof.
  unfold get_cached_document. intros Hn Hd Hh. rewrite Hd.
  destruct (find _ (document_cache d)) eqn:Hf; [discriminate|].
  rewrite (find_app_none _ _ _ _ Hf), Hh, String.eqb_refl. reflexivity.
Qed.

Lemma get_cached_old d d' h c l' :
  get_cached_document d h = Some c ->
  document_cache d' = document_cache d ++ l' ->
  get_cached_document d' h = Some c.
Proof.
  unfold get_cached_document. intros Hs Hd. rewrite Hd.
  destruct (find _ (document_cache d)) eqn:Hf; [|discriminate].
  rewrite (find_app_some _ _ _ l' _ Hf). exact Hs.
Qed.

Lemma get_cached_other d d' h row :
  get_cached_document d h = None ->
  document_cache d' = document_cache d ++ [row] ->
  drow_file_hash row <> h ->
  get_cached_document d' h = None.
Proof.
  unfold get_cached_document. intros Hn Hd Hh. rewrite Hd.
  destruct (find _ (document_cache d)) eqn:Hf; [discriminate|].
  rewrite (find_app_none _ _ _ _ Hf).
  destruct (String.eqb_spec (drow_file_hash row) h); [contradiction|reflexivity].
Qed.

Lemma get_cached_same_table d d' h :
  document_cache d' = document_cache d ->
  get_cached_document d' h = get_cached_document d h.
Proof. unfold get_cached_document. intros ->. reflexivity. Qed.

Lemma db_cache_document_effect h name text method md w r w3 :
  db_cache_document L h name text method md w = (r, w3) ->
  florence w3 = florence w /\ work w3 = work w
  /\ match r with
     | Raise _ => db w3 = db w
     | Ok doc =>
         doc_id doc = uuid4 L (uuid_reads w)
         /\ exists row,
             document_cache (db w3) = document_cache (db w) ++ [row]
             /\ drow_file_hash row = h
             /\ drow_original_name row = name
             /\ drow_extracted_text row = text
             /\ drow_extraction_method row = method
     end.
Proof.
  unfold db_cache_document, bind, new_uuid, time_time, get_db, put_db, lift,
    cache_document. simpl.
  destruct (existsb _ _); simpl.
  - intros [= <- <-]. simpl. auto.
  - destruct (existsb _ _); simpl.
    + intros [= <- <-]. simpl. auto.
    + intros [= <- <-]. simpl. repeat split; try reflexivity.
      eexists. split; [reflexivity|]. simpl. auto.
Qed.

(** What any call of [upload_document] does to the cache table and the
    vision gate, and what a returned body says. *)
Lemma upload_document_effect data name w r w' :
  upload_document L data name w = (r, w') ->
  match get_cached_document (db w) (_compute_file_hash L data) with
  | Some c =>
      db w' = db w /\ florence w' = florence w /\ work w' = work w
      /\ exists elapsed, r = Ok (hit_result c elapsed)
  | None =>
      is_loaded (florence w') = false
      /\ match r with
         | Raise _ => document_cache (db w') = document_cache (db w)
         | Ok res =>
             cached res = false
             /\ res_original_name res = filename_of name
             /\ exists row,
                 document_cache (db w') = document_cache (db w) ++ [row]
                 /\ drow_file_hash row = _compute_file_hash L data
                 /\ drow_original_name row = filename_of name
                 /\ drow_extracted_text row = res_extracted_text res
                 /\ drow_extraction_method row = res_extraction_method res
         end
  end.
Proof.
  intros Hup.
  destruct (get_cached_document (db w) (_compute_file_hash L data)) as [c|] eqn:Hc.
  - rewrite (upload_document_hit _ _ _ _ Hc) in Hup. injection Hup as <- <-.
    simpl. repeat split. eauto.
  - rewrite (upload_document_miss _ _ _ Hc) in Hup.
    pose proof (finally_unloads _
                  (translate_errors (extract L (file_ext_of (filename_of name)) data))
                  (tick w)) as Hun.
    pose proof (finally_keeps _
                  (translate_errors (extract L (file_ext_of (filename_of name)) data))
                  (tick w) (keeps_translate_errors _ _ (keeps_extract _ _)))
      as (Hdc & _ & _).
    destruct (try_finally _ _ (tick w)) as [[[[text method] md]|e] w2];
      simpl in *.
    + destruct (db_cache_document _ _ _ _ _ _ w2) as [[doc|e] w3] eqn:Hcd.
      * injection Hup as <- <-.
        destruct (db_cache_document_effect _ _ _ _ _ _ _ _ Hcd)
          as (Hf & _ & _ & row & Hrow & Hh & Hn & Ht & Hm).
        simpl. rewrite Hf. split; [exact Hun|].
        repeat split. exists row. rewrite Hrow, Hdc. auto.
      * injection Hup as <- <-.
        destruct (db_cache_document_effect _ _ _ _ _ _ _ _ Hcd) as (Hf & _ & Hd).
        rewrite Hf, Hd. auto.
    + injection Hup as <- <-. auto.
Qed.

(** After a call that returned a body, the content hash is in the cache
    with the text and the name of that body. *)
Lemma upload_ok_then_cached data name w res w' :
  upload_document L data name w = (Ok res, w') ->
  exists c,
    get_cached_document (db w') (_compute_file_hash L data) = Some c
    /\ extracted_text c = res_extracted_text res
    /\ original_name c = res_original_name res
    /\ (get_cached_document (db w) (_compute_file_hash L data) = None ->
        original_name c = filename_of name /\ cached res = false).
Proof.
  intros Hup. pose proof (upload_document_effect _ _ _ _ _ Hup) as He.
  destruct (get_cached_document (db w) _) as [c|] eqn:Hc.
  - destruct He as (Hd & _ & _ & el & [= ->]).
    exists c. rewrite Hd, Hc. simpl.
    repeat split; try reflexivity; discriminate.
  - destruct He as (_ & Hcf & Hn & row & Hrow & Hh & Hrn & Ht & _).
    exists (doc_of_row row).
    rewrite (get_cached_new _ _ _ _ Hc Hrow Hh). simpl.
    repeat split; congruence.
Qed.


(** ** The scanned-versus-text route of a PDF *)

Lemma Qlt_bool_iff a b : Qlt_bool a b = true <-> (a < b)%Q.
Proof.
  unfold Qlt_bool. rewrite negb_true_iff. split.
  - intros H. apply Qnot_le_lt. intros Hle.
    apply Qle_bool_iff in Hle. congruence.
  - intros H. destruct (Qle_bool b a) eqn:E; [|reflexivity].
    apply Qle_bool_iff in E. exfalso. exact (Qlt_not_le _ _ H E).
Qed.

(** The [pdf] branch of the [try] block never gets past the scan check:
    [_is_scanned_pdf] opens the document, reads its pages, and raises. *)
Lemma extract_pdf data w :
  extract L "pdf" data w
  = (Raise (match fitz_page_texts L data with
            | Ok _ => Exception "ValueError" "document closed"
            | Raise e => e
            end),
     mkWorld (db w) (llama w) (florence w) (clock_reads w) (uuid_reads w)
             (work w ++ [FitzOpen])).
Proof.
  unfold extract. simpl String.eqb. cbv iota.
  unfold _is_scanned_pdf, bind, log_work, lift, len_of_closed_document. simpl.
  destruct (fitz_page_texts L data); reflexivity.
Qed.

(** C2, amended.  When an upload has returned a body, a second upload of
    the same bytes, under any filename, returns [cached = true] with the same
    extracted text, calls no extraction library and changes neither the
    database nor the vision gate.  When the bytes differ (their hashes
    differ) and both uploads return a body, the second is not served from the
    entry of the first: it is extracted itself unless it was cached before,
    and afterwards each content hash retrieves the text of its own upload. *)
Theorem upload_dedup_by_content
    (data data' : bytes) (n1 n2 : option string) (w w1 : World)
    (r1 : DocumentResult) :
  upload_document L data n1 w = (Ok r1, w1) ->
  (exists r2 w2,
      upload_document L data n2 w1 = (Ok r2, w2)
      /\ cached r2 = true
      /\ res_extracted_text r2 = res_extracted_text r1
      /\ work w2 = work w1
      /\ db w2 = db w1 /\ florence w2 = florence w1)
  /\ (forall r2 w2,
        _compute_file_hash L data' <> _compute_file_hash L data ->
        upload_document L data' n2 w1 = (Ok r2, w2) ->
        (get_cached_document (db w) (_compute_file_hash L data) = None ->
         cached r1 = false)
        /\ (get_cached_document (db w) (_compute_file_hash L data') = None ->
            cached r2 = false)
        /\ exists c1 c2,
            get_cached_document (db w2) (_compute_file_hash L data) = Some c1
            /\ extracted_text c1 = res_extracted_text r1
            /\ get_cached_document (db w2) (_compute_file_hash L data') = Some c2
            /\ extracted_text c2 = res_extracted_text r2).
Proof.
  intros Hup1.
  destruct (upload_ok_then_cached _ _ _ _ _ Hup1) as (c1 & Hc1 & Ht1 & Hn1 & Hm1).
  split.
  - eexists. eexists. rewrite (upload_document_hit _ n2 _ _ Hc1).
    split; [reflexivity|]. simpl. repeat split. exact Ht1.
  - intros r2 w2 Hneq Hup2.
    destruct (upload_ok_then_cached _ _ _ _ _ Hup2) as (c2 & Hc2 & Ht2 & _ & _).
    pose proof (upload_document_effect _ _ _ _ _ Hup1) as He1.
    pose proof (upload_document_effect _ _ _ _ _ Hup2) as He2.
    split; [apply Hm1|]. split.
    + intros Hnone.
      assert (Hnone1 : get_cached_document (db w1) (_compute_file_hash L data')
                       = None).
      { destruct (get_cached_document (db w) (_compute_file_hash L data)).
        - destruct He1 as (-> & _). exact Hnone.
        - destruct He1 as (_ & _ & _ & row & Hrow & Hh & _).
          apply (get_cached_other _ _ _ _ Hnone Hrow). congruence. }
      rewrite Hnone1 in He2. apply He2.
    + exists c1, c2. repeat split; try assumption.
      destruct (get_cached_document (db w1) (_compute_file_hash L data')).
      * destruct He2 as (-> & _). exact Hc1.
      * destruct He2 as (_ & _ & _ & row & Hrow & _).
        exact (get_cached_old _ _ _ _ _ Hc1 Hrow).
Qed.


(** C3, amended.  After any call of [upload_document] that misses the
    cache, whether it returns a body or fails with a 400 or a 500, the vision
    gate's loaded flag is false.  A call that hits the cache returns before
    the cleanup and leaves the gate as it found it; so a gate that was not
    loaded before a call is not loaded after it. *)
Theorem vision_gate_unloaded_after_processing
    (data : bytes) (name : option string) (w w' : World)
    (r : result DocumentResult) :
  upload_document L data name w = (r, w') ->
  (get_cached_document (db w) (_compute_file_hash L data) = None ->
   is_loaded (florence w') = false)
  /\ (forall c, get_cached_document (db w) (_compute_file_hash L data) = Some c ->
                florence w' = florence w)
  /\ (is_loaded (florence w) = false -> is_loaded (florence w') = false).
Proof.
  intros Hup. pose proof (upload_document_effect _ _ _ _ _ Hup) as He.
  destruct (get_cached_document (db w) _) as [c|].
  - destruct He as (_ & Hf & _). rewrite Hf.
    repeat split; auto. discriminate.
  - destruct He as (Hun & _). repeat split; auto. discriminate.
Qed.

(** C6.  The route by characters per page is never taken.  For an uploaded
    PDF that misses the cache, [_is_scanned_pdf] reads the pages, closes the
    document and then asks the closed document for its page count, which
    raises: the upload returns no body, whatever the text of the pages, the
    pages are neither rendered nor run through the vision gate nor read by
    the text path, and nothing is cached.  When the document opens, the
    caller gets a 500 that names the closed document. *)
Theorem pdf_upload_fails_on_closed_document
    (data : bytes) (name : option string) (w w' : World)
    (r : result DocumentResult) :
  file_ext_of (filename_of name) = "pdf" ->
  get_cached_document (db w) (_compute_file_hash L data) = None ->
  upload_document L data name w = (r, w') ->
  (forall res, r <> Ok res)
  /\ work w' = work w ++ [FitzOpen]
  /\ document_cache (db w') = document_cache (db w)
  /\ (forall pages, fitz_page_texts L data = Ok pages ->
        r = Raise (HTTPException 500
                     "Failed to process document: document closed")).
Proof.
  intros Hext Hmiss Hup.
  rewrite (upload_document_miss _ _ _ Hmiss), Hext in Hup.
  unfold try_finally, translate_errors in Hup.
  rewrite extract_pdf in Hup.
  assert (Hfin : forall wx, exists u',
             unload_after_processing wx = (Ok tt, u')
             /\ work u' = work wx
             /\ document_cache (db u') = document_cache (db wx)).
  { intros wx. unfold unload_after_processing, bind, get_florence, put_florence,
      db_log_model_event, get_db, put_db, ret.
    destruct (is_loaded (florence wx)); eexists; repeat split; reflexivity. }
  destruct (fitz_page_texts L data) as [pages|e].
  - match type of Hup with
    | context [unload_after_processing ?wx] =>
        destruct (Hfin wx) as (u' & Hu' & Hwu & Hdu)
    end.
    rewrite Hu' in Hup. simpl in Hup. injection Hup as <- <-.
    split; [discriminate|]. split; [exact Hwu|]. split; [exact Hdu|].
    intros pages' _. reflexivity.
  - assert (Hraise : exists e', r = Raise e' /\ work w' = work w ++ [FitzOpen]
                                /\ document_cache (db w') = document_cache (db w)).
    { destruct e;
        (match type of Hup with
         | context [unload_after_processing ?wx] =>
             destruct (Hfin wx) as (u' & Hu' & Hwu & Hdu)
         end;
         rewrite Hu' in Hup; simpl in Hup; injection Hup as <- <-;
         eexists; (split; [reflexivity|]); split; assumption). }
    destruct Hraise as (e' & -> & Hw & Hd).
    split; [discriminate|]. split; [exact Hw|]. split; [exact Hd|].
    intros pages' H. discriminate H.
Qed.

End Ingestion.

(** C2, on the stand-in libraries: a note uploaded twice under two names. *)
Lemma upload_dedup_by_content_witness :
  exists r1 w1 r2 w2,
    Main.upload_document Fixtures.demo_libs "hello" (Some "a.txt") Fixtures.fresh_world
    = (Ok r1, w1)
    /\ Main.upload_document Fixtures.demo_libs "hello" (Some "b.md") w1 = (Ok r2, w2)
    /\ Main.cached r2 = true.
Proof.
  eassert (H : Main.upload_document Fixtures.demo_libs "hello" (Some "a.txt")
                 Fixtures.fresh_world = (Ok _, _)) by (vm_compute; reflexivity).
  destruct (upload_dedup_by_content Fixtures.demo_libs "hello" "hello"
              (Some "a.txt") (Some "b.md") _ _ _ H)
    as ((r2 & w2 & Hup2 & Hc & _) & _).
  eexists. eexists. exists r2, w2.
  split; [exact H|]. split; [exact Hup2 | exact Hc].
Defined.


Lemma vision_gate_unloaded_after_processing_witness :
  Models.is_loaded
    (Main.florence
       (snd (Main.upload_document Fixtures.demo_libs Fixtures.scan_pdf_bytes
               (Some "Scan.PDF") Fixtures.fresh_world))) = false.
Proof.
  destruct (Main.upload_document Fixtures.demo_libs Fixtures.scan_pdf_bytes
              (Some "Scan.PDF") Fixtures.fresh_world) as [r w'] eqn:H.
  destruct (vision_gate_unloaded_after_processing _ _ _ _ _ _ H) as (Hm & _).
  apply Hm. reflexivity.
Defined.

(** C2 as stated fails for an upload that fails: nothing is cached, so the
    same bytes uploaded again are extracted again.  Plain text sent as
    [report.pdf] is refused with a 500; sent again as [report.txt] it is
    decoded and returned with [cached = false]. *)
Lemma failed_upload_is_not_cached :
  exists e w1 r2 w2,
    Main.upload_document Fixtures.demo_libs "plain words" (Some "report.pdf")
                         Fixtures.fresh_world = (Raise e, w1)
    /\ Main.upload_document Fixtures.demo_libs "plain words" (Some "report.txt") w1
       = (Ok r2, w2)
    /\ Main.cached r2 = false
    /\ Main.work w2 = Main.work w1 ++ [Main.Utf8Decode].
Proof.
  eexists. eexists. eexists. eexists.
  split; [vm_compute; reflexivity|].
  split; [vm_compute; reflexivity|].
  split; reflexivity.
Qed.

(** C3 as stated fails: with the vision engine loaded through the model
    endpoint, an upload that hits the cache returns with the engine still
    loaded. *)
Lemma cache_hit_leaves_vision_loaded :
  let w1 := snd (Main.upload_document Fixtures.demo_libs "hello" (Some "a.txt")
                   Fixtures.fresh_world) in
  let w2 := snd (Main.start_model_florence2 Fixtures.demo_libs w1) in
  exists r w3,
    Main.upload_document Fixtures.demo_libs "hello" (Some "a.txt") w2 = (Ok r, w3)
    /\ Main.cached r = true
    /\ Models.is_loaded (Main.florence w3) = true.
Proof. eexists. eexists. split; [vm_compute; reflexivity|]. split; reflexivity. Qed.

(** C6, on the stand-in libraries: a PDF of two pages with 64 characters
    of text each, which the claim sends down the text path, is answered with
    a 500. *)
Lemma pdf_upload_fails_on_closed_document_witness :
  Main.total_chars [Fixtures.text_page; Fixtures.text_page] = 128
  /\ exists w',
      Main.upload_document Fixtures.demo_libs Fixtures.text_pdf_bytes
                           (Some "report.pdf") Fixtures.fresh_world
      = (Raise (HTTPException 500 "Failed to process document: document closed"),
         w')
      /\ Database.document_cache (Main.db w') = [].
Proof.
  split; [reflexivity|].
  destruct (Main.upload_document Fixtures.demo_libs Fixtures.text_pdf_bytes
              (Some "report.pdf") Fixtures.fresh_world) as [r w'] eqn:H.
  destruct (pdf_upload_fails_on_closed_document Fixtures.demo_libs
              Fixtures.text_pdf_bytes (Some "report.pdf") Fixtures.fresh_world
              _ _ eq_refl eq_refl H)
    as (_ & _ & Hd & Hr).
  exists w'. rewrite (Hr _ eq_refl). split; [reflexivity | exact Hd].
Defined.

(* ===================================================================== *)
(** * Properties of the streaming chat proxy                               *)
(* ===================================================================== *)

Section ChatProxy.
Import Models Database Main.
Local Open Scope m_scope.

Variable L : Libs.

(** ** The relay loop *)

(** The loop yields Token events only, and counts each one. *)
Lemma relay_shape lines ending full n evs out :
  relay L lines ending full n = (evs, out) ->
  exists toks,
    evs = map Token toks
    /\ forall full' n', out = Ok (full', n') -> n' = n + List.length toks.
Proof.
  revert full n evs out.
  induction lines as [|line rest IH]; intros full n evs out; cbn [relay].
  - destruct ending; intros [= <- <-]; exists []; simpl;
      (split; [reflexivity|]); intros full' n' [= _ <-]; lia.
  - destruct (line_action L line) as [| |tok|e].
    + apply IH.
    + intros [= <- <-]. exists []. simpl. split; [reflexivity|].
      intros full' n' [= _ <-]. lia.
    + destruct (relay L rest ending (full ++ tok) (S n)) as [evs' out'] eqn:Hr.
      intros [= <- <-]. destruct (IH _ _ _ _ Hr) as (toks & -> & Hout).
      exists (tok :: toks). split; [reflexivity|].
      intros full' n' Ho. rewrite (Hout _ _ Ho). simpl. lia.
    + intros [= <- <-]. exists []. simpl. split; [reflexivity|]. discriminate.
Qed.

Lemma count_tokens_map toks :
  count_events is_token (map Token toks) = List.length toks.
Proof.
  unfold count_events. induction toks as [|t ts IH]; simpl; [reflexivity|].
  now rewrite IH.
Qed.

Lemma count_events_app p l1 l2 :
  count_events p (l1 ++ l2) = count_events p l1 + count_events p l2.
Proof. unfold count_events. now rewrite filter_app, length_app. Qed.

Lemma count_other_map p toks :
  (forall t, p (Token t) = false) ->
  count_events p (map Token toks) = 0.
Proof.
  intros Hp. unfold count_events.
  induction toks as [|t ts IH]; simpl; [reflexivity|]. now rewrite Hp.
Qed.

(** ** Storage during a chat *)

Lemma find_conversation_touch d now cid cid' :
  find_conversation (touch_conversation d now cid') cid = None ->
  find_conversation d cid = None.
Proof.
  unfold find_conversation, touch_conversation, update_rows. simpl.
  induction (conversations d) as [|r rs IH]; simpl; [reflexivity|].
  destruct (String.eqb (row_id r) cid') eqn:E; simpl.
  - destruct (String.eqb (row_id r) cid); [discriminate|exact IH].
  - destruct (String.eqb (row_id r) cid); [discriminate|exact IH].
Qed.



(** What a successful [chat_prepare] has checked and done. *)
Lemma chat_prepare_ok request w plan w1 :
  chat_prepare L request w = (Ok plan, w1) ->
  let cid := req_conversation_id request in
  exists conv,
    get_conversation (db w) cid = Some conv
    /\ is_running (llama w) = true
    /\ messages (db w1)
       = messages (db w)
         ++ [mkMessage (uuid4 L (uuid_reads w)) cid "user" (req_message request)
                       false None None (wall_clock L (clock_reads w))]
    /\ find_conversation (db w1) cid <> None
    /\ uuid_reads w1 = S (S (uuid_reads w))
    /\ clock_reads w1 = S (S (clock_reads w))
    /\ plan = mkChatPlan
                (system_entry request
                 :: map (fun h => mkChatMessage (role h) (content h))
                        (get_messages (db w1) cid 20))
                (message_count conv <=? 1)%nat
                (uuid4 L (S (uuid_reads w))).
Proof.
  unfold chat_prepare, bind at 1, get_db at 1. simpl.
  destruct (get_conversation (db w) (req_conversation_id request)) as [conv|] eqn:Hc;
    [|discriminate].
  unfold bind at 1, get_llama at 1. simpl.
  destruct (is_running (llama w)) eqn:Hr; simpl; [|discriminate].
  unfold bind at 1.
  unfold db_save_message, bind, new_uuid, time_time, get_db, put_db, lift,
    save_message, ret. simpl.
  destruct (existsb _ _); simpl; [discriminate|].
  destruct (find_conversation (db w) (req_conversation_id request)) eqn:Hf;
    simpl; [|discriminate].
  intros [= <- <-]. exists conv. simpl.
  repeat split; try reflexivity.
  intros Hnone. apply find_conversation_touch in Hnone.
  unfold find_conversation in *. simpl in Hnone. congruence.
Qed.

Lemma db_update_conversation_returns cid title w :
  exists r w', db_update_conversation L cid title w = (Ok r, w').
Proof.
  unfold db_update_conversation, time_time, get_db, put_db, ret.
  unfold bind. simpl.
  destruct (update_conversation _ _ _ _) as [r d']. eauto.
Qed.

(** [_auto_title] never raises. *)
Lemma auto_title_returns net cid msg w :
  fst (_auto_title L net cid msg w) = Ok tt.
Proof.
  unfold _auto_title, bind at 1, get_llama at 1. simpl.
  destruct (is_running (llama w)); simpl.
  - destruct (title_reply net) as [sc [text|e]|e]; simpl; try reflexivity;
      destruct (sc =? 200)%Z; simpl; try reflexivity.
    destruct (nonempty _); simpl; [|reflexivity].
    unfold bind.
    destruct (db_update_conversation_returns cid
                (slice_to 100 (strip_set is_quote (strip text))) w)
      as (r & w' & ->). reflexivity.
  - unfold bind.
    match goal with
    | |- context [db_update_conversation L cid ?t w] =>
        destruct (db_update_conversation_returns cid t w) as (r & w' & ->)
    end. reflexivity.
Qed.


(** ** [round(x, 1)] *)

Lemma round_half_even_near (y : Q) :
  (Qabs (inject_Z (round_half_even y) - y) <= 1 # 2)%Q.
Proof.
  unfold round_half_even.
  pose proof (Qfloor_le y) as Hlo. pose proof (Qlt_floor y) as Hhi.
  rewrite inject_Z_plus in Hhi. change (inject_Z 1) with 1%Q in Hhi.
  destruct (Qcompare (y - inject_Z (Qfloor y)) (1 # 2)) eqn:E.
  - apply Qeq_alt in E. destruct (Z.even (Qfloor y));
      [|rewrite inject_Z_plus; change (inject_Z 1) with 1%Q];
      apply Qabs_case; intros; lra.
  - apply Qlt_alt in E. apply Qabs_case; intros; lra.
  - apply Qgt_alt in E. rewrite inject_Z_plus. change (inject_Z 1) with 1%Q.
    apply Qabs_case; intros; lra.
Qed.

(** [round(x, 1)] of a finite double is the double nearest to a whole
    number of tenths that lies within a twentieth of [x] (a zero with the
    sign of [x] when that number is 0). *)
Lemma py_round_1_near (s : bool) (m : positive) (e : Z) :
  exists k : Z,
    (Qabs ((k # 10) - float_value s m e) <= 1 # 20)%Q
    /\ py_round 1 (S754_finite s m e)
       = match k with Z0 => S754_zero s | _ => float_of_Q (k # 10) end.
Proof.
  unfold py_round. change (inject_Z (10 ^ Z.of_nat 1)) with (10 # 1)%Q.
  change (Z.to_pos (10 ^ Z.of_nat 1)) with 10%positive.
  set (x := float_value s m e).
  pose proof (round_half_even_near (x * (10 # 1))) as H.
  set (k := round_half_even (x * (10 # 1))) in *.
  exists k. split; [|reflexivity].
  assert (Hk : (k # 10 == inject_Z k * (1 # 10))%Q).
  { unfold Qeq, Qmult, inject_Z. simpl. lia. }
  rewrite Hk.
  revert H. apply Qabs_case; intros H1 H2; apply Qabs_case; intros H3; lra.
Qed.

(** The rounding acts on the double: three tokens in twenty seconds are
    0.15 in exact arithmetic, the double quotient lies just below, and the
    rate reported is 0.1. *)
Lemma round_follows_the_double :
  py_round 1 (fdiv (float_of_Z 3) (float_of_Z 20)) = float_of_Q (1 # 10)
  /\ py_round 1 (float_of_Q (1 # 4)) = float_of_Q (2 # 10)
  /\ py_round 2 (float_of_Q (2675 # 1000)) = float_of_Q (267 # 100).
Proof. repeat split; vm_compute; reflexivity. Qed.


(** ** One run of the generator *)

(** Every way [stream_response] can run: the stream fails and an Error
    closes the sequence; or it ends and a Done closes it; or storing the
    reply raises and the exception leaves the generator. *)
Lemma stream_response_inv request plan net w evs r w' :
  stream_response L request plan net w = ((evs, r), w') ->
  let id := plan_msg_id plan in
  let elapsed := fsub (time_float L (S (clock_reads w)))
                      (time_float L (clock_reads w)) in
  exists toks,
    (exists e,
        stream_outcome L net = Raise e
        /\ evs = Start id :: map Token toks ++ [Error (error_content e)]
        /\ r = Ok tt)
    \/ (exists full,
           stream_outcome L net = Ok (full, List.length toks)
           /\ ((evs = Start id :: map Token toks
                      ++ [Done id (List.length toks)
                            (py_round 1 (tokens_per_second_of
                                           (List.length toks) elapsed))]
                /\ r = Ok tt)
               \/ (evs = Start id :: map Token toks
                   /\ nonempty full = true
                   /\ exists e w3,
                       db_save_message L (req_conversation_id request)
                                       "assistant" full (tick (tick w))
                       = (Raise e, w3)
                       /\ r = Raise e))).
Proof.
  unfold stream_response, stream_outcome.
  destruct (relay L (stream_lines net) (stream_error net) "" 0)
    as [tokens loop] eqn:Hr.
  destruct (relay_shape _ _ _ _ _ _ Hr) as (toks & -> & Hloop).
  intros H. exists toks. simpl snd.
  change (clock_reads (tick w)) with (S (clock_reads w)) in H.
  assert (Hn : forall full' n', leave_stream net loop = Ok (full', n') ->
                                n' = 0 + List.length toks).
  { unfold leave_stream. intros full' n'. destruct loop as [acc|e]; [|discriminate].
    destruct (close_error net); [discriminate|]. intros [= ->].
    apply (Hloop full' n' eq_refl). }
  destruct (leave_stream net loop) as [[full n]|e].
  - right. exists full. rewrite (Hn _ _ eq_refl) in *. simpl Nat.add in *.
    split; [reflexivity|].
    destruct (nonempty full) eqn:Hne.
    + unfold bind at 1 in H.
      destruct (db_save_message L (req_conversation_id request) "assistant"
                                full (tick (tick w))) as [[m|e] w3] eqn:Hs.
      * left. simpl in H.
        destruct (is_first plan && true);
          [destruct (_auto_title _ _ _ _ _) as [ra wa] eqn:Ha;
           pose proof (auto_title_returns net (req_conversation_id request)
                         (req_message request) w3) as Hat;
           rewrite Ha in Hat; simpl in Hat; subst ra|];
          injection H as <- <- _; split; reflexivity.
      * right. simpl in H. injection H as <- <- _.
        split; [reflexivity|]. split; [reflexivity|]. eauto.
    + left. rewrite andb_false_r in H. injection H as <- <- _.
      split; reflexivity.
  - left. exists e. injection H as <- <- _. repeat split; reflexivity.
Qed.


Lemma ordered_counts id toks terminal :
  is_terminal terminal = true ->
  count_events is_start (Start id :: map Token toks ++ [terminal]) = 1
  /\ count_events is_terminal (Start id :: map Token toks ++ [terminal]) = 1
  /\ count_events is_token (Start id :: map Token toks ++ [terminal])
     = List.length toks.
Proof.
  intros Ht.
  change (Start id :: map Token toks ++ [terminal])
    with ([Start id] ++ map Token toks ++ [terminal]).
  rewrite !count_events_app, count_tokens_map.
  rewrite !count_other_map by reflexivity.
  unfold count_events. simpl. rewrite Ht.
  destruct terminal; try discriminate; simpl; lia.
Qed.


(** C5, amended.  When the generator emits a Done event, its
    [total_tokens] is the number of Token events emitted, and its
    [tokens_per_second] is [round(total_tokens / elapsed, 1)] in double
    precision: the quotient of [total_tokens] by the elapsed seconds, rounded
    to the nearest double and then to one decimal place (the double nearest
    to a whole number of tenths within 0.05 of that quotient); it is 0 when
    the elapsed time is not positive. *)
Theorem done_event_token_accounting
    (request : ChatRequest) (plan : ChatPlan) (net : ChatNet) (w w' : World)
    (evs : list StreamEvent) (r : result unit)
    (id : string) (n : nat) (q : float) :
  stream_response L request plan net w = ((evs, r), w') ->
  In (Done id n q) evs ->
  let elapsed := fsub (time_float L (S (clock_reads w)))
                      (time_float L (clock_reads w)) in
  let quotient := fdiv (float_of_Z (Z.of_nat n)) elapsed in
  n = count_events is_token evs
  /\ (float_gt0 elapsed = false -> q = S754_zero false)
  /\ (float_gt0 elapsed = true ->
      q = py_round 1 quotient
      /\ forall s m e, quotient = S754_finite s m e ->
           exists k : Z,
             (Qabs ((k # 10) - float_value s m e) <= 1 # 20)%Q
             /\ q = match k with Z0 => S754_zero s | _ => float_of_Q (k # 10) end).
Proof.
  intros Hsr Hin elapsed quotient.
  destruct (stream_response_inv _ _ _ _ _ _ _ Hsr) as (toks & Hcases).
  fold elapsed in Hcases.
  assert (Hmap : ~ In (Done id n q) (map Token toks)).
  { intros H. apply in_map_iff in H. destruct H as (t & Ht & _). discriminate. }
  destruct Hcases as [(e & _ & -> & _)|(full & _ & [(-> & _)|(-> & _)])].
  - exfalso. destruct Hin as [H|H]; [discriminate|].
    apply in_app_iff in H. destruct H as [H|[H|[]]]; [exact (Hmap H)|discriminate].
  - destruct Hin as [H|H]; [discriminate|].
    apply in_app_iff in H. destruct H as [H|[H|[]]]; [destruct (Hmap H)|].
    injection H as _ Hn Hq. subst n.
    destruct (ordered_counts (plan_msg_id plan) toks
                (Done (plan_msg_id plan) (List.length toks)
                      (py_round 1 (tokens_per_second_of (List.length toks) elapsed)))
                eq_refl) as (_ & _ & Hc).
    split; [symmetry; exact Hc|].
    unfold tokens_per_second_of in Hq. split.
    + intros Hle. rewrite Hle in Hq. symmetry. exact Hq.
    + intros Hgt. rewrite Hgt in Hq. fold quotient in Hq.
      split; [symmetry; exact Hq|].
      intros s m e Hfin. rewrite Hfin in Hq.
      destruct (py_round_1_near s m e) as (k & Hnear & Hk).
      exists k. split; [exact Hnear|]. rewrite <- Hq. exact Hk.
  - exfalso. destruct Hin as [H|H]; [discriminate|exact (Hmap H)].
Qed.

End ChatProxy.




Lemma done_event_token_accounting_witness :
  exists evs r w',
    Main.stream_response Fixtures.demo_libs (Fixtures.ask "Hi there")
      (Main.mkChatPlan [] false "uuid-1") Fixtures.two_tokens (Fixtures.chat_world 0)
    = ((evs, r), w')
    /\ In (Main.Done "uuid-1" 2 (Py.float_of_Q (7 # 10))) evs
    /\ 2 = Main.count_events Main.is_token evs.
Proof.
  eassert (H : Main.stream_response Fixtures.demo_libs (Fixtures.ask "Hi there")
                 (Main.mkChatPlan [] false "uuid-1") Fixtures.two_tokens
                 (Fixtures.chat_world 0) = ((_, _), _))
    by (vm_compute; reflexivity).
  assert (Hin : In (Main.Done "uuid-1" 2 (Py.float_of_Q (7 # 10)))
                   [Main.Start "uuid-1"; Main.Token "Hello"; Main.Token " world";
                    Main.Done "uuid-1" 2 (Py.float_of_Q (7 # 10))])
    by (simpl; auto).
  destruct (done_event_token_accounting Fixtures.demo_libs _ _ _ _ _ _ _ _ _ _ H Hin)
    as (Hn & _).
  eexists. eexists. eexists. split; [exact H|]. split; [exact Hin | exact Hn].
Defined.

(** C5 as stated fails on the rate: one token in three seconds is reported as
    0.3 tokens per second, which is neither the double quotient of 1 by 3
    nor a third. *)
Lemma done_rate_is_rounded :
  exists w',
    Main.stream_response Fixtures.demo_libs (Fixtures.ask "Hi there")
      (Main.mkChatPlan [] false "uuid-1") Fixtures.one_token (Fixtures.chat_world 0)
    = (([Main.Start "uuid-1"; Main.Token "Hello";
         Main.Done "uuid-1" 1 (Py.float_of_Q (3 # 10))], Ok tt), w')
    /\ Py.fsub (Main.time_float Fixtures.demo_libs 2)
               (Main.time_float Fixtures.demo_libs 1) = Py.float_of_Z 3
    /\ Py.float_of_Q (3 # 10) <> Py.fdiv (Py.float_of_Z 1) (Py.float_of_Z 3)
    /\ Py.float_of_Q (3 # 10) = S754_finite false 5404319552844595 (-54)
    /\ ~ (Py.float_value false 5404319552844595 (-54) == 1 # 3)%Q.
Proof.
  eexists. split; [vm_compute; reflexivity|]. split; [vm_compute; reflexivity|].
  split; [vm_compute; discriminate|]. split; [vm_compute; reflexivity|].
  intros H. vm_compute in H. discriminate H.
Qed.

(** C8 fails on the window: with 21 earlier messages in the conversation the
    request carries the system entry and the 20 oldest messages; the latest
    earlier message and the user's new message are not in it, and the window
    is not the most recent 20. *)
Theorem chat_history_is_oldest_twenty :
  exists plan w',
    Main.chat_prepare Fixtures.demo_libs (Fixtures.ask "What about now?")
                      (Fixtures.chat_world 21) = (Ok plan, w')
    /\ map Main.cm_content (Main.request_messages plan)
       = Main.default_system_prompt
         :: map (fun k => ("m" ++ str_nat k)%string) (seq 1 20)
    /\ ~ In "What about now?" (map Main.cm_content (Main.request_messages plan))
    /\ ~ In "m21" (map Main.cm_content (Main.request_messages plan))
    /\ map Database.content (Main.most_recent 20 (Main.db w') "c1")
       = map (fun k => ("m" ++ str_nat k)%string) (seq 3 19)
         ++ ["What about now?"]
    /\ map Database.content (Database.get_messages (Main.db w') "c1" 20)
       <> map Database.content (Main.most_recent 20 (Main.db w') "c1").
Proof.
  eexists. eexists. split; [vm_compute; reflexivity|].
  split; [vm_compute; reflexivity|].
  split.
  { vm_compute. intros H.
    repeat (destruct H as [H|H]; [discriminate H|]). exact H. }
  split.
  { vm_compute. intros H.
    repeat (destruct H as [H|H]; [discriminate H|]). exact H. }
  split; [vm_compute; reflexivity|].
  vm_compute. discriminate.
Qed.

(* ===================================================================== *)
(** * Further properties of the model managers                             *)
(* ===================================================================== *)

Section SupervisorLifecycle.
Import Models.

(** What [start] does once the files are there and the child is spawned. *)
Lemma start_after_spawn m threads context_size env p :
  is_running m = false ->
  binary_is_file env = true ->
  model_is_file env = true ->
  spawn env (build_cmd m (thread_count_of threads (cpu_count env)) context_size)
  = Ok p ->
  start m threads context_size env
  = let m1 := set_start_time (set_process m (Some p)) (Some (spawn_time env)) in
    match poll_until_ready 120 (ready_deadline env) p (ready_obs env) with
    | None => None
    | Some (Ok _, p') => Some (Ok tt, set_process m1 (Some p'))
    | Some (Raise (TimeoutError msg), p') =>
        let '(r, m2, _) := stop (set_process m1 (Some p')) (stop_env env) in
        match r with
        | Ok _ => Some (Raise (TimeoutError msg), m2)
        | Raise e => Some (Raise e, m2)
        end
    | Some (Raise e, p') => Some (Raise e, set_process m1 (Some p'))
    end.
Proof.
  intros Hnr Hb Hm Hs. unfold start. rewrite Hnr, Hb, Hm, Hs. reflexivity.
Qed.

(** X1.  [start] keeps the lifecycle fields together: whatever it returns,
    a manager that had no start time without a process handle still has
    none. *)
Theorem start_keeps_lifecycle
    (m m' : LlamaServerManager) (threads : option nat) (context_size : Z)
    (env : StartEnv) (r : result unit) :
  lifecycle_wf m ->
  start m threads context_size env = Some (r, m') ->
  lifecycle_wf m'.
Proof.
  intros Hwf. unfold start.
  destruct (is_running m); [intros [= _ <-]; exact Hwf|].
  destruct (binary_is_file env); simpl; [|intros [= _ <-]; exact Hwf].
  destruct (model_is_file env); simpl; [|intros [= _ <-]; exact Hwf].
  destruct (spawn env _) as [p|e]; [|intros [= _ <-]; exact Hwf].
  destruct (_wait_for_ready _ _ _ _) as [[[u|e] p']|]; [| |discriminate].
  - intros [= _ <-]. intros H. discriminate H.
  - set (m1 := set_process _ (Some p')).
    assert (Hm1 : lifecycle_wf m1) by (intros H; discriminate H).
    assert (Hother : forall e0, Some (Raise e0, m1) = Some (r, m') ->
                                lifecycle_wf m')
      by (intros e0 [= _ <-]; exact Hm1).
    destruct e; try (apply Hother).
    pose proof (stop_keeps_wf m1 (stop_env env) Hm1) as Hs.
    destruct (stop m1 (stop_env env)) as [[rs m2] sigs]. simpl in Hs.
    destruct rs; intros [= _ <-]; exact Hs.
Qed.

Lemma start_keeps_lifecycle_witness :
  exists r m',
    start Fixtures.stopped_llama None 4096 (Fixtures.crash_env "boom") = Some (r, m')
    /\ lifecycle_wf m'.
Proof.
  eassert (H : start Fixtures.stopped_llama None 4096 (Fixtures.crash_env "boom")
               = Some (_, _)) by (vm_compute; reflexivity).
  eexists. eexists. split; [exact H|].
  apply (start_keeps_lifecycle Fixtures.stopped_llama _ None 4096
           (Fixtures.crash_env "boom") _ (lifecycle_wf_init _ _) H).
Defined.

(** X2.  When the health endpoint answers 200 before the deadline and the
    child has stayed alive, [start] returns normally and the manager is
    running, with the child's pid and the spawn time as start time. *)
Theorem start_succeeds_when_ready
    (m : LlamaServerManager) (threads : option nat) (context_size : Z)
    (env : StartEnv) (p : Popen) (pre post : list poll_obs) (o : poll_obs) :
  is_running m = false ->
  binary_is_file env = true ->
  model_is_file env = true ->
  spawn env (build_cmd m (thread_count_of threads (cpu_count env)) context_size)
  = Ok p ->
  returncode p = None ->
  ready_obs env = pre ++ o :: post ->
  forallb (still_polling (ready_deadline env)) pre = true ->
  Qlt_bool (obs_time o) (ready_deadline env) = true ->
  obs_poll o = None ->
  obs_health o = Response 200 ->
  exists m',
    start m threads context_size env = Some (Ok tt, m')
    /\ is_running m' = true
    /\ pid_of m' = Some (pid p)
    /\ _start_time m' = Some (spawn_time env)
    /\ forall env', start m' threads context_size env' = Some (Ok tt, m').
Proof.
  intros Hnr Hb Hm Hs Hrc Hobs Hpre Ht Hpoll Hh.
  rewrite (start_after_spawn _ _ _ _ _ Hnr Hb Hm Hs), Hobs.
  rewrite (poll_until_ready_skips _ _ _ _ _ Hrc Hpre).
  simpl. rewrite Ht, Hrc, Hpoll, Hh. simpl.
  eexists. split; [reflexivity|].
  assert (Hrun : is_running
                   (set_process (set_start_time (set_process m (Some p))
                                                (Some (spawn_time env))) (Some p))
                 = true)
    by (unfold is_running; simpl; rewrite Hrc; reflexivity).
  split; [exact Hrun|].
  split; [unfold pid_of; rewrite Hrun; reflexivity|].
  split; [reflexivity|].
  intros env'. unfold start. rewrite Hrun. reflexivity.
Qed.


Lemma start_succeeds_when_ready_witness :
  exists m',
    start Fixtures.stopped_llama None 4096 Fixtures.ready_env = Some (Ok tt, m')
    /\ pid_of m' = Some 4242%Z.
Proof.
  destruct (start_succeeds_when_ready Fixtures.stopped_llama None 4096
              Fixtures.ready_env Fixtures.alive_child
              [mkObs (1000 # 1)%Q None Fixtures.refused;
               mkObs (2001 # 2)%Q None (Response 503)]
              [] (mkObs (1001 # 1)%Q None (Response 200))
              eq_refl eq_refl eq_refl eq_refl eq_refl eq_refl eq_refl eq_refl
              eq_refl eq_refl)
    as (m' & Hs & _ & Hp & _).
  exists m'. split; assumption.
Defined.

(** X3.  When the deadline passes with the child alive and not ready,
    [start] stops the child before it fails: if the child goes away on the
    termination signal or on the kill, the caller gets the [TimeoutError] and
    the manager holds no process handle and no start time; if the child
    survives the kill too, the caller gets [TimeoutExpired] instead, raised
    for the child's command and the 5 s of the last wait, and the handle
    stays. *)
Theorem start_timeout_stops_child
    (m : LlamaServerManager) (threads : option nat) (context_size : Z)
    (env : StartEnv) (p : Popen) (pre post : list poll_obs) (o : poll_obs) :
  is_running m = false ->
  binary_is_file env = true ->
  model_is_file env = true ->
  spawn env (build_cmd m (thread_count_of threads (cpu_count env)) context_size)
  = Ok p ->
  returncode p = None ->
  ready_obs env = pre ++ o :: post ->
  forallb (still_polling (ready_deadline env)) pre = true ->
  Qlt_bool (obs_time o) (ready_deadline env) = false ->
  ((exits_after_terminate (stop_env env) <> None
    \/ exits_after_kill (stop_env env) <> None) ->
   exists m',
     start m threads context_size env
     = Some (Raise (TimeoutError "llama-server failed to start within 120s"), m')
     /\ process m' = None /\ _start_time m' = None /\ is_running m' = false)
  /\ (exits_after_terminate (stop_env env) = None ->
      exits_after_kill (stop_env env) = None ->
      exists m',
        start m threads context_size env
        = Some (Raise (TimeoutExpired (args p) 5), m')
        /\ process m' = Some p /\ is_running m' = true).
Proof.
  intros Hnr Hb Hm Hs Hrc Hobs Hpre Ht.
  rewrite (start_after_spawn _ _ _ _ _ Hnr Hb Hm Hs), Hobs.
  rewrite (poll_until_ready_skips _ _ _ _ _ Hrc Hpre).
  simpl. rewrite Ht. unfold stop. simpl. rewrite Hrc. split.
  - intros Hexit.
    destruct (exits_after_terminate (stop_env env)) as [c|].
    + eexists. split; [reflexivity|]. repeat split.
    + destruct (exits_after_kill (stop_env env)) as [c|].
      * eexists. split; [reflexivity|]. repeat split.
      * exfalso. destruct Hexit as [H|H]; apply H; reflexivity.
  - intros -> ->. eexists. split; [reflexivity|].
    split; [reflexivity|]. unfold is_running. simpl. rewrite Hrc. reflexivity.
Qed.

Lemma start_timeout_stops_child_witness :
  exists m',
    start Fixtures.stopped_llama None 4096 (Fixtures.timeout_env Fixtures.stubborn)
    = Some (Raise (TimeoutError "llama-server failed to start within 120s"), m')
    /\ process m' = None.
Proof.
  destruct (start_timeout_stops_child Fixtures.stopped_llama None 4096
              (Fixtures.timeout_env Fixtures.stubborn) Fixtures.alive_child
              [mkObs (1000 # 1)%Q None Fixtures.refused;
               mkObs (1060 # 1)%Q None (Response 503)]
              [] (mkObs (1120 # 1)%Q None Fixtures.refused)
              eq_refl eq_refl eq_refl eq_refl eq_refl eq_refl eq_refl eq_refl)
    as (Hstop & _).
  destruct Hstop as (m' & Hs & Hp & _); [right; discriminate|].
  exists m'. split; assumption.
Defined.

(** X4.  A health request that fails with anything but [ConnectError] (an
    httpx timeout, say) makes [start] fail with that exception and without
    stopping the child: the manager is left running with the child's handle,
    and a second [start] then returns at once without spawning. *)
Theorem start_poll_error_leaves_child_running
    (m : LlamaServerManager) (threads : option nat) (context_size : Z)
    (env : StartEnv) (p : Popen) (pre post : list poll_obs) (o : poll_obs)
    (e : exn) :
  is_running m = false ->
  binary_is_file env = true ->
  model_is_file env = true ->
  spawn env (build_cmd m (thread_count_of threads (cpu_count env)) context_size)
  = Ok p ->
  returncode p = None ->
  ready_obs env = pre ++ o :: post ->
  forallb (still_polling (ready_deadline env)) pre = true ->
  Qlt_bool (obs_time o) (ready_deadline env) = true ->
  obs_poll o = None ->
  obs_health o = HttpRaises e ->
  (forall msg, e <> ConnectError msg) ->
  (forall msg, e <> TimeoutError msg) ->
  exists m',
    start m threads context_size env = Some (Raise e, m')
    /\ process m' = Some p
    /\ is_running m' = true
    /\ forall env', start m' threads context_size env' = Some (Ok tt, m').
Proof.
  intros Hnr Hb Hm Hs Hrc Hobs Hpre Ht Hpoll Hh Hce Hte.
  rewrite (start_after_spawn _ _ _ _ _ Hnr Hb Hm Hs), Hobs.
  rewrite (poll_until_ready_skips _ _ _ _ _ Hrc Hpre).
  simpl. rewrite Ht, Hrc, Hpoll, Hh.
  assert (Hrun : is_running
                   (set_process (set_start_time (set_process m (Some p))
                                                (Some (spawn_time env))) (Some p))
                 = true)
    by (unfold is_running; simpl; rewrite Hrc; reflexivity).
  destruct e; try (exfalso; eapply Hce; reflexivity);
    try (exfalso; eapply Hte; reflexivity);
    (eexists; split; [reflexivity|]; split; [reflexivity|];
     split; [exact Hrun|]; intros env'; unfold start; rewrite Hrun; reflexivity).
Qed.

Lemma start_poll_error_leaves_child_running_witness :
  exists m',
    start Fixtures.stopped_llama None 4096 Fixtures.hung_env
    = Some (Raise (TimeoutException "timed out"), m')
    /\ is_running m' = true.
Proof.
  destruct (start_poll_error_leaves_child_running Fixtures.stopped_llama None 4096
              Fixtures.hung_env Fixtures.alive_child [] []
              (mkObs (1000 # 1)%Q None (HttpRaises (TimeoutException "timed out")))
              (TimeoutException "timed out")
              eq_refl eq_refl eq_refl eq_refl eq_refl eq_refl eq_refl eq_refl
              eq_refl eq_refl)
    as (m' & Hs & _ & Hr & _); try (intros msg H; discriminate H).
  exists m'. split; assumption.
Defined.

(** [start] never asks for fewer than one thread: an explicit positive
    count is used as given, and a missing or zero count falls back to half
    the logical cores (4 when the count is unknown), at least 1. *)
Lemma thread_count_at_least_one (threads cpus : option nat) :
  1 <= thread_count_of threads cpus
  /\ (forall t, threads = Some (S t) -> thread_count_of threads cpus = S t)
  /\ (threads = None \/ threads = Some 0 ->
      thread_count_of threads cpus
      = Nat.max 1 (match cpus with Some (S c) => S c | _ => 4 end / 2)).
Proof.
  unfold thread_count_of, _optimal_threads. repeat split.
  - destruct threads as [[|t]|]; try lia; destruct cpus as [[|c]|]; lia.
  - intros t ->. reflexivity.
  - intros [->| ->]; destruct cpus as [[|c]|]; reflexivity.
Qed.

End SupervisorLifecycle.

Section VisionGate.
Import Models.

Variable image : Type.
Variable env : VisionEnv image.

(** X5.  Loading an unloaded gate and unloading it again releases
    everything [load] acquired: both handles and the load time are gone and
    the flag is false; a second [load] of a loaded gate changes nothing. *)
Theorem load_then_unload_releases (f f1 : Florence2Manager) :
  is_loaded f = false ->
  load f env = (Ok tt, f1) ->
  is_loaded f1 = true
  /\ model f1 <> None /\ processor f1 <> None
  /\ load f1 env = (Ok tt, f1)
  /\ unload f1 = mkFlorence (fl_model_path f) None None false None
  /\ unload (unload f1) = unload f1.
Proof.
  intros Hl. unfold load. rewrite Hl.
  destruct (model_from_pretrained env) as [mh|e]; [|discriminate].
  destruct (processor_from_pretrained env) as [ph|e]; [|discriminate].
  intros [= <-]. simpl. repeat split; discriminate.
Qed.

(** X6.  A load that fails on the processor leaves the gate unloaded but
    holding the model weights, and [unload], which looks at the flag only,
    does not release them. *)
Theorem partial_load_is_not_released (f f1 : Florence2Manager) (mh : nat) (e : exn) :
  is_loaded f = false ->
  model_from_pretrained env = Ok mh ->
  processor_from_pretrained env = Raise e ->
  load f env = (Raise e, f1) ->
  is_loaded f1 = false
  /\ model f1 = Some mh
  /\ unload f1 = f1
  /\ model (unload f1) = Some mh.
Proof.
  intros Hl Hm Hp. unfold load. rewrite Hl, Hm, Hp.
  intros [= <-]. unfold unload. simpl. auto.
Qed.

(** X7.  [process_image] loads the gate when it has to and never unloads
    it: a loaded gate is used as it is, a successful call leaves the gate
    loaded, and the gate is unloaded afterwards only if the lazy load itself
    failed, in which case no inference was run. *)
Theorem process_image_loads_lazily
    (f f1 : Florence2Manager) (img : image) (r : result (pyval * pyval)) :
  process_image f env img = (r, f1) ->
  (is_loaded f = true -> f1 = f)
  /\ (forall v, r = Ok v -> is_loaded f1 = true
                            /\ run_caption env img = Ok (fst v)
                            /\ run_ocr env img = Ok (snd v))
  /\ (is_loaded f1 = false ->
      exists e, r = Raise e /\ fst (load f env) = Raise e).
Proof.
  unfold process_image.
  assert (Hfin : forall (g : Florence2Manager),
             is_loaded g = true -> (is_loaded f = true -> g = f) ->
             match run_caption env img with
             | Ok cap => match run_ocr env img with
                         | Ok ocr => (Ok (cap, ocr), g)
                         | Raise e => (Raise e, g)
                         end
             | Raise e => (Raise e, g)
             end = (r, f1) ->
             (is_loaded f = true -> f1 = f)
             /\ (forall v, r = Ok v -> is_loaded f1 = true
                                       /\ run_caption env img = Ok (fst v)
                                       /\ run_ocr env img = Ok (snd v))
             /\ (is_loaded f1 = false ->
                 exists e, r = Raise e /\ fst (load f env) = Raise e)).
  { intros g Hg Hgf.
    destruct (run_caption env img) as [cap|e];
      [destruct (run_ocr env img) as [ocr|e]|];
      intros [= <- <-];
      (split; [exact Hgf|]);
      (split; [intros v Hv; try discriminate Hv; injection Hv as <-; auto
              |intros H; congruence]). }
  destruct (is_loaded f) eqn:Hl.
  - apply Hfin; auto.
  - assert (Hcases : (exists g, load f env = (Ok tt, g) /\ is_loaded g = true)
                     \/ (exists e g, load f env = (Raise e, g)
                                     /\ is_loaded g = false)).
    { unfold load. rewrite Hl.
      destruct (model_from_pretrained env) as [mh|e]; [|right; eauto].
      destruct (processor_from_pretrained env) as [ph|e]; [left; eauto|].
      right. eexists. eexists. split; reflexivity. }
    destruct Hcases as [(g & Hload & Hg)|(e & g & Hload & Hg)]; rewrite Hload.
    + intros H. assert (Hd : false = true -> g = f) by discriminate.
      pose proof (Hfin g Hg Hd H) as Hr. rewrite Hload in Hr. exact Hr.
    + intros [= <- <-].
      split; [discriminate|]. split; [intros v Hv; discriminate Hv|]. eauto.
Qed.

End VisionGate.

Lemma load_then_unload_releases_witness :
  exists f1,
    Models.load Fixtures.fresh_florence Fixtures.demo_vision = (Ok tt, f1)
    /\ Models.unload f1 = Fixtures.fresh_florence.
Proof.
  eassert (H : Models.load Fixtures.fresh_florence Fixtures.demo_vision = (Ok tt, _))
    by reflexivity.
  destruct (load_then_unload_releases _ Fixtures.demo_vision
              Fixtures.fresh_florence _ eq_refl H) as (_ & _ & _ & _ & Hu & _).
  eexists. split; [exact H | exact Hu].
Defined.

Lemma partial_load_is_not_released_witness :
  exists e f1,
    Models.load Fixtures.fresh_florence Fixtures.broken_vision = (Raise e, f1)
    /\ Models.model (Models.unload f1) = Some 1.
Proof.
  eassert (H : Models.load Fixtures.fresh_florence Fixtures.broken_vision
               = (Raise _, _)) by reflexivity.
  destruct (partial_load_is_not_released _ Fixtures.broken_vision
              Fixtures.fresh_florence _ 1 _ eq_refl eq_refl eq_refl H)
    as (_ & _ & _ & Hm).
  eexists. eexists. split; [exact H | exact Hm].
Defined.

Lemma process_image_loads_lazily_witness :
  exists v f1,
    Models.process_image Fixtures.fresh_florence Fixtures.demo_vision
                         (Main.mkImage 2 2 "px") = (Ok v, f1)
    /\ Models.is_loaded f1 = true.
Proof.
  eassert (H : Models.process_image Fixtures.fresh_florence Fixtures.demo_vision
                 (Main.mkImage 2 2 "px") = (Ok _, _)) by reflexivity.
  destruct (process_image_loads_lazily _ Fixtures.demo_vision
              Fixtures.fresh_florence _ _ _ H) as (_ & Hok & _).
  destruct (Hok _ eq_refl) as (Hl & _).
  eexists. eexists. split; [exact H | exact Hl].
Defined.

(* ===================================================================== *)
(** * Further properties of the storage layer                              *)
(* ===================================================================== *)

Section Storage.
Import Database.

(** ** Ordering *)

Lemma Qle_bool_false a b : Qle_bool a b = false -> (b <= a)%Q.
Proof.
  intros H. apply Qlt_le_weak. apply Qnot_le_lt. intros Hle.
  apply Qle_bool_iff in Hle. congruence.
Qed.

Lemma insert_by_created_at_perm m l :
  Permutation (m :: l) (insert_by_created_at m l).
Proof.
  induction l as [|y l IH]; simpl; [reflexivity|].
  destruct (Qle_bool _ _); [reflexivity|].
  rewrite perm_swap. constructor. exact IH.
Qed.

Lemma order_by_created_at_perm l : Permutation l (order_by_created_at l).
Proof.
  induction l as [|m l IH]; simpl; [constructor|].
  rewrite <- insert_by_created_at_perm. constructor. exact IH.
Qed.

Lemma insert_by_created_at_sorted m l :
  StronglySorted created_le l ->
  StronglySorted created_le (insert_by_created_at m l).
Proof.
  induction 1 as [|y l Hl IH Hy]; simpl.
  - constructor; constructor.
  - destruct (Qle_bool (msg_created_at m) (msg_created_at y)) eqn:E.
    + apply Qle_bool_iff in E. constructor; [constructor; assumption|].
      constructor; [exact E|].
      eapply Forall_impl; [|exact Hy]. intros z Hz. unfold created_le in *.
      eapply Qle_trans; eassumption.
    + apply Qle_bool_false in E. constructor; [exact IH|].
      rewrite <- insert_by_created_at_perm. constructor; assumption.
Qed.

Lemma order_by_created_at_sorted l :
  StronglySorted created_le (order_by_created_at l).
Proof.
  induction l as [|m l IH]; simpl; [constructor|].
  apply insert_by_created_at_sorted. exact IH.
Qed.

Lemma firstn_In A (x : A) n l : In x (firstn n l) -> In x l.
Proof.
  revert l. induction n as [|n IH]; intros [|y l]; simpl; try tauto.
  intros [H|H]; [left; exact H|right; apply IH; exact H].
Qed.

Lemma StronglySorted_firstn A (R : A -> A -> Prop) n l :
  StronglySorted R l -> StronglySorted R (firstn n l).
Proof.
  revert l. induction n as [|n IH]; intros l Hl; simpl; [constructor|].
  destruct l as [|x l]; [constructor|].
  inversion Hl as [|? ? Hs Hf]; subst. constructor; [apply IH; exact Hs|].
  rewrite Forall_forall in *. intros y Hy. apply Hf.
  eapply firstn_In. exact Hy.
Qed.


Lemma get_messages_sorted d cid limit :
  StronglySorted created_le (get_messages d cid limit).
Proof.
  unfold get_messages. apply StronglySorted_firstn.
  apply order_by_created_at_sorted.
Qed.

Lemma get_messages_stored d cid limit m :
  In m (get_messages d cid limit) ->
  In m (messages d) /\ conversation_id m = cid.
Proof.
  unfold get_messages. intros H. apply firstn_In in H.
  apply (Permutation_in _ (Permutation_sym (order_by_created_at_perm _))) in H.
  apply filter_In in H. destruct H as (Hin & Hc).
  split; [exact Hin|]. apply String.eqb_eq. exact Hc.
Qed.

Lemma get_messages_length d cid limit :
  List.length (get_messages d cid limit) = Nat.min limit (_count_messages d cid).
Proof.
  unfold get_messages, _count_messages.
  rewrite length_firstn, <- (Permutation_length (order_by_created_at_perm _)).
  reflexivity.
Qed.

Lemma get_messages_all d cid limit :
  _count_messages d cid <= limit ->
  Permutation (filter (fun m => String.eqb (conversation_id m) cid) (messages d))
              (get_messages d cid limit).
Proof.
  unfold get_messages, _count_messages. intros Hle.
  rewrite firstn_all2; [apply order_by_created_at_perm|].
  rewrite <- (Permutation_length (order_by_created_at_perm _)). exact Hle.
Qed.

(** X8.  [get_messages] returns the conversation's messages oldest first:
    the result is in ascending [created_at] order, holds only stored messages
    of that conversation, has [min(limit, count)] entries, and is the whole
    conversation when the limit allows. *)
Theorem get_messages_oldest_first (d : Database) (cid : string) (limit : nat) :
  StronglySorted created_le (get_messages d cid limit)
  /\ (forall m, In m (get_messages d cid limit) ->
                In m (messages d) /\ conversation_id m = cid)
  /\ List.length (get_messages d cid limit)
     = Nat.min limit (_count_messages d cid)
  /\ (_count_messages d cid <= limit ->
      Permutation (filter (fun m => String.eqb (conversation_id m) cid)
                          (messages d))
                  (get_messages d cid limit)).
Proof.
  split; [apply get_messages_sorted|].
  split; [intros m; apply get_messages_stored|].
  split; [apply get_messages_length|].
  apply get_messages_all.
Qed.

(** ** Writing messages *)

Lemma find_conversation_touched d now cid cid' :
  find_conversation (touch_conversation d now cid') cid = None
  <-> find_conversation d cid = None.
Proof.
  unfold find_conversation, touch_conversation, update_rows. simpl.
  induction (conversations d) as [|r rs IH]; simpl; [tauto|].
  destruct (String.eqb (row_id r) cid'); simpl;
    destruct (String.eqb (row_id r) cid); try exact IH; split; discriminate.
Qed.

Lemma save_message_ok d uuid now now' cid role_ content_ hd dn dt m d' :
  save_message d uuid now now' cid role_ content_ hd dn dt = (Ok m, d') ->
  m = mkMessage uuid cid role_ content_ hd dn dt now
  /\ messages d' = messages d ++ [m]
  /\ d' = touch_conversation
            (mkDb (conversations d) (messages d ++ [m]) (document_cache d)
                  (model_log d)) now' cid
  /\ find_conversation d cid <> None
  /\ ~ In uuid (map msg_id (messages d)).
Proof.
  unfold save_message.
  destruct (existsb _ (messages d)) eqn:Hex; [discriminate|].
  destruct (find_conversation d cid) eqn:Hf; [|discriminate].
  intros [= <- <-]. repeat split; try discriminate.
  intros Hin. apply in_map_iff in Hin. destruct Hin as (x & Hx & Hin).
  assert (existsb (fun m => String.eqb (msg_id m) uuid) (messages d) = true).
  { apply existsb_exists. exists x. split; [exact Hin|].
    apply String.eqb_eq. exact Hx. }
  congruence.
Qed.

Lemma count_messages_app d ms cid :
  List.length (filter (fun m => String.eqb (conversation_id m) cid)
                      (messages d ++ ms))
  = _count_messages d cid
    + List.length (filter (fun m => String.eqb (conversation_id m) cid) ms).
Proof. unfold _count_messages. rewrite filter_app, length_app. reflexivity. Qed.

(** X9.  A message that [save_message] stores is appended with the given
    fields, raises the count of its conversation by one and of no other,
    stamps the conversation's [updated_at] with the second clock reading, and
    is retrievable with [get_messages] as soon as the limit covers the
    conversation. *)
Theorem save_message_is_stored
    (d d' : Database) (uuid cid role_ content_ : string) (now now' : timestamp)
    (hd : bool) (dn dt : option string) (m : Message) :
  save_message d uuid now now' cid role_ content_ hd dn dt = (Ok m, d') ->
  msg_id m = uuid /\ content m = content_ /\ role m = role_
  /\ msg_created_at m = now
  /\ _count_messages d' cid = S (_count_messages d cid)
  /\ (forall c, c <> cid -> _count_messages d' c = _count_messages d c)
  /\ (exists conv, get_conversation d' cid = Some conv
                   /\ conv_updated_at conv = now'
                   /\ message_count conv = S (_count_messages d cid))
  /\ (forall limit, _count_messages d cid < limit ->
                    In m (get_messages d' cid limit)).
Proof.
  intros Hs. destruct (save_message_ok _ _ _ _ _ _ _ _ _ _ _ _ Hs)
    as (Hm & Hmsgs & Hd' & Hfind & _).
  assert (Hcount : forall c,
             _count_messages d' c
             = _count_messages d c + if String.eqb cid c then 1 else 0).
  { intros c. unfold _count_messages at 1. rewrite Hmsgs, count_messages_app.
    f_equal. simpl. rewrite Hm. simpl. rewrite String.eqb_sym.
    destruct (String.eqb c cid); reflexivity. }
  assert (Hcid : _count_messages d' cid = S (_count_messages d cid)).
  { rewrite Hcount, String.eqb_refl. lia. }
  split; [rewrite Hm; reflexivity|]. split; [rewrite Hm; reflexivity|].
  split; [rewrite Hm; reflexivity|]. split; [rewrite Hm; reflexivity|].
  split; [exact Hcid|]. split.
  { intros c Hc. rewrite Hcount.
    destruct (String.eqb_spec cid c); [congruence|lia]. }
  split.
  { unfold get_conversation.
    destruct (find_conversation d' cid) as [r|] eqn:Hf.
    - eexists. split; [reflexivity|]. simpl. split; [|exact Hcid].
      rewrite Hd' in Hf. clear - Hf.
      unfold find_conversation, touch_conversation, update_rows in Hf. simpl in Hf.
      induction (conversations d) as [|x xs IH]; simpl in Hf; [discriminate|].
      destruct (String.eqb (row_id x) cid) eqn:E; simpl in Hf.
      + rewrite E in Hf. injection Hf as <-. reflexivity.
      + rewrite E in Hf. apply IH. exact Hf.
    - exfalso. rewrite Hd' in Hf. apply find_conversation_touched in Hf.
      apply Hfind. exact Hf. }
  intros limit Hlim.
  pose proof (get_messages_all d' cid limit) as Hall.
  apply (Permutation_in _ (Hall ltac:(lia))).
  apply filter_In. split.
  - rewrite Hmsgs. apply in_or_app. right. left. reflexivity.
  - rewrite Hm. simpl. apply String.eqb_refl.
Qed.

Lemma save_message_raise d d' uuid cid role_ content_ now now' hd dn dt e :
  save_message d uuid now now' cid role_ content_ hd dn dt = (Raise e, d') ->
  d' = d.
Proof.
  unfold save_message.
  destruct (existsb _ (messages d)); [intros [= _ <-]; reflexivity|].
  destruct (find_conversation d cid); [discriminate|].
  intros [= _ <-]. reflexivity.
Qed.



(** ** Deleting and updating conversations *)

Lemma filter_filter_neg (cid c : string) (ms : list Message) :
  c <> cid ->
  filter (fun m => String.eqb (conversation_id m) c)
         (filter (fun m => negb (String.eqb (conversation_id m) cid)) ms)
  = filter (fun m => String.eqb (conversation_id m) c) ms.
Proof.
  intros Hc. induction ms as [|m ms IH]; simpl; [reflexivity|].
  destruct (String.eqb_spec (conversation_id m) cid) as [E|E]; simpl.
  - destruct (String.eqb_spec (conversation_id m) c); [congruence|exact IH].
  - destruct (String.eqb (conversation_id m) c); [f_equal|]; exact IH.
Qed.

Lemma filter_docs_filter_neg (cid c : string) (ms : list Message) :
  c <> cid ->
  filter (fun m => String.eqb (conversation_id m) c && has_document m)
         (filter (fun m => negb (String.eqb (conversation_id m) cid)) ms)
  = filter (fun m => String.eqb (conversation_id m) c && has_document m) ms.
Proof.
  intros Hc. induction ms as [|m ms IH]; simpl; [reflexivity|].
  destruct (String.eqb_spec (conversation_id m) cid) as [E|E]; simpl.
  - destruct (String.eqb_spec (conversation_id m) c); [congruence|exact IH].
  - destruct (String.eqb (conversation_id m) c && has_document m);
      [f_equal|]; exact IH.
Qed.

Lemma filter_filter_same (cid : string) (ms : list Message) :
  filter (fun m => String.eqb (conversation_id m) cid)
         (filter (fun m => negb (String.eqb (conversation_id m) cid)) ms) = [].
Proof.
  induction ms as [|m ms IH]; simpl; [reflexivity|].
  destruct (String.eqb (conversation_id m) cid) eqn:E; simpl; [exact IH|].
  rewrite E. exact IH.
Qed.

Lemma find_filter_other (cid c : string) (rows : list ConversationRow) :
  c <> cid ->
  find (fun r => String.eqb (row_id r) c)
       (filter (fun r => negb (String.eqb (row_id r) cid)) rows)
  = find (fun r => String.eqb (row_id r) c) rows.
Proof.
  intros Hc. induction rows as [|r rs IH]; simpl; [reflexivity|].
  destruct (String.eqb_spec (row_id r) cid) as [E|E]; simpl.
  - destruct (String.eqb_spec (row_id r) c); [congruence|exact IH].
  - destruct (String.eqb (row_id r) c); [reflexivity|exact IH].
Qed.

Lemma find_filter_same (cid : string) (rows : list ConversationRow) :
  find (fun r => String.eqb (row_id r) cid)
       (filter (fun r => negb (String.eqb (row_id r) cid)) rows) = None.
Proof.
  induction rows as [|r rs IH]; simpl; [reflexivity|].
  destruct (String.eqb (row_id r) cid) eqn:E; simpl; [exact IH|].
  rewrite E. exact IH.
Qed.

(** X11.  [delete_conversation] answers whether the conversation was there;
    when it was, the conversation and all its messages are gone, every other
    conversation keeps its row and its messages, and the document cache is
    untouched; when it was not, nothing changes. *)
Theorem delete_conversation_cascades (d d' : Database) (cid : string) (b : bool) :
  delete_conversation d cid = (b, d') ->
  (b = true <-> get_conversation d cid <> None)
  /\ (b = false -> d' = d)
  /\ get_conversation d' cid = None
  /\ (forall limit, b = true -> get_messages d' cid limit = [])
  /\ (forall c limit, c <> cid ->
        get_messages d' c limit = get_messages d c limit
        /\ get_conversation d' c = get_conversation d c)
  /\ document_cache d' = document_cache d.
Proof.
  unfold delete_conversation, get_conversation.
  destruct (find_conversation d cid) as [r|] eqn:Hf; intros [= <- <-].
  - split; [split; [discriminate|reflexivity]|].
    split; [discriminate|].
    split.
    { unfold find_conversation. simpl. rewrite find_filter_same. reflexivity. }
    split.
    { intros limit _. unfold get_messages. simpl.
      rewrite filter_filter_same. destruct limit; reflexivity. }
    split; [|reflexivity].
    intros c limit Hc. unfold get_messages, find_conversation, _count_messages,
      _has_documents. simpl.
    rewrite (filter_filter_neg cid c _ Hc), (find_filter_other cid c _ Hc),
      (filter_docs_filter_neg cid c _ Hc).
    split; reflexivity.
  - split; [split; [discriminate|intros H; exfalso; apply H; reflexivity]|].
    split; [reflexivity|].
    rewrite Hf. split; [reflexivity|].
    split; [discriminate|].
    split; [|reflexivity]. intros c limit _. split; reflexivity.
Qed.

Lemma update_rows_no_match f cid rows :
  find (fun r => String.eqb (row_id r) cid) rows = None ->
  update_rows f cid rows = rows.
Proof.
  unfold update_rows. induction rows as [|r rs IH]; simpl; [reflexivity|].
  destruct (String.eqb (row_id r) cid); [discriminate|].
  intros H. rewrite (IH H). reflexivity.
Qed.

Lemma find_update_rows f cid c rows :
  (forall r, row_id (f r) = row_id r) ->
  find (fun r => String.eqb (row_id r) c) (update_rows f cid rows)
  = option_map (fun r => if String.eqb (row_id r) cid then f r else r)
               (find (fun r => String.eqb (row_id r) c) rows).
Proof.
  intros Hf. unfold update_rows.
  induction rows as [|r rs IH]; simpl; [reflexivity|].
  destruct (String.eqb (row_id r) cid) eqn:E.
  - rewrite Hf. destruct (String.eqb (row_id r) c); [simpl; rewrite E|];
      [reflexivity|exact IH].
  - destruct (String.eqb (row_id r) c); [simpl; rewrite E|];
      [reflexivity|exact IH].
Qed.

(** X12.  [update_conversation] on an id that is not there returns nothing
    and leaves the database as it was; on one that is there it returns the
    conversation with the new title and timestamp and its message count
    unchanged, and no other conversation's row changes. *)
Theorem update_conversation_retitles
    (d d' : Database) (now : timestamp) (cid title : string)
    (r : option Conversation) :
  update_conversation d now cid title = (r, d') ->
  (get_conversation d cid = None -> r = None /\ d' = d)
  /\ (forall old, get_conversation d cid = Some old ->
        r = Some (mkConversation cid title (conv_created_at old) now
                                 (message_count old) (has_documents old))
        /\ get_conversation d' cid = r)
  /\ messages d' = messages d
  /\ (forall c, c <> cid -> get_conversation d' c = get_conversation d c).
Proof.
  unfold update_conversation, get_conversation.
  set (f := fun r0 => mkConvRow (row_id r0) title (row_created_at r0) now).
  set (d1 := mkDb (update_rows f cid (conversations d)) (messages d)
                  (document_cache d) (model_log d)).
  assert (Hf : forall r0, row_id (f r0) = row_id r0) by reflexivity.
  assert (Hfind : forall c,
             find_conversation d1 c
             = option_map (fun r0 => if String.eqb (row_id r0) cid then f r0 else r0)
                          (find_conversation d c)).
  { intros c. unfold find_conversation. simpl.
    apply find_update_rows. exact Hf. }
  assert (Hother : forall c, c <> cid ->
             match find_conversation d1 c with
             | Some r0 => Some (mkConversation (row_id r0) (row_title r0)
                                  (row_created_at r0) (row_updated_at r0)
                                  (_count_messages d1 c) (_has_documents d1 c))
             | None => None
             end
             = match find_conversation d c with
               | Some r0 => Some (mkConversation (row_id r0) (row_title r0)
                                    (row_created_at r0) (row_updated_at r0)
                                    (_count_messages d c) (_has_documents d c))
               | None => None
               end).
  { intros c Hc. rewrite (Hfind c).
    destruct (find_conversation d c) as [rc|] eqn:Hrc; [|reflexivity]. simpl.
    assert (Hid : row_id rc = c).
    { unfold find_conversation in Hrc. apply find_some in Hrc.
      apply String.eqb_eq. apply Hrc. }
    destruct (String.eqb_spec (row_id rc) cid); [congruence|]. reflexivity. }
  destruct (find_conversation d cid) as [row|] eqn:Hrow; intros [= <- <-].
  - split; [discriminate|]. split.
    + intros old [= <-].
      rewrite (Hfind cid), Hrow. simpl.
      assert (Hid : row_id row = cid).
      { unfold find_conversation in Hrow. apply find_some in Hrow.
        apply String.eqb_eq. apply Hrow. }
      rewrite Hid, String.eqb_refl. simpl.
      unfold _count_messages, _has_documents. simpl. rewrite ?Hid. auto.
    + split; [reflexivity|]. exact Hother.
  - split.
    + intros _. split; [reflexivity|]. unfold d1.
      rewrite (update_rows_no_match _ _ _ Hrow). destruct d; reflexivity.
    + split; [discriminate|]. split; [reflexivity|]. exact Hother.
Qed.


(** ** Referential integrity *)

Lemma find_conversation_app_keeps d rows c :
  find_conversation d c <> None ->
  find (fun r => String.eqb (row_id r) c) (conversations d ++ rows) <> None.
Proof.
  unfold find_conversation.
  destruct (find _ (conversations d)) as [r|] eqn:Hf; [|intros H; contradiction].
  intros _. rewrite (find_app_some _ _ _ rows _ Hf). discriminate.
Qed.

(** X13.  Every write keeps the foreign key of [messages]: if each stored
    message belongs to a stored conversation, the same holds after
    [create_conversation], [save_message], [update_conversation],
    [touch_conversation] and [delete_conversation], whatever they return. *)
Theorem writes_keep_foreign_keys (d : Database) :
  foreign_keys_ok d ->
  (forall uuid now title r d',
      create_conversation d uuid now title = (r, d') -> foreign_keys_ok d')
  /\ (forall uuid now now' cid role_ content_ hd dn dt r d',
        save_message d uuid now now' cid role_ content_ hd dn dt = (r, d') ->
        foreign_keys_ok d')
  /\ (forall now cid title r d',
        update_conversation d now cid title = (r, d') -> foreign_keys_ok d')
  /\ (forall now cid, foreign_keys_ok (touch_conversation d now cid))
  /\ (forall cid b d',
        delete_conversation d cid = (b, d') -> foreign_keys_ok d').
Proof.
  intros Hfk.
  assert (Htouch : forall d0 now cid,
             foreign_keys_ok d0 -> foreign_keys_ok (touch_conversation d0 now cid)).
  { intros d0 now cid H0 m Hin Hnone.
    apply find_conversation_touched in Hnone. exact (H0 m Hin Hnone). }
  split; [|split; [|split; [|split]]].
  - intros uuid now title r d'. unfold create_conversation.
    destruct (find_conversation d uuid); intros [= _ <-]; [exact Hfk|].
    intros m Hin. unfold find_conversation. simpl.
    apply find_conversation_app_keeps. exact (Hfk m Hin).
  - intros uuid now now' cid role_ content_ hd dn dt r d' Hs.
    destruct r as [m|e].
    + destruct (save_message_ok _ _ _ _ _ _ _ _ _ _ _ _ Hs)
        as (Hm & _ & -> & Hfind & _).
      apply Htouch. intros x Hin. simpl in Hin.
      apply in_app_or in Hin. destruct Hin as [Hin|[<-|[]]].
      * exact (Hfk x Hin).
      * rewrite Hm. simpl. exact Hfind.
    + rewrite (save_message_raise _ _ _ _ _ _ _ _ _ _ _ _ Hs). exact Hfk.
  - intros now cid title r d'. unfold update_conversation.
    set (f := fun r0 => mkConvRow (row_id r0) title (row_created_at r0) now).
    assert (Hd : forall d0,
               conversations d0 = update_rows f cid (conversations d) ->
               messages d0 = messages d -> foreign_keys_ok d0).
    { intros d0 Hc Hm x Hin. rewrite Hm in Hin. specialize (Hfk x Hin).
      unfold find_conversation in *. rewrite Hc.
      rewrite find_update_rows by reflexivity.
      destruct (find _ (conversations d)); [discriminate|contradiction]. }
    destruct (find_conversation d cid); intros [= _ <-]; apply Hd; reflexivity.
  - intros now cid. apply Htouch. exact Hfk.
  - intros cid b d'. unfold delete_conversation.
    destruct (find_conversation d cid); intros [= _ <-]; [|exact Hfk].
    intros x Hin. simpl in Hin. apply filter_In in Hin.
    destruct Hin as (Hin & Hneq). apply negb_true_iff in Hneq.
    apply String.eqb_neq in Hneq.
    unfold find_conversation. simpl.
    rewrite (find_filter_other cid (conversation_id x) _ Hneq).
    exact (Hfk x Hin).
Qed.

(** X14.  A conversation that [create_conversation] has made is returned by
    [get_conversation] exactly as it was returned to the creator, with no
    messages and no documents; an id that is taken is refused and nothing
    changes. *)
Theorem create_conversation_round_trip
    (d d' : Database) (uuid title : string) (now : timestamp)
    (r : result Conversation) :
  foreign_keys_ok d ->
  create_conversation d uuid now title = (r, d') ->
  (get_conversation d uuid = None ->
   r = Ok (mkConversation uuid title now now 0 false)
   /\ get_conversation d' uuid = Some (mkConversation uuid title now now 0 false)
   /\ get_conversations_count d' = S (get_conversations_count d))
  /\ (get_conversation d uuid <> None -> d' = d /\ exists e, r = Raise e).
Proof.
  intros Hfk. unfold create_conversation, get_conversation.
  destruct (find_conversation d uuid) as [row|] eqn:Hrow; intros [= <- <-].
  - split; [discriminate|]. intros _. split; [reflexivity|]. eauto.
  - split; [|intros H; exfalso; apply H; reflexivity].
    intros _. split; [reflexivity|].
    assert (Hnone : filter (fun m => String.eqb (conversation_id m) uuid)
                           (messages d) = []).
    { destruct (filter _ (messages d)) as [|m ms] eqn:Hflt; [reflexivity|].
      exfalso. assert (Hin : In m (filter
                                     (fun m => String.eqb (conversation_id m) uuid)
                                     (messages d)))
        by (rewrite Hflt; left; reflexivity).
      apply filter_In in Hin. destruct Hin as (Hin & Heq).
      apply String.eqb_eq in Heq. apply (Hfk m Hin). rewrite Heq. exact Hrow. }
    assert (Hdocs : filter (fun m => String.eqb (conversation_id m) uuid
                                     && has_document m) (messages d) = []).
    { clear - Hnone. induction (messages d) as [|m ms IH]; [reflexivity|].
      simpl in *. destruct (String.eqb (conversation_id m) uuid);
        [discriminate|]. simpl. apply IH. exact Hnone. }
    split.
    + unfold find_conversation in *. simpl.
      rewrite (find_app_none _ _ _ _ Hrow). simpl. rewrite String.eqb_refl.
      unfold _count_messages, _has_documents. simpl. rewrite Hnone, Hdocs.
      reflexivity.
    + unfold get_conversations_count. simpl. rewrite length_app. simpl. lia.
Qed.

(** ** The document cache *)


(** X16.  A cached document is never replaced: [cache_document] for a hash
    that is already cached raises and leaves the database as it was, so the
    lookup keeps returning the first record. *)
Theorem cached_document_is_never_replaced
    (d : Database) (uuid h name text method : string) (now : timestamp)
    (md : metadata_t) (c : CachedDocument) :
  get_cached_document d h = Some c ->
  exists e,
    cache_document d uuid now h name text method md = (Raise e, d)
    /\ get_cached_document
         (snd (cache_document d uuid now h name text method md)) h = Some c.
Proof.
  intros Hc. unfold cache_document.
  assert (Hex : existsb (fun r => String.eqb (drow_file_hash r) h)
                        (document_cache d) = true).
  { unfold get_cached_document in Hc.
    destruct (find _ (document_cache d)) as [r|] eqn:Hf; [|discriminate].
    apply find_some in Hf. apply existsb_exists. eauto. }
  rewrite Hex. eexists. split; [reflexivity|exact Hc].
Qed.


(** ** Config *)

Lemma find_map_upsert key value now k (c : list ConfigRow) :
  find (fun r => String.eqb (cfg_key r) k)
       (map (fun r => if String.eqb (cfg_key r) key
                      then mkConfigRow key value now else r) c)
  = option_map (fun r => if String.eqb (cfg_key r) key
                         then mkConfigRow key value now else r)
               (find (fun r => String.eqb (cfg_key r) k) c).
Proof.
  induction c as [|r rs IH]; simpl; [reflexivity|].
  destruct (String.eqb_spec (cfg_key r) key) as [E|E]; simpl.
  - rewrite E. destruct (String.eqb key k) eqn:Ek; [|exact IH].
    simpl. rewrite E, String.eqb_refl. reflexivity.
  - destruct (String.eqb (cfg_key r) k) eqn:Ek; [|exact IH].
    simpl. destruct (String.eqb_spec (cfg_key r) key); [contradiction|reflexivity].
Qed.

(** X17.  [set_config] is an upsert: the key reads back the value just
    written, every other key reads as before, a key that was present keeps
    its single row and a new key adds exactly one, and keys stay distinct. *)
Theorem set_config_upserts
    (c : list ConfigRow) (now : timestamp) (key value : string) :
  get_config (set_config c now key value) key = Some value
  /\ (forall k, k <> key ->
                get_config (set_config c now key value) k = get_config c k)
  /\ List.length (set_config c now key value)
     = match get_config c key with
       | Some _ => List.length c
       | None => S (List.length c)
       end
  /\ (NoDup (map cfg_key c) -> NoDup (map cfg_key (set_config c now key value))).
Proof.
  unfold get_config, set_config.
  destruct (existsb (fun r => String.eqb (cfg_key r) key) c) eqn:Hex.
  - assert (Hsome : exists r, find (fun r => String.eqb (cfg_key r) key) c = Some r
                              /\ cfg_key r = key).
    { destruct (find (fun r => String.eqb (cfg_key r) key) c) as [r|] eqn:Hf.
      - exists r. split; [reflexivity|]. apply find_some in Hf.
        apply String.eqb_eq. apply Hf.
      - exfalso. apply existsb_exists in Hex. destruct Hex as (x & Hin & Hx).
        pose proof (find_none _ _ Hf x Hin) as Hn. simpl in Hn. congruence. }
    destruct Hsome as (r & Hf & Hk).
    split; [|split; [|split]].
    + rewrite find_map_upsert, Hf. simpl. rewrite Hk, String.eqb_refl. reflexivity.
    + intros k Hkk. rewrite find_map_upsert.
      destruct (find (fun r0 => String.eqb (cfg_key r0) k) c) as [rk|] eqn:Hfk;
        [|reflexivity].
      simpl. apply find_some in Hfk. destruct Hfk as (_ & Hfk).
      apply String.eqb_eq in Hfk.
      destruct (String.eqb_spec (cfg_key rk) key); [congruence|reflexivity].
    + rewrite Hf. simpl. apply length_map.
    + intros Hnd. rewrite map_map.
      assert (Hsame : map (fun x => cfg_key (if String.eqb (cfg_key x) key
                                             then mkConfigRow key value now else x)) c
                      = map cfg_key c).
      { apply map_ext. intros x.
        destruct (String.eqb_spec (cfg_key x) key) as [E|E]; simpl; congruence. }
      rewrite Hsame. exact Hnd.
  - assert (Hnone : find (fun r => String.eqb (cfg_key r) key) c = None).
    { destruct (find (fun r => String.eqb (cfg_key r) key) c) as [r|] eqn:Hf;
        [|reflexivity].
      apply find_some in Hf.
      assert (existsb (fun r => String.eqb (cfg_key r) key) c = true)
        by (apply existsb_exists; eauto).
      congruence. }
    split; [|split; [|split]].
    + rewrite (find_app_none _ _ _ _ Hnone). simpl. rewrite String.eqb_refl.
      reflexivity.
    + intros k Hkk.
      destruct (find (fun r0 => String.eqb (cfg_key r0) k) c) as [rk|] eqn:Hfk.
      * rewrite (find_app_some _ _ _ _ _ Hfk). reflexivity.
      * rewrite (find_app_none _ _ _ _ Hfk). simpl.
        destruct (String.eqb_spec key k); [congruence|reflexivity].
    + rewrite Hnone. simpl. rewrite length_app. simpl. lia.
    + intros Hnd. rewrite map_app. simpl.
      apply NoDup_app; [exact Hnd|repeat constructor; intros []|].
      intros x Hx [<-|[]]. apply in_map_iff in Hx. destruct Hx as (r & Hr & Hin).
      pose proof (find_none _ _ Hnone r Hin) as Hn. simpl in Hn.
      apply String.eqb_neq in Hn. contradiction.
Qed.

(** ** Listing conversations *)

Lemma insert_by_updated_at_perm r l :
  Permutation (r :: l) (insert_by_updated_at r l).
Proof.
  induction l as [|y l IH]; simpl; [reflexivity|].
  destruct (Qle_bool _ _); [reflexivity|].
  rewrite perm_swap. constructor. exact IH.
Qed.

Lemma order_by_updated_at_perm l : Permutation l (order_by_updated_at l).
Proof.
  induction l as [|r l IH]; simpl; [constructor|].
  rewrite <- insert_by_updated_at_perm. constructor. exact IH.
Qed.

Lemma insert_by_updated_at_sorted r l :
  StronglySorted row_updated_ge l ->
  StronglySorted row_updated_ge (insert_by_updated_at r l).
Proof.
  induction 1 as [|y l Hl IH Hy]; simpl.
  - constructor; constructor.
  - destruct (Qle_bool (row_updated_at y) (row_updated_at r)) eqn:E.
    + apply Qle_bool_iff in E. constructor; [constructor; assumption|].
      constructor; [exact E|].
      eapply Forall_impl; [|exact Hy]. intros z Hz. unfold row_updated_ge in *.
      eapply Qle_trans; eassumption.
    + apply Qle_bool_false in E. constructor; [exact IH|].
      rewrite <- insert_by_updated_at_perm. constructor; assumption.
Qed.

Lemma order_by_updated_at_sorted l :
  StronglySorted row_updated_ge (order_by_updated_at l).
Proof.
  induction l as [|r l IH]; simpl; [constructor|].
  apply insert_by_updated_at_sorted. exact IH.
Qed.

Lemma StronglySorted_map A B (f : A -> B) (R : A -> A -> Prop)
    (S : B -> B -> Prop) l :
  (forall a b, R a b -> S (f a) (f b)) ->
  StronglySorted R l -> StronglySorted S (map f l).
Proof.
  intros HRS. induction 1 as [|x l Hl IH Hx]; simpl; constructor; [exact IH|].
  rewrite Forall_forall in *. intros y Hy. apply in_map_iff in Hy.
  destruct Hy as (z & <- & Hz). apply HRS. apply Hx. exact Hz.
Qed.

(** X18.  [list_conversations] lists every stored conversation once, most
    recently updated first, each with the message count and document flag
    that [get_conversation] would compute for it. *)
Theorem list_conversations_recent_first (d : Database) :
  StronglySorted updated_ge (list_conversations d)
  /\ Permutation (map row_id (conversations d))
                 (map conv_id (list_conversations d))
  /\ List.length (list_conversations d) = get_conversations_count d
  /\ (forall c, In c (list_conversations d) ->
                message_count c = _count_messages d (conv_id c)
                /\ has_documents c = _has_documents d (conv_id c))
  /\ (forall c, In c (list_conversations d) ->
                NoDup (map row_id (conversations d)) ->
                get_conversation d (conv_id c) = Some c).
Proof.
  unfold list_conversations.
  pose proof (order_by_updated_at_perm (conversations d)) as Hperm.
  split; [|split; [|split; [|split]]].
  - apply (StronglySorted_map _ _ _ row_updated_ge);
      [intros a b H; exact H|apply order_by_updated_at_sorted].
  - rewrite map_map. simpl. apply Permutation_map. exact Hperm.
  - rewrite length_map. unfold get_conversations_count.
    symmetry. apply Permutation_length. exact Hperm.
  - intros c Hc. apply in_map_iff in Hc. destruct Hc as (r & <- & _).
    simpl. auto.
  - intros c Hc Hnd. apply in_map_iff in Hc. destruct Hc as (r & <- & Hr).
    apply (Permutation_in _ (Permutation_sym Hperm)) in Hr. simpl.
    unfold get_conversation, find_conversation.
    assert (Hfind : find (fun r0 => String.eqb (row_id r0) (row_id r))
                         (conversations d) = Some r).
    { clear Hperm. induction (conversations d) as [|x xs IH]; [destruct Hr|].
      simpl in *. inversion Hnd as [|? ? Hnotin Hnd']; subst.
      destruct Hr as [->|Hr].
      - rewrite String.eqb_refl. reflexivity.
      - destruct (String.eqb_spec (row_id x) (row_id r)) as [E|E].
        + exfalso. apply Hnotin. rewrite E. apply in_map. exact Hr.
        + apply IH; assumption. }
    rewrite Hfind. reflexivity.
Qed.

End Storage.

Lemma save_message_is_stored_witness :
  exists m d',
    Database.save_message (Main.db (Fixtures.chat_world 3)) "uuid-0" (12 # 1)%Q
      (13 # 1)%Q "c1" "user" "hello" false None None = (Ok m, d')
    /\ Database._count_messages d' "c1" = 4.
Proof.
  eassert (H : Database.save_message (Main.db (Fixtures.chat_world 3)) "uuid-0"
                 (12 # 1)%Q (13 # 1)%Q "c1" "user" "hello" false None None
               = (Ok _, _)) by (vm_compute; reflexivity).
  destruct (save_message_is_stored _ _ _ _ _ _ _ _ _ _ _ _ H)
    as (_ & _ & _ & _ & Hc & _).
  eexists. eexists. split; [exact H | exact Hc].
Defined.


Lemma delete_conversation_cascades_witness :
  exists d',
    Database.delete_conversation (Main.db (Fixtures.chat_world 3)) "c1" = (true, d')
    /\ Database.get_conversation d' "c1" = None.
Proof.
  eassert (H : Database.delete_conversation (Main.db (Fixtures.chat_world 3)) "c1"
               = (true, _)) by (vm_compute; reflexivity).
  destruct (delete_conversation_cascades _ _ _ _ H) as (_ & _ & Hg & _).
  eexists. split; [exact H | exact Hg].
Defined.

Lemma update_conversation_retitles_witness :
  exists r d',
    Database.update_conversation (Main.db (Fixtures.chat_world 3)) (20 # 1)%Q
                                 "c1" "Renamed" = (r, d')
    /\ Database.messages d' = Database.messages (Main.db (Fixtures.chat_world 3)).
Proof.
  eassert (H : Database.update_conversation (Main.db (Fixtures.chat_world 3))
                 (20 # 1)%Q "c1" "Renamed" = (_, _)) by (vm_compute; reflexivity).
  destruct (update_conversation_retitles _ _ _ _ _ _ H) as (_ & _ & Hm & _).
  eexists. eexists. split; [exact H | exact Hm].
Defined.

Lemma chat_world_foreign_keys_ok :
  Database.foreign_keys_ok (Main.db (Fixtures.chat_world 3)).
Proof.
  intros m Hin. simpl in Hin.
  repeat (destruct Hin as [<-|Hin]; [vm_compute; discriminate|]).
  destruct Hin.
Qed.

Lemma writes_keep_foreign_keys_witness :
  Database.foreign_keys_ok
    (snd (Database.delete_conversation (Main.db (Fixtures.chat_world 3)) "c1")).
Proof.
  destruct (writes_keep_foreign_keys _ chat_world_foreign_keys_ok)
    as (_ & _ & _ & _ & Hdel).
  destruct (Database.delete_conversation (Main.db (Fixtures.chat_world 3)) "c1")
    as [b d'] eqn:H.
  exact (Hdel _ _ _ H).
Defined.

Lemma create_conversation_round_trip_witness :
  exists r d',
    Database.create_conversation (Main.db (Fixtures.chat_world 3)) "c2" (20 # 1)%Q
                                 "Second" = (r, d')
    /\ Database.get_conversation d' "c2"
       = Some (Database.mkConversation "c2" "Second" (20 # 1)%Q (20 # 1)%Q 0 false).
Proof.
  eassert (H : Database.create_conversation (Main.db (Fixtures.chat_world 3)) "c2"
                 (20 # 1)%Q "Second" = (_, _)) by (vm_compute; reflexivity).
  destruct (create_conversation_round_trip _ _ _ _ _ _
              chat_world_foreign_keys_ok H) as (Hnew & _).
  destruct (Hnew eq_refl) as (_ & Hg & _).
  eexists. eexists. split; [exact H | exact Hg].
Defined.


Lemma cached_document_is_never_replaced_witness :
  let d := snd (Database.cache_document Database.empty_db "uuid-0" (3 # 1)%Q
                  "sha256:hello" "a.txt" "hello" "plaintext" []) in
  exists e,
    Database.cache_document d "uuid-1" (4 # 1)%Q "sha256:hello" "b.txt" "other"
                            "plaintext" [] = (Raise e, d).
Proof.
  intros d.
  eassert (Hc : Database.get_cached_document d "sha256:hello" = Some _)
    by (vm_compute; reflexivity).
  destruct (cached_document_is_never_replaced d "uuid-1" "sha256:hello" "b.txt"
              "other" "plaintext" (4 # 1)%Q [] _ Hc) as (e & He & _).
  exists e. exact He.
Defined.

(* ===================================================================== *)
(** * Further properties of the request handlers                           *)
(* ===================================================================== *)

Section Filenames.
Import Main.

Lemma list_ascii_of_string_app (a b : string) :
  list_ascii_of_string (a ++ b) = list_ascii_of_string a ++ list_ascii_of_string b.
Proof. induction a as [|c a IH]; simpl; [reflexivity|]. now rewrite IH. Qed.

Lemma after_last_app (c : ascii) (l1 l2 : list ascii) :
  existsb (Ascii.eqb c) l2 = false ->
  after_last c (l1 ++ c :: l2) = l2.
Proof.
  intros Hl2. induction l1 as [|x l1 IH]; simpl.
  - rewrite Ascii.eqb_refl, Hl2. reflexivity.
  - assert (Hex : existsb (Ascii.eqb c) (l1 ++ c :: l2) = true).
    { rewrite existsb_app. simpl. rewrite Ascii.eqb_refl.
      apply orb_true_iff. right. reflexivity. }
    rewrite Hex. destruct (Ascii.eqb x c); exact IH.
Qed.

Lemma after_last_none (c : ascii) (l : list ascii) :
  existsb (Ascii.eqb c) l = false -> after_last c l = l.
Proof.
  destruct l as [|x l]; simpl; [reflexivity|].
  intros H. apply orb_false_iff in H. destruct H as (Hx & Hl).
  rewrite Hl, Ascii.eqb_sym, Hx. reflexivity.
Qed.

Lemma lower_char_not_dot (c : ascii) :
  Ascii.eqb "."%char c = false -> Ascii.eqb "."%char (lower_char c) = false.
Proof.
  destruct c as [[] [] [] [] [] [] [] []]; intros Hc;
    first [exact Hc | vm_compute; reflexivity].
Qed.

Lemma lower_char_idempotent (c : ascii) : lower_char (lower_char c) = lower_char c.
Proof. destruct c as [[] [] [] [] [] [] [] []]; vm_compute; reflexivity. Qed.

(** X19.  The extension of an upload is the text after the last dot of the
    filename, lowercased, and empty for a filename with no dot: a name
    [base.ext] whose [ext] has no dot gives [ext] in lowercase, so [x.PDF]
    and [x.pdf] take the same route. *)
Theorem file_ext_is_lowercased_suffix (base ext : string) :
  contains_char "."%char ext = false ->
  file_ext_of (base ++ "." ++ ext) = lower ext
  /\ file_ext_of ext = ""
  /\ file_ext_of (base ++ "." ++ ext) = file_ext_of (base ++ "." ++ lower ext).
Proof.
  intros Hext.
  assert (Hdot : forall e, contains_char "."%char e = false ->
                           file_ext_of (base ++ "." ++ e) = lower e).
  { intros e He. unfold file_ext_of, contains_char, rsplit1_last in *.
    rewrite list_ascii_of_string_app. simpl.
    rewrite existsb_app. simpl. rewrite orb_true_r.
    rewrite (after_last_app _ _ _ He).
    rewrite string_of_list_ascii_of_string. reflexivity. }
  split; [apply Hdot; exact Hext|].
  split; [unfold file_ext_of; rewrite Hext; reflexivity|].
  rewrite (Hdot _ Hext). rewrite Hdot.
  - unfold lower. rewrite list_ascii_of_string_of_list_ascii, map_map.
    f_equal. apply map_ext. intros c. symmetry. apply lower_char_idempotent.
  - unfold contains_char, lower in *.
    rewrite list_ascii_of_string_of_list_ascii.
    clear - Hext. induction (list_ascii_of_string ext) as [|c l IH];
      [reflexivity|].
    cbn [existsb map] in *. apply orb_false_iff in Hext.
    destruct Hext as (Hc & Hl).
    rewrite (IH Hl), orb_false_r. apply lower_char_not_dot. exact Hc.
Qed.

Lemma file_ext_is_lowercased_suffix_witness :
  Main.file_ext_of "Quarterly.Report.PDF" = "pdf".
Proof.
  destruct (file_ext_is_lowercased_suffix "Quarterly.Report" "PDF" eq_refl)
    as (H & _).
  exact H.
Defined.

End Filenames.

Section Relay.
Import Models Database Main.
Local Open Scope m_scope.

Variable L : Libs.

Lemma substring_whole (s : string) : substring 0 (String.length s) s = s.
Proof. induction s as [|c s IH]; simpl; [reflexivity|]. now rewrite IH. Qed.

(** A line [data: ] followed by a payload is read as that payload. *)
Lemma data_line_payload (data : string) :
  startswith "data: " ("data: " ++ data) = true
  /\ slice_from 6 ("data: " ++ data) = data.
Proof.
  split.
  - unfold startswith. simpl.
    repeat (match goal with
            | |- context [ascii_dec ?a ?b] => destruct (ascii_dec a b);
                                              [|congruence]
            end).
    destruct data; reflexivity.
  - unfold slice_from. simpl. rewrite Nat.sub_0_r. apply substring_whole.
Qed.

Lemma append_assoc (a b c : string) : ((a ++ b) ++ c = a ++ (b ++ c))%string.
Proof. induction a as [|x a IH]; simpl; [reflexivity|]. now rewrite IH. Qed.

Lemma append_empty_r (a : string) : (a ++ "" = a)%string.
Proof. induction a as [|x a IH]; simpl; [reflexivity|]. now rewrite IH. Qed.

(** The accumulator of the relay loop is the text of the tokens yielded. *)
Lemma relay_accumulates lines ending full n evs full' n' :
  relay L lines ending full n = (evs, Ok (full', n')) ->
  full' = (full ++ token_text evs)%string.
Proof.
  revert full n evs.
  induction lines as [|line rest IH]; intros full n evs; cbn [relay].
  - destruct ending; intros [= <- <-]. simpl. symmetry. apply append_empty_r.
  - destruct (line_action L line) as [| |tok|e].
    + apply IH.
    + intros [= <- <-]. simpl. symmetry. apply append_empty_r.
    + destruct (relay L rest ending (full ++ tok) (S n)) as [evs' out'] eqn:Hr.
      intros [= <- ->]. rewrite (IH _ _ _ Hr). simpl. apply append_assoc.
    + discriminate.
Qed.

(** X20.  Nothing after the end marker is relayed: once a line is the
    [DONE] marker (after [data: ], up to surrounding whitespace), the loop
    stops, and neither the lines that follow nor a later failure of the
    transport changes the tokens emitted or the accumulated reply. *)
Theorem relay_stops_at_done_marker
    (pre post : list string) (line : string) (ending : option exn)
    (full : string) (n : nat) :
  startswith "data: " line = true ->
  strip (slice_from 6 line) = "[DONE]" ->
  line_action L line = Break
  /\ relay L (pre ++ line :: post) ending full n
     = relay L (pre ++ [line]) None full n.
Proof.
  intros Hs Hd.
  assert (Hb : line_action L line = Break).
  { unfold line_action. rewrite Hs, Hd. reflexivity. }
  split; [exact Hb|].
  revert full n. induction pre as [|p pre IH]; intros full n; cbn [app relay].
  - rewrite Hb. reflexivity.
  - destruct (line_action L p); try reflexivity; try apply IH.
    rewrite IH. reflexivity.
Qed.

(** X21.  The relay tolerates missing keys but not an empty choice list: a
    chunk with no [choices], or whose first choice has no [delta] or no
    [content], is skipped without a token, while a chunk whose [choices] is
    an empty list raises [IndexError], which ends the stream with an Error
    event. *)
Theorem relay_chunk_shapes
    (data : string) (d : list (string * pyval)) (rest : list string)
    (ending : option exn) (full : string) (n : nat) :
  strip data <> "[DONE]" ->
  json_loads L data = Some (PDict d) ->
  (dict_get "choices" d = None ->
   line_action L ("data: " ++ data) = Continue)
  /\ (forall c others,
        dict_get "choices" d = Some (PList (PDict c :: others)) ->
        dict_get "delta" c = None ->
        line_action L ("data: " ++ data) = Continue)
  /\ (dict_get "choices" d = Some (PList []) ->
      line_action L ("data: " ++ data)
      = Fails (Exception "IndexError" "list index out of range")
      /\ relay L (("data: " ++ data)%string :: rest) ending full n
         = ([], Raise (Exception "IndexError" "list index out of range"))
      /\ error_content (Exception "IndexError" "list index out of range")
         = "Error during generation: list index out of range").
Proof.
  intros Hnd Hj.
  destruct (data_line_payload data) as (Hs & Hp).
  assert (Hla : line_action L ("data: " ++ data)
                = match delta_content (PDict d) with
                  | Raise e => Fails e
                  | Ok token =>
                      if truthy token then
                        match token with
                        | PStr s => Yield s
                        | _ => Fails (Exception "TypeError"
                                        ("can only concatenate str (not "
                                         ++ dq ++ type_name token ++ dq
                                         ++ ") to str"))
                        end
                      else Continue
                  end).
  { unfold line_action. rewrite Hs, Hp, Hj.
    destruct (String.eqb_spec (strip data) "[DONE]"); [contradiction|].
    reflexivity. }
  split; [|split].
  - intros Hc. rewrite Hla. unfold delta_content. simpl. rewrite Hc. reflexivity.
  - intros c others Hc Hdelta. rewrite Hla. unfold delta_content. simpl.
    rewrite Hc. simpl. rewrite Hdelta. reflexivity.
  - intros Hc.
    assert (Hf : line_action L ("data: " ++ data)
                 = Fails (Exception "IndexError" "list index out of range")).
    { rewrite Hla. unfold delta_content. simpl. rewrite Hc. reflexivity. }
    split; [exact Hf|]. split; [|reflexivity].
    cbn [relay]. rewrite Hf. reflexivity.
Qed.

End Relay.

Lemma relay_stops_at_done_marker_witness :
  Main.relay Fixtures.demo_libs
        ["data: [DONE] "; ("data: " ++ Fixtures.chunk_json "Hello")%string]
        (Some (ConnectError "reset")) "" 0
  = ([], Ok ("", 0)).
Proof.
  destruct (relay_stops_at_done_marker Fixtures.demo_libs []
              [("data: " ++ Fixtures.chunk_json "Hello")%string]
              "data: [DONE] " (Some (ConnectError "reset")) "" 0 eq_refl eq_refl)
    as (_ & H).
  exact (eq_trans H eq_refl).
Defined.

Lemma relay_chunk_shapes_witness :
  Main.relay Fixtures.usage_libs
        [("data: " ++ Fixtures.usage_chunk_json)%string; "data: [DONE]"] None "" 0
  = ([], Raise (Exception "IndexError" "list index out of range")).
Proof.
  assert (Hnd : strip Fixtures.usage_chunk_json <> "[DONE]")
    by (vm_compute; discriminate).
  destruct (relay_chunk_shapes Fixtures.usage_libs Fixtures.usage_chunk_json
              [("choices", PList [])] ["data: [DONE]"] None "" 0 Hnd eq_refl)
    as (_ & _ & H).
  destruct (H eq_refl) as (_ & Hr & _). exact Hr.
Defined.

Section ChatStorage.
Import Models Database Main.
Local Open Scope m_scope.

Variable L : Libs.

Lemma chat_prepare_raise (request : ChatRequest) (w w' : World) (e : exn) :
  chat_prepare L request w = (Raise e, w') ->
  db w' = db w /\ llama w' = llama w.
Proof.
  unfold chat_prepare, bind at 1, get_db at 1. simpl.
  destruct (get_conversation (db w) (req_conversation_id request)) as [conv|].
  - unfold bind at 1, get_llama at 1. simpl.
    destruct (is_running (llama w)); simpl.
    + unfold bind at 1.
      unfold db_save_message at 1, bind, new_uuid, time_time, get_db, put_db, lift.
      simpl.
      destruct (save_message _ _ _ _ _ _ _ _ _ _) as [[m|e0] d'] eqn:Hs; simpl.
      * discriminate.
      * intros [= <- <-]. simpl.
        rewrite (save_message_raise _ _ _ _ _ _ _ _ _ _ _ _ Hs).
        auto.
    + intros [= <- <-]. auto.
  - intros [= <- <-]. auto.
Qed.

(** X22.  A chat that the handler refuses stores nothing: a missing
    conversation is a 404 and a stopped engine a 503, in that order, both
    before the user's message is saved; and whenever [chat] raises at all,
    the database is as it was. *)
Theorem chat_refusal_stores_nothing
    (request : ChatRequest) (net : ChatNet) (w : World) :
  (get_conversation (db w) (req_conversation_id request) = None ->
   chat L request net w
   = (Raise (HTTPException 404 "Conversation not found"), w))
  /\ (get_conversation (db w) (req_conversation_id request) <> None ->
      is_running (llama w) = false ->
      chat L request net w
      = (Raise (HTTPException 503 "Falcon3-7B is not running. Start it first."),
         w))
  /\ (forall e w', chat L request net w = (Raise e, w') ->
                   db w' = db w /\ llama w' = llama w).
Proof.
  split; [|split].
  - intros Hn. unfold chat, chat_prepare, bind at 1, get_db at 1. simpl.
    rewrite Hn. reflexivity.
  - intros Hs Hr. unfold chat, chat_prepare, bind at 1, get_db at 1. simpl.
    destruct (get_conversation (db w) (req_conversation_id request));
      [|contradiction].
    unfold bind at 1, get_llama at 1. simpl. rewrite Hr. reflexivity.
  - intros e w'. unfold chat.
    destruct (chat_prepare L request w) as [[plan|e0] w1] eqn:Hp.
    + destruct (stream_response _ _ _ _ _) as [[evs r] w'']. discriminate.
    + intros [= <- <-]. exact (chat_prepare_raise _ _ _ _ Hp).
Qed.

(** X23.  The completion request opens with one system entry, the
    caller's prompt when one is given and not empty and the fixed default
    persona otherwise, followed by at most 20 stored messages of the
    conversation in chronological order; while the conversation held fewer
    than 20 messages before this turn, the user's new message is among
    them. *)
Theorem chat_request_window
    (request : ChatRequest) (w w1 : World) (plan : ChatPlan) :
  chat_prepare L request w = (Ok plan, w1) ->
  let cid := req_conversation_id request in
  exists history,
    request_messages plan
    = system_entry request
      :: map (fun h => mkChatMessage (role h) (content h)) history
    /\ cm_role (system_entry request) = "system"
    /\ (forall p, system_prompt request = Some p -> p <> "" ->
                  cm_content (system_entry request) = p)
    /\ (system_prompt request = None \/ system_prompt request = Some "" ->
        cm_content (system_entry request)
        = "You are a helpful, concise AI assistant running locally on the user's machine via Fractionate Edge. You help with questions, document analysis, and general tasks.")
    /\ List.length history <= 20
    /\ StronglySorted created_le history
    /\ (forall h, In h history -> In h (messages (db w1))
                                  /\ conversation_id h = cid)
    /\ (_count_messages (db w) cid < 20 ->
        In (mkChatMessage "user" (req_message request)) (request_messages plan)).
Proof.
  intros Hp cid.
  destruct (chat_prepare_ok L _ _ _ _ Hp)
    as (conv & _ & _ & Hmsgs & _ & _ & _ & Hplan).
  fold cid in Hmsgs, Hplan.
  exists (get_messages (db w1) cid 20).
  pose proof (get_messages_sorted (db w1) cid 20) as Hsorted.
  pose proof (fun h => get_messages_stored (db w1) cid 20 h) as Hin.
  pose proof (get_messages_length (db w1) cid 20) as Hlen.
  pose proof (get_messages_all (db w1) cid 20) as Hall.
  split; [rewrite Hplan; reflexivity|].
  split; [unfold system_entry; destruct (system_prompt request) as [p|];
          [destruct (nonempty p)|]; reflexivity|].
  split.
  { intros p Hsp Hne. unfold system_entry. rewrite Hsp.
    unfold nonempty. destruct (String.eqb_spec p ""); [contradiction|reflexivity]. }
  split.
  { intros [Hsp|Hsp]; unfold system_entry; rewrite Hsp; reflexivity. }
  split; [rewrite Hlen; lia|].
  split; [exact Hsorted|]. split; [exact Hin|].
  intros Hcount. rewrite Hplan. simpl. right.
  set (m := mkMessage (uuid4 L (uuid_reads w)) cid "user" (req_message request)
                      false None None (wall_clock L (clock_reads w))) in *.
  change (mkChatMessage "user" (req_message request))
    with ((fun h => mkChatMessage (role h) (content h)) m).
  apply in_map.
  assert (Hc1 : _count_messages (db w1) cid = S (_count_messages (db w) cid)).
  { unfold _count_messages. rewrite Hmsgs, filter_app, length_app. simpl.
    unfold cid. rewrite String.eqb_refl. simpl. lia. }
  apply (Permutation_in _ (Hall ltac:(lia))).
  apply filter_In. split.
  - rewrite Hmsgs. apply in_or_app. right. left. reflexivity.
  - simpl. apply String.eqb_refl.
Qed.

(** ** What a run of the generator stores *)

Lemma token_text_app_terminal toks e :
  is_token e = false ->
  token_text (map Token toks ++ [e]) = token_text (map Token toks).
Proof.
  intros He. induction toks as [|t ts IH]; simpl.
  - destruct e; try reflexivity; discriminate.
  - rewrite IH. reflexivity.
Qed.

Lemma db_update_conversation_keeps cid title w :
  messages (db (snd (db_update_conversation L cid title w))) = messages (db w)
  /\ document_cache (db (snd (db_update_conversation L cid title w)))
     = document_cache (db w).
Proof.
  unfold db_update_conversation, time_time, get_db, put_db, ret. unfold bind.
  simpl. unfold update_conversation.
  destruct (find_conversation _ _); simpl; auto.
Qed.

Lemma auto_title_keeps_messages net cid msg w :
  messages (db (snd (_auto_title L net cid msg w))) = messages (db w).
Proof.
  unfold _auto_title, bind at 1, get_llama at 1. simpl.
  destruct (is_running (llama w)); simpl.
  - destruct (title_reply net) as [sc [text|e]|e]; simpl; try reflexivity;
      destruct (sc =? 200)%Z; simpl; try reflexivity.
    destruct (nonempty _); simpl; [|reflexivity].
    unfold bind.
    pose proof (db_update_conversation_keeps cid
                  (slice_to 100 (strip_set is_quote (strip text))) w) as (Hk & _).
    destruct (db_update_conversation L cid _ w) as [[r|e] w1]; exact Hk.
  - unfold bind.
    match goal with
    | |- context [db_update_conversation L cid ?t w] =>
        pose proof (db_update_conversation_keeps cid t w) as (Hk & _);
        destruct (db_update_conversation L cid t w) as [[r|e] w1]
    end; exact Hk.
Qed.

(** X24.  What a run of the generator stores follows its terminal event:
    after an Error nothing has been written, so no partial reply is kept;
    after a Done the conversation has gained exactly one assistant message
    holding the text of the tokens in order, or nothing when no token was
    emitted. *)
Theorem stream_stores_reply_only_when_done
    (request : ChatRequest) (plan : ChatPlan) (net : ChatNet) (w w' : World)
    (evs : list StreamEvent) (r : result unit) :
  stream_response L request plan net w = ((evs, r), w') ->
  (forall c, In (Error c) evs -> db w' = db w)
  /\ (forall id n q, In (Done id n q) evs ->
        (token_text evs = "" -> messages (db w') = messages (db w))
        /\ (token_text evs <> "" ->
            exists m,
              messages (db w') = messages (db w) ++ [m]
              /\ role m = "assistant"
              /\ content m = token_text evs
              /\ conversation_id m = req_conversation_id request)).
Proof.
  unfold stream_response.
  destruct (relay L (stream_lines net) (stream_error net) "" 0)
    as [tokens loop] eqn:Hr.
  destruct (relay_shape L _ _ _ _ _ _ Hr) as (toks & -> & _).
  assert (Hnotin : forall e, is_token e = false -> ~ In e (map Token toks)).
  { intros e He Hin. apply in_map_iff in Hin. destruct Hin as (t & <- & _).
    discriminate. }
  assert (Hfull : forall full n, leave_stream net loop = Ok (full, n) ->
                                 full = token_text (map Token toks)).
  { unfold leave_stream. intros full n. destruct loop as [[f k]|e]; [|discriminate].
    destruct (close_error net); [discriminate|]. intros [= <- <-].
    apply (relay_accumulates _ _ _ _ _ _ _ _ Hr). }
  destruct (leave_stream net loop) as [[full n]|e].
  - specialize (Hfull full n eq_refl).
    assert (Htt : forall q id, token_text (Start id :: map Token toks
                                           ++ [Done id n q]) = full).
    { intros q id. cbn [token_text].
      rewrite token_text_app_terminal by reflexivity. symmetry. exact Hfull. }
    destruct (nonempty full) eqn:Hne.
    + unfold bind at 1.
      unfold db_save_message at 1, bind, new_uuid, time_time, get_db, put_db, lift.
      simpl.
      destruct (save_message _ _ _ _ _ _ _ _ _ _) as [[m|e0] d'] eqn:Hs; simpl.
      * destruct (save_message_ok _ _ _ _ _ _ _ _ _ _ _ _ Hs)
          as (Hm & Hmsgs & _).
        assert (Hres : forall wf,
                   messages (db wf) = messages d' ->
                   (forall c, In (Error c)
                                 ((Start (plan_msg_id plan) :: map Token toks)
                                  ++ [Done (plan_msg_id plan) n
                                        (py_round 1 (tokens_per_second_of n
            (fsub (time_float L (clock_reads (tick w)))
                  (time_float L (clock_reads w)))))]) ->
                              db wf = db w)
                   /\ (forall id k q,
                         In (Done id k q)
                            ((Start (plan_msg_id plan) :: map Token toks)
                             ++ [Done (plan_msg_id plan) n
                                   (py_round 1 (tokens_per_second_of n
            (fsub (time_float L (clock_reads (tick w)))
                  (time_float L (clock_reads w)))))]) ->
                         (token_text
                            ((Start (plan_msg_id plan) :: map Token toks)
                             ++ [Done (plan_msg_id plan) n
                                   (py_round 1 (tokens_per_second_of n
            (fsub (time_float L (clock_reads (tick w)))
                  (time_float L (clock_reads w)))))]) = "" ->
                          messages (db wf) = messages (db w))
                         /\ (token_text
                               ((Start (plan_msg_id plan) :: map Token toks)
                                ++ [Done (plan_msg_id plan) n
                                      (py_round 1 (tokens_per_second_of n
            (fsub (time_float L (clock_reads (tick w)))
                  (time_float L (clock_reads w)))))])
                             <> "" ->
                             exists m0,
                               messages (db wf) = messages (db w) ++ [m0]
                               /\ role m0 = "assistant"
                               /\ content m0 = token_text
                                    ((Start (plan_msg_id plan) :: map Token toks)
                                     ++ [Done (plan_msg_id plan) n
                                           (py_round 1 (tokens_per_second_of n
            (fsub (time_float L (clock_reads (tick w)))
                  (time_float L (clock_reads w)))))])
                               /\ conversation_id m0
                                  = req_conversation_id request))).
        { intros wf Hwf. split.
          - intros c Hin. exfalso. destruct Hin as [H|H]; [discriminate|].
            apply in_app_or in H. destruct H as [H|[H|[]]]; [|discriminate].
            revert H; apply Hnotin; reflexivity.
          - intros id k q _.
            change ((Start (plan_msg_id plan) :: map Token toks) ++ ?t)
              with (Start (plan_msg_id plan) :: map Token toks ++ t).
            rewrite Htt. split.
            + intros ->. discriminate.
            + intros _. exists m. rewrite Hwf, Hmsgs. simpl.
              rewrite Hm. simpl. auto. }
        destruct (is_first plan && true).
        -- destruct (_auto_title _ _ _ _ _) as [ra wa] eqn:Ha.
           intros [= <- <- <-]. apply Hres.
           pose proof (auto_title_keeps_messages net (req_conversation_id request)
                         (req_message request)
                         (mkWorld d' (llama w) (florence w)
                                  (S (S (S (S (clock_reads w)))))
                                  (S (uuid_reads w)) (work w))) as Hk.
           rewrite Ha in Hk. exact Hk.
        -- intros [= <- <- <-]. apply Hres. reflexivity.
      * intros [= <- <- <-]. split.
        -- intros c Hin. exfalso. destruct Hin as [H|H]; [discriminate|].
           revert H; apply Hnotin; reflexivity.
        -- intros id k q Hin. exfalso. destruct Hin as [H|H]; [discriminate|].
           revert H; apply Hnotin; reflexivity.
    + rewrite andb_false_r. intros [= <- <- <-]. split.
      * intros c Hin. exfalso. destruct Hin as [H|H]; [discriminate|].
        apply in_app_or in H. destruct H as [H|[H|[]]]; [|discriminate].
        revert H; apply Hnotin; reflexivity.
      * intros id k q _.
        change ((Start (plan_msg_id plan) :: map Token toks) ++ ?t)
          with (Start (plan_msg_id plan) :: map Token toks ++ t).
        rewrite Htt. split; [reflexivity|].
        intros Hn. exfalso. unfold nonempty in Hne.
        destruct (String.eqb_spec full ""); [contradiction|discriminate].
  - intros [= <- <- <-]. split; [reflexivity|].
    intros id k q Hin. exfalso. destruct Hin as [H|H]; [discriminate|].
    apply in_app_or in H. destruct H as [H|[H|[]]]; [|discriminate].
    revert H; apply Hnotin; reflexivity.
Qed.

End ChatStorage.

Section Titles.
Import Py Models Database Main.
Local Open Scope m_scope.

Variable L : Libs.

Lemma update_conversation_title d now cid title :
  option_map conv_title
    (get_conversation (snd (update_conversation d now cid title)) cid)
  = option_map (fun _ => title) (find_conversation d cid).
Proof.
  assert (Hd : snd (update_conversation d now cid title)
               = mkDb (update_rows (fun r => mkConvRow (row_id r) title
                                               (row_created_at r) now)
                                   cid (conversations d))
                      (messages d) (document_cache d) (model_log d)).
  { unfold update_conversation. destruct (find_conversation d cid); reflexivity. }
  rewrite Hd. unfold get_conversation, find_conversation at 1. simpl.
  rewrite find_update_rows by reflexivity.
  fold (find_conversation d cid).
  destruct (find_conversation d cid) as [row|] eqn:Hrow; [|reflexivity].
  simpl.
  assert (Hid : row_id row = cid).
  { unfold find_conversation in Hrow. apply find_some in Hrow.
    apply String.eqb_eq. apply Hrow. }
  rewrite Hid, String.eqb_refl. reflexivity.
Qed.

Lemma update_conversation_count d now cid title :
  option_map message_count
    (get_conversation (snd (update_conversation d now cid title)) cid)
  = option_map message_count (get_conversation d cid)
  /\ messages (snd (update_conversation d now cid title)) = messages d.
Proof.
  assert (Hd : snd (update_conversation d now cid title)
               = mkDb (update_rows (fun r => mkConvRow (row_id r) title
                                               (row_created_at r) now)
                                   cid (conversations d))
                      (messages d) (document_cache d) (model_log d)).
  { unfold update_conversation. destruct (find_conversation d cid); reflexivity. }
  rewrite Hd. split; [|reflexivity].
  unfold get_conversation, find_conversation. simpl.
  rewrite find_update_rows by reflexivity.
  destruct (find _ (conversations d)); reflexivity.
Qed.

Lemma db_update_conversation_title cid title w :
  fst (db_update_conversation L cid title w)
  = Ok (fst (update_conversation (db w) (wall_clock L (clock_reads w)) cid title))
  /\ db (snd (db_update_conversation L cid title w))
     = snd (update_conversation (db w) (wall_clock L (clock_reads w)) cid title)
  /\ llama (snd (db_update_conversation L cid title w)) = llama w
  /\ florence (snd (db_update_conversation L cid title w)) = florence w.
Proof.
  unfold db_update_conversation, time_time, get_db, put_db, ret, bind. simpl.
  destruct (update_conversation _ _ _ _) as [r d']. simpl. auto.
Qed.

Lemma firstn_five_length A (l : list A) :
  (List.length (firstn 5 l) =? 5)%nat = (5 <=? List.length l)%nat.
Proof.
  rewrite length_firstn.
  destruct (Nat.leb_spec 5 (List.length l)).
  - rewrite Nat.min_l by lia. reflexivity.
  - rewrite Nat.min_r by lia. apply Nat.eqb_neq. lia.
Qed.

(** X25.  With the engine stopped, [_auto_title] never raises and names
    the conversation after the first message: all of its words joined by
    single spaces when there are fewer than five, and otherwise the first
    five followed by an ellipsis, also when the message has exactly five
    words and nothing was cut. *)
Theorem auto_title_fallback_first_five_words
    (net : ChatNet) (cid first_message : string) (w : World)
    (old : Conversation) :
  is_running (llama w) = false ->
  get_conversation (db w) cid = Some old ->
  let '(r, w') := _auto_title L net cid first_message w in
  r = Ok tt
  /\ exists new,
       get_conversation (db w') cid = Some new
       /\ (List.length (split_ws first_message) < 5 ->
           conv_title new = join " " (split_ws first_message))
       /\ (5 <= List.length (split_ws first_message) ->
           conv_title new
           = (join " " (firstn 5 (split_ws first_message)) ++ "...")%string).
Proof.
  intros Hrun Hold.
  unfold _auto_title, bind at 1, get_llama at 1. cbv beta iota. rewrite Hrun.
  cbn [negb]. rewrite firstn_five_length.
  set (title := if (5 <=? List.length (split_ws first_message))%nat
                then (join " " (firstn 5 (split_ws first_message)) ++ "...")%string
                else join " " (firstn 5 (split_ws first_message))).
  pose proof (db_update_conversation_title cid title w) as (Hr & Hd & _).
  pose proof (update_conversation_title (db w) (wall_clock L (clock_reads w))
                cid title) as Ht.
  unfold bind.
  destruct (db_update_conversation L cid title w) as [[r|e] w1];
    simpl in Hr, Hd; [|discriminate].
  split; [reflexivity|].
  rewrite <- Hd in Ht.
  assert (Hfc : find_conversation (db w) cid <> None).
  { unfold get_conversation in Hold.
    destruct (find_conversation (db w) cid); [discriminate|discriminate]. }
  destruct (find_conversation (db w) cid) as [row|]; [|contradiction].
  simpl in Ht.
  destruct (get_conversation (db w1) cid) as [new|]; [|discriminate].
  injection Ht as Ht. exists new. split; [reflexivity|].
  unfold title in Ht. split; intros Hlen.
  - destruct (Nat.leb_spec 5 (List.length (split_ws first_message))); [lia|].
    rewrite firstn_all2 in Ht by lia. exact Ht.
  - destruct (Nat.leb_spec 5 (List.length (split_ws first_message))); [|lia].
    exact Ht.
Qed.

(** X26.  With the engine running, [_auto_title] never raises, whatever
    the title request does.  When the reply is a 200 whose body yields a
    title that is not empty once whitespace and quotes are stripped, the
    conversation is renamed to that title cut to 100 characters, and nothing
    else of the conversation changes.  In every other case (a failed
    request, another status, a body of another shape, an empty title)
    everything is left as it was. *)
Theorem auto_title_keeps_at_most_100_chars
    (net : ChatNet) (cid first_message : string) (w : World)
    (old : Conversation) :
  is_running (llama w) = true ->
  get_conversation (db w) cid = Some old ->
  let '(r, w') := _auto_title L net cid first_message w in
  r = Ok tt
  /\ (forall text,
        title_reply net = TitleReply 200 (Ok text) ->
        strip_set is_quote (strip text) <> "" ->
        exists new,
          get_conversation (db w') cid = Some new
          /\ conv_title new = slice_to 100 (strip_set is_quote (strip text))
          /\ String.length (conv_title new) <= 100
          /\ conv_title new <> ""
          /\ message_count new = message_count old
          /\ messages (db w') = messages (db w))
  /\ ((forall text, title_reply net = TitleReply 200 (Ok text) ->
                    strip_set is_quote (strip text) = "") ->
      w' = w).
Proof.
  intros Hrun Hold.
  unfold _auto_title, bind at 1, get_llama at 1. simpl. rewrite Hrun. simpl.
  destruct (title_reply net) as [sc [text|e]|e] eqn:Hreply;
    try (split; [reflexivity|split; [intros text H; discriminate H|reflexivity]]).
  - destruct (Z.eqb_spec sc 200) as [->|Hsc].
    2:{ split; [reflexivity|]. split; [|reflexivity].
        intros text' [= H _]. contradiction. }
    destruct (nonempty (strip_set is_quote (strip text))) eqn:Hne.
    2:{ split; [reflexivity|]. split; [|reflexivity].
        intros text' [= <-] Hn. exfalso. unfold nonempty in Hne.
        destruct (String.eqb_spec (strip_set is_quote (strip text)) "");
          [contradiction|discriminate]. }
    assert (Hnonempty : strip_set is_quote (strip text) <> "").
    { unfold nonempty in Hne.
      destruct (String.eqb_spec (strip_set is_quote (strip text)) "");
        [discriminate|assumption]. }
    set (title := slice_to 100 (strip_set is_quote (strip text))).
    pose proof (db_update_conversation_title cid title w) as (Hr & Hd & _).
    pose proof (update_conversation_title (db w) (wall_clock L (clock_reads w))
                  cid title) as Ht.
    pose proof (update_conversation_count (db w) (wall_clock L (clock_reads w))
                  cid title) as (Hcount & Hmsgs).
    unfold bind.
    destruct (db_update_conversation L cid title w) as [[r|e] w1];
      simpl in Hr, Hd; [|discriminate].
    split; [reflexivity|].
    rewrite <- Hd in Ht, Hcount, Hmsgs.
    split.
    + intros text' [= <-] _.
      assert (Hfc : find_conversation (db w) cid <> None).
      { unfold get_conversation in Hold.
        destruct (find_conversation (db w) cid); [discriminate|discriminate]. }
      destruct (find_conversation (db w) cid) as [row|]; [|contradiction].
      simpl in Ht. rewrite Hold in Hcount. simpl in Hcount.
      destruct (get_conversation (db w1) cid) as [new|]; [|discriminate].
      injection Ht as Ht. injection Hcount as Hcount.
      exists new. split; [reflexivity|]. split; [exact Ht|].
      rewrite Ht. unfold title. split; [apply slice_to_length|].
      split.
      * intros Hc. apply Hnonempty. apply (slice_to_empty_iff 99). exact Hc.
      * split; [exact Hcount | exact Hmsgs].
    + intros Hall. exfalso. apply Hnonempty. apply Hall. reflexivity.
  - destruct (sc =? 200)%Z;
      (split; [reflexivity|split; [intros text H; discriminate H|reflexivity]]).
Qed.

End Titles.

Section PlainText.
Import Py Models Database Main.
Local Open Scope m_scope.

Variable L : Libs.

(** X27.  A file that is not yet cached and whose extension is none of
    pdf, the seven image types and docx (or that has no extension at all) is
    read as UTF-8 text: when it decodes, the upload succeeds with method
    plaintext, the decoded text, no metadata and one page; when it does not,
    the upload is refused with a 400 that names the extension and nothing is
    cached.  Either way the decoder is the only extraction library called. *)
Theorem unknown_extension_is_read_as_text
    (data : bytes) (name : option string) (w : World) :
  let ext := file_ext_of (filename_of name) in
  ext <> "pdf" -> ext <> "docx" ->
  existsb (String.eqb ext) image_extensions = false ->
  get_cached_document (db w) (_compute_file_hash L data) = None ->
  ~ In (uuid4 L (uuid_reads w)) (map drow_id (document_cache (db w))) ->
  let '(r, w') := upload_document L data name w in
  work w' = work w ++ [Utf8Decode]
  /\ match decode_utf8 L data with
     | Some text =>
         exists res,
           r = Ok res
           /\ res_extracted_text res = text
           /\ res_extraction_method res = "plaintext"
           /\ res_metadata res = []
           /\ pages res = Some (MInt 1)
           /\ cached res = false
           /\ List.length (document_cache (db w'))
              = S (List.length (document_cache (db w)))
     | None =>
         r = Raise (HTTPException 400 ("Unsupported file type: ." ++ ext))
         /\ document_cache (db w') = document_cache (db w)
     end.
Proof.
  intros ext Hpdf Hdocx Himg Hmiss Hfresh.
  rewrite (upload_document_miss L data name w Hmiss). fold ext.
  assert (Hid : existsb (fun r => String.eqb (drow_id r) (uuid4 L (uuid_reads w)))
                        (document_cache (db w)) = false).
  { match goal with |- ?x = false => destruct x eqn:E end; [|reflexivity].
    exfalso. apply Hfresh.
    apply existsb_exists in E. destruct E as (x & Hin & Hx).
    apply String.eqb_eq in Hx. apply in_map_iff. exists x. auto. }
  assert (Hh : existsb (fun r => String.eqb (drow_file_hash r)
                                            (_compute_file_hash L data))
                       (document_cache (db w)) = false).
  { match goal with |- ?x = false => destruct x eqn:E end; [|reflexivity].
    exfalso. apply existsb_exists in E. destruct E as (x & Hin & Hx).
    unfold get_cached_document in Hmiss.
    destruct (find _ _) eqn:Hf; [discriminate|].
    apply (find_none _ _ Hf) in Hin. congruence. }
  set (w1 := mkWorld (db w) (llama w) (florence w) (S (clock_reads w))
                     (uuid_reads w) (work w ++ [Utf8Decode])).
  assert (Hfin : exists w2,
             unload_after_processing w1 = (Ok tt, w2)
             /\ document_cache (db w2) = document_cache (db w)
             /\ uuid_reads w2 = uuid_reads w
             /\ work w2 = work w ++ [Utf8Decode]).
  { unfold unload_after_processing, bind, get_florence, put_florence,
      db_log_model_event, get_db, put_db, ret. cbn [fst snd florence w1].
    destruct (is_loaded (florence w)); eexists; (split; [reflexivity|]);
      cbn; auto. }
  destruct Hfin as (w2 & Hfin & Hdc & Hu & Hwk).
  assert (Hrw : try_finally (translate_errors (extract L ext data))
                            unload_after_processing (tick w)
                = (match decode_utf8 L data with
                   | Some text => Ok (text, "plaintext", [])
                   | None => Raise (HTTPException 400
                                      ("Unsupported file type: ." ++ ext))
                   end, w2)).
  { unfold try_finally, translate_errors, extract.
    destruct (String.eqb_spec ext "pdf") as [E|_]; [contradiction|].
    rewrite Himg.
    destruct (String.eqb_spec ext "docx") as [E|_]; [contradiction|].
    unfold bind at 1, log_work at 1. cbv beta iota.
    change (mkWorld (db (tick w)) (llama (tick w)) (florence (tick w))
                    (clock_reads (tick w)) (uuid_reads (tick w))
                    (work (tick w) ++ [Utf8Decode])) with w1.
    destruct (decode_utf8 L data) as [text|]; unfold ret, raise;
      rewrite Hfin; reflexivity. }
  rewrite Hrw. cbn [fst snd]. clear Hrw Hfin.
  destruct w2 as [[cv2 ms2 dc2 lg2] l2 f2 c2 u2 k2]. cbn in Hdc, Hu, Hwk.
  subst dc2 u2 k2.
  destruct (decode_utf8 L data) as [text|].
  - unfold db_cache_document, bind, new_uuid, time_time, get_db, put_db, lift,
      cache_document. cbn [fst snd db uuid_reads clock_reads tick].
    cbn [db document_cache]. rewrite Hid, Hh. cbn.
    split; [reflexivity|]. eexists. split; [reflexivity|]. cbn.
    rewrite ?length_app. cbn. repeat split. lia.
  - cbn. auto.
Qed.

End PlainText.

Lemma unknown_extension_is_read_as_text_witness :
  exists res w',
    Main.upload_document Fixtures.demo_libs "plain notes" (Some "README")
                         Fixtures.fresh_world = (Ok res, w')
    /\ Main.res_extraction_method res = "plaintext"
    /\ Main.work w' = [Main.Utf8Decode].
Proof.
  assert (H1 : Main.file_ext_of (Main.filename_of (Some "README")) <> "pdf")
    by (vm_compute; discriminate).
  assert (H2 : Main.file_ext_of (Main.filename_of (Some "README")) <> "docx")
    by (vm_compute; discriminate).
  assert (H3 : existsb (String.eqb (Main.file_ext_of
                                      (Main.filename_of (Some "README"))))
                       Main.image_extensions = false) by reflexivity.
  assert (H4 : Database.get_cached_document (Main.db Fixtures.fresh_world)
                 (Main._compute_file_hash Fixtures.demo_libs "plain notes") = None)
    by reflexivity.
  assert (H5 : ~ In (Main.uuid4 Fixtures.demo_libs
                       (Main.uuid_reads Fixtures.fresh_world))
                    (map Database.drow_id
                         (Database.document_cache (Main.db Fixtures.fresh_world))))
    by (intros []).
  pose proof (unknown_extension_is_read_as_text Fixtures.demo_libs "plain notes"
                (Some "README") Fixtures.fresh_world H1 H2 H3 H4 H5) as H.
  eassert (E : Main.upload_document Fixtures.demo_libs "plain notes" (Some "README")
                 Fixtures.fresh_world = (Ok _, _)) by (vm_compute; reflexivity).
  rewrite E in H. destruct H as (Hw & res & Hr & _ & Hm & _).
  eexists. eexists. split; [exact E|]. injection Hr as <-.
  split; [exact Hm | exact Hw].
Defined.

Section ModelEndpoints.
Import Py Models Database Main.
Local Open Scope m_scope.

Lemma poll_until_ready_ok timeout deadline p obs p' :
  poll_until_ready timeout deadline p obs = Some (Ok tt, p') ->
  p' = p /\ returncode p = None.
Proof.
  induction obs as [|o rest IH]; simpl; [discriminate|].
  destruct (Qlt_bool (obs_time o) deadline); [|discriminate].
  destruct (returncode p) as [c|]; [discriminate|].
  destruct (obs_poll o); [discriminate|].
  destruct (obs_health o) as [sc|e].
  - destruct (sc =? 200)%Z; [intros [= <-]; auto | exact IH].
  - destruct e; try discriminate. exact IH.
Qed.

Lemma start_ok_is_running m threads context_size env m' :
  is_running m = false ->
  start m threads context_size env = Some (Ok tt, m') ->
  is_running m' = true.
Proof.
  unfold start. intros ->.
  destruct (binary_is_file env); simpl; [|discriminate].
  destruct (model_is_file env); simpl; [|discriminate].
  destruct (spawn env _) as [p|e]; [|discriminate].
  unfold _wait_for_ready.
  destruct (poll_until_ready _ _ _ _) as [[[[]|e] p']|] eqn:Hp; [| |discriminate].
  - intros [= <-]. apply poll_until_ready_ok in Hp. destruct Hp as (-> & Hrc).
    unfold is_running. simpl. rewrite Hrc. reflexivity.
  - destruct e; try discriminate.
    destruct (stop _ _) as [[[[]|e] m2] sigs]; discriminate.
Qed.

(** X28.  [start_model] for the text engine: a running engine is left
    alone and reported as already running, with nothing logged; otherwise
    exactly one row is added to the model log and no other table changes.
    When [start] returns, the engine is running, the body carries its pid
    and the row is a start row that names the pid.  When [start] raises, the
    caller gets a 500 whose detail is [str] of that exception, the row is an
    error row with the same text as its detail, and the manager is left as
    [start] left it. *)
Theorem start_model_logs_one_row
    (threads : option nat) (context_size : Z) (env : StartEnv) (w w' : World)
    (r : result (string * option Z)) :
  start_model_falcon3_7b threads context_size env w = Some (r, w') ->
  (is_running (llama w) = true ->
   r = Ok ("already_running", pid_of (llama w)) /\ w' = w)
  /\ (is_running (llama w) = false ->
      conversations (db w') = conversations (db w)
      /\ messages (db w') = messages (db w)
      /\ document_cache (db w') = document_cache (db w)
      /\ exists row,
           model_log (db w') = model_log (db w) ++ [row]
           /\ log_model_name row = "falcon3-7b"
           /\ (forall m',
                 start (llama w) threads context_size env = Some (Ok tt, m') ->
                 llama w' = m' /\ is_running m' = true
                 /\ exists p,
                      pid_of m' = Some p
                      /\ r = Ok ("started", Some p)
                      /\ log_event row = "start"
                      /\ log_details row = Some ("pid=" ++ str_Z p)%string)
           /\ (forall e m',
                 start (llama w) threads context_size env = Some (Raise e, m') ->
                 llama w' = m'
                 /\ r = Raise (HTTPException 500 (str_exn e))
                 /\ log_event row = "error"
                 /\ log_details row = Some (str_exn e))).
Proof.
  unfold start_model_falcon3_7b.
  destruct (is_running (llama w)) eqn:Hrun.
  - intros [= <- <-]. split; [auto|discriminate].
  - intros H. split; [discriminate|]. intros _.
    destruct (start (llama w) threads context_size env) as [[[[]|e] m']|] eqn:Hs;
      [| |discriminate].
    + pose proof (start_ok_is_running _ _ _ _ _ Hrun Hs) as Hr'.
      unfold put_llama, db_log_model_event, bind, get_db, put_db in H.
      simpl in H. injection H as <- <-. simpl.
      repeat split. eexists. split; [reflexivity|]. simpl.
      split; [reflexivity|]. split; [|intros e0 m0 H0; discriminate H0].
      intros m0 [= <-]. split; [reflexivity|]. split; [exact Hr'|].
      unfold pid_of in *. rewrite Hr'. unfold is_running in Hr'.
      destruct (process m') as [p|]; [|discriminate].
      exists (pid p). simpl. auto.
    + unfold put_llama, db_log_model_event, bind, get_db, put_db in H.
      simpl in H. injection H as <- <-. simpl.
      repeat split. eexists. split; [reflexivity|]. simpl.
      split; [reflexivity|]. split; [intros m0 H0; discriminate H0|].
      intros e0 m0 [= <- <-]. auto.
Qed.

(** X29.  [stop_model]: a call that returns has left the named engine
    down, the text engine not running or the vision model not loaded, and
    the other engine as it was.  It fails in two ways only: a name that is
    neither engine is a 404 and changes nothing; and when the engine's child
    survives the kill, the handle stays in place, the engine still counts as
    running and no stop is logged. *)
Theorem stop_model_leaves_engine_down
    (model_name : string) (env : StopEnv) (w : World) :
  let '(r, w') := stop_model model_name env w in
  messages (db w') = messages (db w)
  /\ conversations (db w') = conversations (db w)
  /\ match r with
     | Ok status =>
         (model_name = "falcon3-7b"
          /\ is_running (llama w') = false /\ florence w' = florence w
          /\ (is_running (llama w) = false ->
              status = "not_running" /\ w' = w)
          /\ (is_running (llama w) = true ->
              status = "stopped" /\ process (llama w') = None))
         \/ (model_name = "florence2"
             /\ is_loaded (florence w') = false /\ llama w' = llama w
             /\ (is_loaded (florence w) = false ->
                 status = "not_loaded" /\ w' = w)
             /\ (is_loaded (florence w) = true -> status = "unloaded"))
     | Raise e =>
         (model_name <> "falcon3-7b" /\ model_name <> "florence2"
          /\ e = HTTPException 404 ("Unknown model: " ++ model_name) /\ w' = w)
         \/ (model_name = "falcon3-7b"
             /\ (exists p, process (llama w) = Some p
                           /\ e = TimeoutExpired (args p) 5)
             /\ is_running (llama w') = true
             /\ model_log (db w') = model_log (db w))
     end.
Proof.
  unfold stop_model.
  destruct (String.eqb_spec model_name "falcon3-7b") as [->|Hf].
  - unfold bind at 1, get_llama at 1. cbv beta iota.
    destruct (is_running (llama w)) eqn:Hrun; cbn [negb].
    + unfold stop, is_running in *.
      destruct (process (llama w)) as [p|] eqn:Hp; [|discriminate].
      destruct (returncode p) eqn:Hrc; [discriminate|].
      destruct (exits_after_terminate env);
        [|destruct (exits_after_kill env)];
        unfold put_llama, db_log_model_event, bind, get_db, put_db, lift, ret;
        cbn; repeat split; auto.
      * left. repeat split; intros; try reflexivity; congruence.
      * left. repeat split; intros; try reflexivity; congruence.
      * right. repeat split; eauto. rewrite Hp, Hrc. reflexivity.
    + cbn. repeat split. left. repeat split; intros; try reflexivity; congruence.
  - destruct (String.eqb_spec model_name "florence2") as [->|Hv].
    + unfold stop_model_florence2, bind at 1, get_florence at 1. cbv beta iota.
      destruct (is_loaded (florence w)) eqn:Hl; cbn [negb].
      * unfold put_florence, db_log_model_event, bind, get_db, put_db, ret,
          unload. cbn. rewrite Hl. cbn. repeat split. right.
        repeat split; intros; try reflexivity; congruence.
      * cbn. repeat split. right. repeat split; intros; try reflexivity; congruence.
    + cbn. repeat split. left. auto.
Qed.

(** X30.  The shutdown half of [lifespan]: when it completes, the text
    engine is not running and the vision model is not loaded.  It can fail
    only with [TimeoutExpired], when the engine's child survives the kill;
    the vision model is then not unloaded, whatever its state.  No
    conversation or message is touched either way. *)
Theorem shutdown_skips_vision_when_stop_fails (env : StopEnv) (w : World) :
  let '(r, w') := lifespan_shutdown env w in
  messages (db w') = messages (db w)
  /\ conversations (db w') = conversations (db w)
  /\ match r with
     | Ok _ => is_running (llama w') = false
               /\ is_loaded (florence w') = false
     | Raise e => (exists p, process (llama w) = Some p
                            /\ e = TimeoutExpired (args p) 5)
                  /\ is_running (llama w') = true
                  /\ florence w' = florence w
     end.
Proof.
  unfold lifespan_shutdown, bind at 1, get_llama at 1. cbv beta iota.
  assert (Hfl : forall w1 : World,
             let '(r, w') :=
               (f <- get_florence ;;
                if is_loaded f
                then put_florence (unload f) ;;;
                     db_log_model_event "florence2" "unloaded"
                       (Some "Backend shutdown")
                else ret tt) w1 in
             r = Ok tt /\ messages (db w') = messages (db w1)
             /\ conversations (db w') = conversations (db w1)
             /\ llama w' = llama w1 /\ is_loaded (florence w') = false).
  { intros w1. unfold bind, get_florence, put_florence, db_log_model_event,
      get_db, put_db, ret, unload.
    destruct (is_loaded (florence w1)) eqn:Hl; cbn; rewrite ?Hl; cbn; auto. }
  destruct (is_running (llama w)) eqn:Hrun.
  - unfold stop, is_running in *.
    destruct (process (llama w)) as [p|] eqn:Hp; [|discriminate].
    destruct (returncode p) eqn:Hrc; [discriminate|].
    destruct (exits_after_terminate env);
      [|destruct (exits_after_kill env)];
      unfold bind at 1;
      unfold put_llama at 1, db_log_model_event at 1, bind at 1 2 3, get_db at 1,
        put_db at 1, lift at 1; cbv beta iota.
    + match goal with |- context [bind get_florence ?k ?w1] =>
        specialize (Hfl w1); destruct (bind get_florence k w1) as [r w']
      end.
      destruct Hfl as (-> & Hm & Hc & Hll & Hld). rewrite Hm, Hc, Hll. cbn. auto.
    + match goal with |- context [bind get_florence ?k ?w1] =>
        specialize (Hfl w1); destruct (bind get_florence k w1) as [r w']
      end.
      destruct Hfl as (-> & Hm & Hc & Hll & Hld). rewrite Hm, Hc, Hll. cbn. auto.
    + cbn. rewrite Hp, Hrc. repeat split; eauto.
  - unfold bind at 1, ret at 1. cbv beta iota.
    specialize (Hfl w).
    match goal with |- context [bind get_florence ?k w] =>
      destruct (bind get_florence k w) as [r w']
    end.
    destruct Hfl as (-> & Hm & Hc & Hll & Hld). rewrite Hm, Hc, Hll. auto.
Qed.

End ModelEndpoints.

Lemma chat_request_window_witness :
  exists plan w1,
    Main.chat_prepare Fixtures.demo_libs (Fixtures.ask "Hi there")
                      (Fixtures.chat_world 3) = (Ok plan, w1)
    /\ In (Main.mkChatMessage "user" "Hi there") (Main.request_messages plan).
Proof.
  eassert (H : Main.chat_prepare Fixtures.demo_libs (Fixtures.ask "Hi there")
                 (Fixtures.chat_world 3) = (Ok _, _))
    by (vm_compute; reflexivity).
  destruct (chat_request_window Fixtures.demo_libs _ _ _ _ H)
    as (history & _ & _ & _ & _ & _ & _ & _ & Hin).
  eexists. eexists. split; [exact H|].
  apply Hin. vm_compute. lia.
Defined.

Lemma stream_stores_reply_only_when_done_witness :
  exists evs r w' m,
    Main.stream_response Fixtures.demo_libs (Fixtures.ask "Hi there")
      (Main.mkChatPlan [] false "uuid-1") Fixtures.two_tokens
      (Fixtures.chat_world 0) = ((evs, r), w')
    /\ Database.messages (Main.db w')
       = Database.messages (Main.db (Fixtures.chat_world 0)) ++ [m]
    /\ Database.content m = "Hello world".
Proof.
  eassert (H : Main.stream_response Fixtures.demo_libs (Fixtures.ask "Hi there")
                 (Main.mkChatPlan [] false "uuid-1") Fixtures.two_tokens
                 (Fixtures.chat_world 0) = ((_, _), _))
    by (vm_compute; reflexivity).
  destruct (stream_stores_reply_only_when_done Fixtures.demo_libs _ _ _ _ _ _ _ H)
    as (_ & Hdone).
  assert (Hin : In (Main.Done "uuid-1" 2 (Py.float_of_Q (7 # 10)))
                   [Main.Start "uuid-1"; Main.Token "Hello"; Main.Token " world";
                    Main.Done "uuid-1" 2 (Py.float_of_Q (7 # 10))])
    by (simpl; auto).
  destruct (Hdone _ _ _ Hin) as (_ & Hsome).
  destruct (Hsome ltac:(discriminate)) as (m & Hm & _ & Hc & _).
  eexists. eexists. eexists. exists m.
  split; [exact H|]. split; [exact Hm | exact Hc].
Defined.

(** X25, on a message whose first two words are set apart by a no-break
    space: it has six words, and the title is the first five and the
    ellipsis. *)
Lemma auto_title_fallback_first_five_words_witness :
  exists new,
    Database.get_conversation
      (Main.db (snd (Main._auto_title Fixtures.demo_libs Fixtures.two_tokens "c1"
                       ("a" ++ String (ascii_of_nat 160) "b c d e f")
                       (Main.mkWorld (Main.db (Fixtures.chat_world 0))
                                     Fixtures.stopped_llama
                                     Fixtures.fresh_florence 1 0 [])))) "c1"
    = Some new
    /\ Database.conv_title new = "a b c d e...".
Proof.
  pose proof (auto_title_fallback_first_five_words Fixtures.demo_libs
                Fixtures.two_tokens "c1"
                ("a" ++ String (ascii_of_nat 160) "b c d e f")
                (Main.mkWorld (Main.db (Fixtures.chat_world 0))
                              Fixtures.stopped_llama
                              Fixtures.fresh_florence 1 0 [])
                (Database.mkConversation "c1" "New Conversation" 0%Q
                                         (inject_Z 0) 0 false)
                eq_refl eq_refl) as H.
  destruct (Main._auto_title _ _ _ _ _) as [r w'].
  destruct H as (_ & new & Hg & _ & Hlong).
  exists new. split; [exact Hg|].
  rewrite Hlong by (vm_compute; lia). vm_compute. reflexivity.
Defined.

(** X26, on the stand-in engine, whose title reply is [Greeting]. *)
Lemma auto_title_keeps_at_most_100_chars_witness :
  exists new,
    Database.get_conversation
      (Main.db (snd (Main._auto_title Fixtures.demo_libs Fixtures.two_tokens "c1"
                       "Hi there" (Fixtures.chat_world 0)))) "c1"
    = Some new
    /\ Database.conv_title new = "Greeting".
Proof.
  pose proof (auto_title_keeps_at_most_100_chars Fixtures.demo_libs
                Fixtures.two_tokens "c1" "Hi there" (Fixtures.chat_world 0)
                (Database.mkConversation "c1" "New Conversation" 0%Q
                                         (inject_Z 0) 0 false)
                eq_refl eq_refl) as H.
  destruct (Main._auto_title _ _ _ _ _) as [r w'].
  destruct H as (_ & Hstore & _).
  destruct (Hstore "Greeting" eq_refl ltac:(vm_compute; discriminate))
    as (new & Hg & Ht & _).
  exists new. split; [exact Hg|]. rewrite Ht. vm_compute. reflexivity.
Defined.

(** X28, on an engine that never gets ready and whose child survives the
    kill: the 500 carries the text of [subprocess.TimeoutExpired]. *)
Lemma start_model_logs_one_row_witness :
  exists w' row,
    Main.start_model_falcon3_7b None 4096 (Fixtures.timeout_env Fixtures.unkillable)
                                Fixtures.fresh_world
    = Some (Raise (HTTPException 500
                     "Command '['/opt/bitnet/llama-server', '-m', '/opt/models/model.gguf', '--host', '127.0.0.1', '--port', '8082', '-t', '4', '-c', '4096', '--log-disable']' timed out after 5 seconds"),
            w')
    /\ Database.model_log (Main.db w') = [row]
    /\ Database.log_event row = "error".
Proof.
  destruct (Main.start_model_falcon3_7b None 4096
              (Fixtures.timeout_env Fixtures.unkillable) Fixtures.fresh_world)
    as [[r w']|] eqn:H; [|vm_compute in H; discriminate H].
  destruct (start_model_logs_one_row _ _ _ _ _ _ H) as (_ & Hstart).
  destruct (Hstart eq_refl) as (_ & _ & _ & row & Hlog & _ & _ & Hfail).
  eassert (Hs : Models.start (Main.llama Fixtures.fresh_world) None 4096
                  (Fixtures.timeout_env Fixtures.unkillable) = Some (Raise _, _))
    by (vm_compute; reflexivity).
  destruct (Hfail _ _ Hs) as (_ & -> & Hev & _).
  exists w', row. split; [reflexivity|]. split; [exact Hlog | exact Hev].
Defined.
